(** * neo: the reminder scheduler of [neo/ext/customisation.py]

    A shallow embedding of the [Reminder] class and of the reminder
    commands of the [Customisation] cog ([_remind], [_remind_remove],
    [_create_first_reminders], [cog_unload]) together with the
    [Context.loading] context manager of [neo/context.py] they run under.

    Python strings are lists of characters, Python integers are [Z],
    the [reminders] table is the list of its rows, the tasks of the event
    loop are a list, and a coroutine is a function from the state before
    it to its outcome (a value or a raised exception) and the state after. *)

From Stdlib Require Import ZArith List Bool Ascii String Lia Sorted Permutation ListSet.
Import ListNotations.

Local Open Scope Z_scope.

(** ** Python values: strings, integers, exceptions *)

Module Py.

Definition str := list ascii.

(** A string literal of the source. *)
Definition lit (s : string) : str := list_ascii_of_string s.

(** The exceptions the modelled code can meet.  [Forbidden] and
    [NotFound] are subclasses of [HTTPException] in discord.py. *)
Inductive exn :=
| Forbidden
| NotFound
| HTTPException
| PostgresError
| UnboundLocalError
| ValueError
| IndexError
| KeyError
| AttributeError
| RuntimeError.

Definition exn_eqb (a b : exn) : bool :=
  match a, b with
  | Forbidden, Forbidden | NotFound, NotFound
  | HTTPException, HTTPException | PostgresError, PostgresError
  | UnboundLocalError, UnboundLocalError | ValueError, ValueError
  | IndexError, IndexError | KeyError, KeyError
  | AttributeError, AttributeError | RuntimeError, RuntimeError => true
  | _, _ => false
  end.

(** [isinstance(e, (discord.Forbidden, discord.HTTPException))] *)
Definition is_http (e : exn) : bool :=
  match e with
  | Forbidden | NotFound | HTTPException => true
  | _ => false
  end.

(** What a command callback returns: [None], or an integer if it had a
    count to report. *)
Inductive value :=
| PyNone
| PyInt (n : Z).

Fixpoint str_eqb (a b : str) : bool :=
  match a, b with
  | [], [] => true
  | x :: a', y :: b' => Ascii.eqb x y && str_eqb a' b'
  | _, _ => false
  end.

(** [s.startswith(p)] and [s.endswith(p)] *)
Definition startswith (s p : str) : bool :=
  str_eqb (firstn (List.length p) s) p.

Definition endswith (s p : str) : bool :=
  (List.length p <=? List.length s)%nat && str_eqb (skipn (List.length s - List.length p) s) p.

(** [str(n)] for an integer: decimal digits, most significant first, with
    a minus sign for a negative number.  The digits are produced least
    significant first onto an accumulator; [fuel] bounds the number of
    digits and [digits] gives one more than the binary length, which
    [digits_fuel_enough] shows to be enough. *)
Definition digit_char (d : Z) : ascii := ascii_of_nat (48 + Z.to_nat d).

Fixpoint digits_fuel (fuel : nat) (n : Z) (acc : str) : str :=
  match fuel with
  | O => acc
  | S f =>
      if n <? 10 then digit_char n :: acc
      else digits_fuel f (n / 10) (digit_char (n mod 10) :: acc)
  end.

Definition digits (n : Z) : str :=
  digits_fuel (S (Z.to_nat (Z.log2 n))) n [].

Definition str_of_int (n : Z) : str :=
  if n <? 0 then "-"%char :: digits (- n) else digits n.

(** The [k] lowest decimal digits of [n], most significant first, in front
    of [acc]: what [digits_fuel] produces for a number of [k] digits. *)
Fixpoint fixed_digits (k : nat) (n : Z) (acc : str) : str :=
  match k with
  | O => acc
  | S k' => fixed_digits k' (n / 10) (digit_char (n mod 10) :: acc)
  end.

(** [int(s)] for a string: an optional sign and at least one decimal
    digit, [ValueError] otherwise (the empty string included). *)
Definition digit_val (c : ascii) : option Z :=
  let k := Z.of_nat (nat_of_ascii c) in
  if (48 <=? k) && (k <=? 57) then Some (k - 48) else None.

Fixpoint parse_digits (acc : Z) (s : str) : option Z :=
  match s with
  | [] => Some acc
  | c :: s' =>
      match digit_val c with
      | Some d => parse_digits (10 * acc + d) s'
      | None => None
      end
  end.

Definition parse_unsigned (s : str) : exn + Z :=
  match s with
  | [] => inl ValueError
  | _ => match parse_digits 0 s with
         | Some n => inr n
         | None => inl ValueError
         end
  end.

Definition int_of_str (s : str) : exn + Z :=
  match s with
  | "-"%char :: s' =>
      match parse_unsigned s' with
      | inr n => inr (- n)
      | inl e => inl e
      end
  | "+"%char :: s' => parse_unsigned s'
  | _ => parse_unsigned s
  end.

End Py.

(** ** The id of a new reminder *)

(** [int(str(int(time()))[4:])], as a function of the integer timestamp
    [int(time())]. *)
Definition reminder_id_of (timestamp : Z) : Py.exn + Z :=
  Py.int_of_str (skipn 4 (Py.str_of_int timestamp)).

(** ** The data of the scheduler *)

(** A Discord user, as far as the scheduler looks at it: [user.id]. *)
Record User := mkUser { uid : Z }.

(** A row of the [reminders] table:
    [(user_id, content, deadline, id, origin_jump)]. *)
Record Row := mkRow {
  row_user_id : Z;
  row_content : Py.str;
  row_deadline : Z;
  row_id : Z;
  row_origin_jump : Py.str
}.

(** The attributes of a [Reminder] object.  [bot] and [conn_pool] are the
    one bot and its one connection and are not stored per object; [user]
    is [None] when [bot.get_user] did not find the owner. *)
Record Reminder := mkReminder {
  user : option User;
  content : Py.str;
  deadline : Z;
  rm_id : Z;
  jump_origin : Py.str
}.

(** A task of the event loop: the [_do_wait] coroutine of a reminder,
    created and named by [Reminder.__init__], or any other task. *)
Inductive Task :=
| ReminderTask (r : Reminder)
| OtherTask (name : Py.str).

(** [f"REMINDER-{self.rm_id}"] *)
Definition reminder_task_name (i : Z) : Py.str :=
  Py.lit "REMINDER-" ++ Py.str_of_int i.

Definition get_name (t : Task) : Py.str :=
  match t with
  | ReminderTask r => reminder_task_name (rm_id r)
  | OtherTask name => name
  end.

(** Where a notification is sent: a channel or a user's direct messages. *)
Inductive Target :=
| ToChannel (channel_id : Z)
| ToUser (u : User).

(** The notification, before it is rendered as text: the owner it
    mentions, the link it shows and the content it quotes. *)
Record Message := mkMessage {
  msg_mention : User;
  msg_link : Py.str;
  msg_body : Py.str
}.

(** The two statements the scheduler executes on the [reminders] table. *)
Inductive Stmt :=
| Insert (row : Row)
| Delete (id : Z) (user_id : Z).

(** The reactions [Context.loading] puts on and takes off the message. *)
Inductive Reaction :=
| AddLoading
| RemoveLoading
| AddTick.

(** What has happened so far, oldest first. *)
Inductive Event :=
| EvInsert (row : Row)
| EvDelete (id : Z) (user_id : Z)
| EvArm (id : Z)
| EvDeliver (target : Target) (m : Message)
| EvCommandError (e : Py.exn).

Record State := mkState {
  tasks : list Task;        (* asyncio.all_tasks(bot.loop) *)
  reminders : list Row;     (* the reminders table *)
  trace : list Event
}.

(** The collaborators of the scheduler at the time of one operation: the
    clock, Discord, the database and the event loop.  A call that can
    raise is given by the exception it raises, if any. *)
Record Env := mkEnv {
  now : Z;                                   (* int(time()) *)
  url_channel : Py.str -> Py.exn + Z;        (* int(list(URL(j).parts)[3]) *)
  get_channel : Z -> option Z;               (* bot.get_channel *)
  get_user : Z -> option User;               (* bot.get_user *)
  dm_reminders : Z -> option bool;           (* bot.user_cache[id]['dm_reminders'] *)
  send_raises : Target -> Message -> option Py.exn;
  execute_raises : Stmt -> option Py.exn;    (* bot.conn.execute *)
  fetch_raises : option Py.exn;              (* bot.conn.fetch *)
  create_task_raises : Py.str -> option Py.exn;
  react_raises : Reaction -> option Py.exn;
  ctx_send_raises : option Py.exn
}.

(** The invocation context of a command and the converted argument of
    [remind] ([reminder.string], [reminder.time]). *)
Record Ctx := mkCtx {
  author : User;
  jump_url : Py.str
}.

Record TimeConverted := mkTimeConverted {
  tc_string : Py.str;
  tc_time : Z
}.

(** ** Coroutines *)

Definition Coro (A : Type) : Type := State -> (Py.exn + A) * State.

Definition ret {A} (a : A) : Coro A := fun s => (inr a, s).

Definition raise {A} (e : Py.exn) : Coro A := fun s => (inl e, s).

Definition bind {A B} (c : Coro A) (k : A -> Coro B) : Coro B :=
  fun s =>
    match c s with
    | (inr a, s') => k a s'
    | (inl e, s') => (inl e, s')
    end.

Notation "x <- c ;; k" := (bind c (fun x => k))
  (at level 61, c at next level, right associativity).
Notation "c ;; k" := (bind c (fun _ => k))
  (at level 61, right associativity).

Definition lift {A} (r : Py.exn + A) : Coro A :=
  match r with
  | inr a => ret a
  | inl e => raise e
  end.

Definition log (ev : Event) : Coro unit :=
  fun s => (inr tt, mkState (tasks s) (reminders s) (trace s ++ [ev])).

(** [for x in xs: body(x)] *)
Fixpoint for_each {A} (xs : list A) (body : A -> Coro unit) : Coro unit :=
  match xs with
  | [] => ret tt
  | x :: xs' => body x ;; for_each xs' body
  end.

(** [with suppress(e0): c] *)
Definition suppress (e0 : Py.exn) (c : Coro unit) : Coro unit :=
  fun s =>
    match c s with
    | (inl e, s') => if Py.exn_eqb e e0 then (inr tt, s') else (inl e, s')
    | r => r
    end.

(** ** The collaborators *)

(** [DELETE FROM reminders WHERE id=$1 and user_id=$2] keeps the rows
    that do not match both. *)
Definition delete_matches (id user_id : Z) (row : Row) : bool :=
  (row_id row =? id) && (row_user_id row =? user_id).

Definition apply_stmt (q : Stmt) (rows : list Row) : list Row :=
  match q with
  | Insert row => rows ++ [row]
  | Delete id user_id => filter (fun row => negb (delete_matches id user_id row)) rows
  end.

Definition stmt_event (q : Stmt) : Event :=
  match q with
  | Insert row => EvInsert row
  | Delete id user_id => EvDelete id user_id
  end.

(** [await bot.conn.execute(q)]: a statement that raises changes nothing. *)
Definition execute (env : Env) (q : Stmt) : Coro unit :=
  fun s =>
    match execute_raises env q with
    | Some e => (inl e, s)
    | None =>
        (inr tt, mkState (tasks s) (apply_stmt q (reminders s))
                         (trace s ++ [stmt_event q]))
    end.

(** [await bot.conn.fetch("SELECT * FROM reminders")] *)
Definition fetch (env : Env) : Coro (list Row) :=
  fun s =>
    match fetch_raises env with
    | Some e => (inl e, s)
    | None => (inr (reminders s), s)
    end.

(** [await target.send(...)] *)
Definition send (env : Env) (target : Target) (m : Message) : Coro unit :=
  fun s =>
    match send_raises env target m with
    | Some e => (inl e, s)
    | None =>
        (inr tt, mkState (tasks s) (reminders s)
                         (trace s ++ [EvDeliver target m]))
    end.

(** [await ctx.send(...)] of a command's reply. *)
Definition ctx_send (env : Env) : Coro unit :=
  fun s =>
    match ctx_send_raises env with
    | Some e => (inl e, s)
    | None => (inr tt, s)
    end.

(** One reaction request, and [asyncio.gather] of several, taken in the
    order of the list: the first exception is the one that is raised. *)
Definition react (env : Env) (a : Reaction) : Coro unit :=
  fun s =>
    match react_raises env a with
    | Some e => (inl e, s)
    | None => (inr tt, s)
    end.

Definition gather (env : Env) (rs : list Reaction) : Coro unit :=
  for_each rs (react env).

(** ** The event loop *)

Definition User_eqb (a b : User) : bool := uid a =? uid b.

Definition option_User_eqb (a b : option User) : bool :=
  match a, b with
  | Some x, Some y => User_eqb x y
  | None, None => true
  | _, _ => false
  end.

Definition Reminder_eqb (a b : Reminder) : bool :=
  option_User_eqb (user a) (user b) && Py.str_eqb (content a) (content b)
  && (deadline a =? deadline b) && (rm_id a =? rm_id b)
  && Py.str_eqb (jump_origin a) (jump_origin b).

Definition Task_eqb (a b : Task) : bool :=
  match a, b with
  | ReminderTask x, ReminderTask y => Reminder_eqb x y
  | OtherTask n, OtherTask m => Py.str_eqb n m
  | _, _ => false
  end.

(** [loop.create_task(coro, name=...)] *)
Definition create_task (env : Env) (t : Task) : Coro unit :=
  fun s =>
    match create_task_raises env (get_name t) with
    | Some e => (inl e, s)
    | None => (inr tt, mkState (tasks s ++ [t]) (reminders s) (trace s))
    end.

(** [task.cancel()]: the task leaves the tasks of the loop. *)
Definition task_cancel (t : Task) : Coro unit :=
  fun s =>
    (inr tt, mkState (filter (fun t' => negb (Task_eqb t t')) (tasks s))
                     (reminders s) (trace s)).

(** A task that has run to its end leaves the tasks of the loop. *)
Fixpoint remove_first (t : Task) (ts : list Task) : list Task :=
  match ts with
  | [] => []
  | t' :: ts' => if Task_eqb t t' then ts' else t' :: remove_first t ts'
  end.

Definition task_done (t : Task) (s : State) : State :=
  mkState (remove_first t (tasks s)) (reminders s) (trace s).

(** The Live Timers: the reminders that have a task, and their ids. *)
Definition live_timers (s : State) : list Reminder :=
  flat_map (fun t => match t with ReminderTask r => [r] | OtherTask _ => [] end)
           (tasks s).

Definition timer_ids (s : State) : list Z := map rm_id (live_timers s).

(** The ids of the reminder tasks of a list of tasks. *)
Definition ids_of (ts : list Task) : list Z :=
  map rm_id
    (flat_map (fun t => match t with ReminderTask r => [r] | OtherTask _ => [] end) ts).

(** Modelled from the spec: [discord.utils.sleep_until], which is library
    code: the delay until the deadline, zero when the deadline has passed
    ("if the deadline has already passed at arm time, it completes
    immediately"). *)
Definition sleep_until (now when : Z) : Z := Z.max (when - now) 0.

(** ** class Reminder *)

(** [Reminder.__init__]: the attributes are those of [r]; the constructor
    creates the task that runs [_do_wait] under the name
    [REMINDER-<rm_id>]. *)
Definition Reminder__init__ (env : Env) (r : Reminder) : Coro unit :=
  create_task env (ReminderTask r) ;;
  log (EvArm (rm_id r)).

(** Lines 59 to 61 of [_do_remind]: the owner and the destination.
    [bot.get_channel(...) or self.user], then the owner's direct messages
    when the owner's [dm_reminders] setting is [True].  [self.user.id]
    raises [AttributeError] on an owner that is [None], and the cache
    raises [KeyError] on an owner it does not hold. *)
Definition destination (env : Env) (r : Reminder) : Py.exn + (User * Target) :=
  match url_channel env (jump_origin r) with
  | inl e => inl e
  | inr channel_id =>
      let target :=
        match get_channel env channel_id with
        | Some c => Some (ToChannel c)
        | None => option_map ToUser (user r)
        end in
      match user r with
      | None => inl Py.AttributeError
      | Some u =>
          match dm_reminders env (uid u) with
          | None => inl Py.KeyError
          | Some dm =>
              let target := if dm then Some (ToUser u) else target in
              match target with
              | None => inl Py.AttributeError
              | Some t => inr (u, t)
              end
          end
      end
  end.

Definition _do_remind (env : Env) (r : Reminder) : Coro unit :=
  ut <- lift (destination env r) ;;
  let (u, target) := (ut : User * Target) in
  send env target (mkMessage u (jump_origin r) (content r)) ;;
  execute env (Delete (rm_id r) (uid u)).

(** What resuming a task gives: it is still suspended, or it has finished
    with a value or an exception. *)
Inductive Outcome :=
| Suspended
| Finished (r : Py.exn + unit).

(** [_do_wait], resumed by the loop at the time [now env]: while the
    delay of [sleep_until] is positive the task stays suspended; otherwise
    it runs [_do_remind] and is done, whatever [_do_remind] did. *)
Definition _do_wait (env : Env) (r : Reminder) (s : State) : Outcome * State :=
  if 0 <? sleep_until (now env) (deadline r) then (Suspended, s)
  else
    let (res, s') := _do_remind env r s in
    (Finished res, task_done (ReminderTask r) s').

(** ** Context.loading *)

(** The [finally] clause: under [suppress(discord.NotFound)], await
    [asyncio.gather] of the reaction requests collected so far. *)
Definition finally_gather (env : Env) (rs : list Reaction) : Coro unit :=
  suppress Py.NotFound (gather env rs).

(** [bot.dispatch('command_error', ctx, e)] *)
Definition dispatch_command_error (e : Py.exn) : Coro unit :=
  log (EvCommandError e).

(** [async with ctx.loading(): body], with the default arguments
    ([prop=True], [tick=True], [exc_ignore=None]).

    The generator adds the loading reaction and yields.  An exception of
    the body, or of adding the reaction, arrives in its [except] clause:
    a Discord HTTP error makes it yield once more, any other exception is
    dispatched to the error handler and swallowed.  The context manager
    of [contextlib] turns a second yield after an exception into
    [RuntimeError], and a generator that ends before its first yield into
    [RuntimeError] as well; a yield in the [except] clause that is the
    first one runs the body. *)
Definition loading (env : Env) (body : Coro unit) : Coro unit :=
  fun s =>
    match react env AddLoading s with
    | (inr _, s1) =>
        match body s1 with
        | (inr _, s2) => finally_gather env [RemoveLoading; AddTick] s2
        | (inl e, s2) =>
            if Py.is_http e then (inl Py.RuntimeError, s2)
            else (dispatch_command_error e ;; finally_gather env [RemoveLoading]) s2
        end
    | (inl e0, s1) =>
        if Py.is_http e0 then
          match body s1 with
          | (inr _, s2) => finally_gather env [RemoveLoading] s2
          | (inl e, s2) =>
              match finally_gather env [RemoveLoading] s2 with
              | (inr _, s3) => (inl e, s3)
              | (inl e', s3) => (inl e', s3)
              end
          end
        else
          (dispatch_command_error e0 ;; finally_gather env [RemoveLoading] ;;
           raise Py.RuntimeError) s1
    end.

(** ** class Customisation: the reminder commands *)

(** The row [_remind] inserts and the reminder it constructs. *)
Definition new_row (ctx : Ctx) (reminder : TimeConverted) (reminder_id : Z) : Row :=
  mkRow (uid (author ctx)) (tc_string reminder) (tc_time reminder)
        reminder_id (jump_url ctx).

Definition new_reminder (ctx : Ctx) (reminder : TimeConverted) (reminder_id : Z)
  : Reminder :=
  mkReminder (Some (author ctx)) (tc_string reminder) (tc_time reminder)
             reminder_id (jump_url ctx).

(** [_remind]: the [remind] command. *)
Definition _remind (env : Env) (ctx : Ctx) (reminder : TimeConverted)
  : Coro Py.value :=
  reminder_id <- lift (reminder_id_of (now env)) ;;
  execute env (Insert (new_row ctx reminder reminder_id)) ;;
  suppress Py.UnboundLocalError
    (Reminder__init__ env (new_reminder ctx reminder reminder_id)) ;;
  ctx_send env ;;
  ret Py.PyNone.

(** [filter(lambda task: task.get_name().startswith("REMINDER"),
    asyncio.all_tasks(self.bot.loop))] *)
Definition running_reminders (s : State) : list Task :=
  filter (fun task => Py.startswith (get_name task) (Py.lit "REMINDER")) (tasks s).

(** [_remind_remove]: the [remind remove] command. *)
Definition _remind_remove (env : Env) (ctx : Ctx) (items : list Z)
  : Coro Py.value :=
  fun s =>
    let running := running_reminders s in
    (loading env
       (for_each items (fun reminder_id =>
          for_each
            (filter (fun task =>
                       Py.endswith (get_name task) (Py.str_of_int reminder_id))
                    running)
            task_cancel ;;
          execute env (Delete reminder_id (uid (author ctx))))) ;;
     ret Py.PyNone) s.

(** The reminder [_create_first_reminders] builds from a row. *)
Definition reminder_of_row (env : Env) (record : Row) : Reminder :=
  mkReminder (get_user env (row_user_id record)) (row_content record)
             (row_deadline record) (row_id record) (row_origin_jump record).

(** [_create_first_reminders], once the bot is ready. *)
Definition _create_first_reminders (env : Env) : Coro unit :=
  records <- fetch env ;;
  for_each records (fun record => Reminder__init__ env (reminder_of_row env record)).

(** [cog_unload] *)
Definition cog_unload : Coro unit :=
  fun s =>
    let running := running_reminders s in
    for_each running task_cancel s.

(** ** Runs of the scheduler *)

Inductive Op :=
| OpCreate (ctx : Ctx) (reminder : TimeConverted)   (* _remind *)
| OpCancel (ctx : Ctx) (items : list Z)             (* _remind_remove *)
| OpRecover                                         (* _create_first_reminders *)
| OpShutdown                                        (* cog_unload *)
| OpResume (r : Reminder).                          (* the loop resumes a timer *)

Definition step (env : Env) (op : Op) (s : State) : State :=
  match op with
  | OpCreate ctx reminder => snd (_remind env ctx reminder s)
  | OpCancel ctx items => snd (_remind_remove env ctx items s)
  | OpRecover => snd (_create_first_reminders env s)
  | OpShutdown => snd (cog_unload s)
  | OpResume r =>
      if existsb (Task_eqb (ReminderTask r)) (tasks s)
      then snd (_do_wait env r s) else s
  end.

Fixpoint run (ops : list (Env * Op)) (s : State) : State :=
  match ops with
  | [] => s
  | (env, op) :: ops' => run ops' (step env op s)
  end.

(** The state of a process that has just started on a table. *)
Definition startup (rows : list Row) : State := mkState [] rows [].

(** An environment in which every call succeeds: every channel and user
    is known and no owner asked for direct messages.  The channel of a
    jump link is taken to be [0]. *)
Definition quiet (t : Z) : Env :=
  mkEnv t (fun _ => inr 0) (fun c => Some c) (fun i => Some (mkUser i))
        (fun _ => Some false) (fun _ _ => None) (fun _ => None) None
        (fun _ => None) (fun _ => None) None.

(** The same, with a database that rejects every statement, with a
    Notifier that cannot deliver, and with a loop that is closed and
    creates no task. *)
Definition db_down (t : Z) : Env :=
  mkEnv t (fun _ => inr 0) (fun c => Some c) (fun i => Some (mkUser i))
        (fun _ => Some false) (fun _ _ => None)
        (fun _ => Some Py.PostgresError) None
        (fun _ => None) (fun _ => None) None.

Definition notifier_down (t : Z) : Env :=
  mkEnv t (fun _ => inr 0) (fun c => Some c) (fun i => Some (mkUser i))
        (fun _ => Some false) (fun _ _ => Some Py.Forbidden) (fun _ => None) None
        (fun _ => None) (fun _ => None) None.

Definition loop_closed (t : Z) : Env :=
  mkEnv t (fun _ => inr 0) (fun c => Some c) (fun i => Some (mkUser i))
        (fun _ => Some false) (fun _ _ => None) (fun _ => None) None
        (fun _ => Some Py.RuntimeError) (fun _ => None) None.


(** Two users, their commands and a request. *)
Definition alice : User := mkUser 42.
Definition bob : User := mkUser 7.

Definition ctx_alice : Ctx :=
  mkCtx alice (Py.lit "https://discord.com/channels/1/2/3").
Definition ctx_bob : Ctx :=
  mkCtx bob (Py.lit "https://discord.com/channels/1/2/4").

Definition buy_milk : TimeConverted :=
  mkTimeConverted (Py.lit "buy milk") 1700099999.

(** Alice and Bob each create a reminder within the same second. *)
Definition two_owners_one_id : State :=
  run [(quiet 1700012345, OpCreate ctx_alice buy_milk);
       (quiet 1700012345, OpCreate ctx_bob buy_milk)] (startup []).

(** Alice has one reminder, created at a time that gives it the id 15. *)
Definition alice_has_15 : State :=
  run [(quiet 1700000015, OpCreate ctx_alice buy_milk)] (startup []).

(** The reminder of Alice in [alice_has_15]. *)
Definition reminder_15 : Reminder := new_reminder ctx_alice buy_milk 15.

(** Three rows that survived a restart: at the time 1700000500 the
    deadlines of the first two have passed, the third is still to come. *)
Definition row_1 : Row :=
  mkRow 42 (Py.lit "buy milk") 1700000100 1 (Py.lit "https://discord.com/channels/1/2/3").
Definition row_2 : Row :=
  mkRow 7 (Py.lit "call home") 1700000200 2 (Py.lit "https://discord.com/channels/1/2/4").
Definition row_3 : Row :=
  mkRow 42 (Py.lit "pay rent") 1700000900 3 (Py.lit "https://discord.com/channels/1/2/5").

(** The test of [_remind_remove] on a task for a requested id: the task is
    among the running reminder tasks and its name ends with the id. *)
Definition cancel_match (reminder_id : Z) (task : Task) : bool :=
  Py.startswith (get_name task) (Py.lit "REMINDER")
  && Py.endswith (get_name task) (Py.str_of_int reminder_id).

(** Every reaction request of [Context.loading] succeeds. *)
Definition reactions_ok (env : Env) : Prop :=
  forall a, react_raises env a = None.

(** At most one Live Timer per id. *)
Definition one_timer_per_id (s : State) : Prop :=
  forall i, (count_occ Z.eq_dec (timer_ids s) i <= 1)%nat.

(** No id has more Live Timers in [s'] than in [s]. *)
Definition fewer_timers (s s' : State) : Prop :=
  forall i, (count_occ Z.eq_dec (timer_ids s') i
             <= count_occ Z.eq_dec (timer_ids s) i)%nat.

Definition same_tasks (s s' : State) : Prop := tasks s' = tasks s.

(** A coroutine whose state after is related to its state before. *)
Definition preserves (R : State -> State -> Prop) {A} (c : Coro A) : Prop :=
  forall s, R s (snd (c s)).

(** What one round of the loop of [_remind_remove] does to the state when
    the statement succeeds, and what the rounds of a request do. *)
Definition cancel_round (user_id : Z) (s : State) (reminder_id : Z) : State :=
  mkState (filter (fun t => negb (cancel_match reminder_id t)) (tasks s))
          (filter (fun row => negb (delete_matches reminder_id user_id row))
                  (reminders s))
          (trace s ++ [EvDelete reminder_id user_id]).

Definition cancel_rounds (user_id : Z) (items : list Z) (s : State) : State :=
  fold_left (cancel_round user_id) items s.

(** The rows [_create_first_reminders] gets to before a constructor
    raises: the longest prefix of the rows whose tasks can be created. *)
Fixpoint armed_prefix (env : Env) (rows : list Row) : list Row :=
  match rows with
  | [] => []
  | row :: rest =>
      match create_task_raises env (reminder_task_name (row_id row)) with
      | None => row :: armed_prefix env rest
      | Some _ => []
      end
  end.

(** The exception that stops it there, if any. *)
Fixpoint arm_result (env : Env) (rows : list Row) : Py.exn + unit :=
  match rows with
  | [] => inr tt
  | row :: rest =>
      match create_task_raises env (reminder_task_name (row_id row)) with
      | None => arm_result env rest
      | Some e => inl e
      end
  end.

(** The task [_create_first_reminders] creates for a row. *)
Definition task_of_row (env : Env) (row : Row) : Task :=
  ReminderTask (reminder_of_row env row).

(** An operation that cannot arm a second Live Timer for an id: a create
    that does not generate the id of a Live Timer; a recover for which the
    ids of the Live Timers and of the rows, taken together, are pairwise
    distinct; any cancel, shutdown or resumption. *)
Definition fresh_step (env : Env) (op : Op) (s : State) : Prop :=
  match op with
  | OpCreate _ _ =>
      forall i, reminder_id_of (now env) = inr i -> ~ In i (timer_ids s)
  | OpRecover => NoDup (timer_ids s ++ map row_id (reminders s))
  | _ => True
  end.

Fixpoint fresh_run (ops : list (Env * Op)) (s : State) : Prop :=
  match ops with
  | [] => True
  | (env, op) :: ops' => fresh_step env op s /\ fresh_run ops' (step env op s)
  end.

(** A day of the scheduler: recover over three rows, a create, a cancel,
    the first timer firing, a second create, shutdown and recover. *)
Definition one_day : list (Env * Op) :=
  [(quiet 1700000500, OpRecover);
   (quiet 1700012345, OpCreate ctx_alice buy_milk);
   (quiet 1700012350, OpCancel ctx_bob [2]);
   (quiet 1700012360, OpResume (reminder_of_row (quiet 1700000500) row_1));
   (quiet 1700012370, OpCreate ctx_bob buy_milk);
   (quiet 1700012380, OpShutdown);
   (quiet 1700012390, OpRecover)].

(** ** Further commands: remind list *)

(** [SELECT * FROM reminders WHERE user_id=$1 ORDER BY id]: the rows of
    the user, by ascending id.  The order of rows of one id is not fixed
    by the statement; the model keeps them in the order of the table. *)
Fixpoint insert_by_id (row : Row) (rows : list Row) : list Row :=
  match rows with
  | [] => [row]
  | x :: rows' =>
      if row_id row <=? row_id x then row :: rows
      else x :: insert_by_id row rows'
  end.

Definition order_by_id (rows : list Row) : list Row :=
  fold_right insert_by_id [] rows.

Definition fetch_of_user (env : Env) (user_id : Z) : Coro (list Row) :=
  fun s =>
    match fetch_raises env with
    | Some e => (inl e, s)
    | None =>
        (inr (order_by_id (filter (fun row => row_user_id row =? user_id)
                                  (reminders s))), s)
    end.

Definition newline : ascii := "010"%char.

(** [format_reminder] of [_remind_list]; [strftime] stands for the
    rendering of the deadline by [strftime] and [naturaltime]. *)
Definition format_reminder (strftime : Z -> Py.str) (reminder : Row) : Py.str :=
  Py.lit "**" ++ Py.str_of_int (row_id reminder) ++ Py.lit ": **"
  ++ row_content reminder ++ [newline]
  ++ strftime (row_deadline reminder) ++ [newline].

(** [_remind_list]: the entries it hands to [ctx.quick_menu], five to a
    page: [reminders or ['No reminders']]. *)
Definition _remind_list (env : Env) (strftime : Z -> Py.str) (ctx : Ctx)
  : Coro (list Py.str) :=
  rows <- fetch_of_user env (uid (author ctx)) ;;
  let reminders := map (format_reminder strftime) rows in
  ret (match reminders with
       | [] => [Py.lit "No reminders"]
       | _ => reminders
       end).

(** ** Further commands: the todo list *)

(** The exceptions of a command: [commands.CommandError] with its message,
    or one of the exceptions above. *)
Inductive cmd_exn :=
| CommandError (msg : Py.str)
| Raised (e : Py.exn).

(** A command over a state of its own. *)
Definition Cmd (S A : Type) : Type := S -> (cmd_exn + A) * S.

Definition cret {S A} (a : A) : Cmd S A := fun s => (inr a, s).

Definition craise {S A} (e : cmd_exn) : Cmd S A := fun s => (inl e, s).

Definition cbind {S A B} (c : Cmd S A) (k : A -> Cmd S B) : Cmd S B :=
  fun s =>
    match c s with
    | (inr a, s') => k a s'
    | (inl e, s') => (inl e, s')
    end.

Notation "x <~ c ;; k" := (cbind c (fun x => k))
  (at level 61, c at next level, right associativity).
Notation "c ;;; k" := (cbind c (fun _ => k))
  (at level 61, right associativity).

Fixpoint cfor_each {S A} (xs : list A) (body : A -> Cmd S unit) : Cmd S unit :=
  match xs with
  | [] => cret tt
  | x :: xs' => body x ;;; cfor_each xs' body
  end.

(** [l[k]] for a Python list: a negative index counts from the end, an
    index outside the list raises [IndexError]. *)
Definition py_index {A} (l : list A) (k : Z) : cmd_exn + A :=
  let n := Z.of_nat (List.length l) in
  let k' := if k <? 0 then k + n else k in
  if (0 <=? k') && (k' <? n) then
    match nth_error l (Z.to_nat k') with
    | Some x => inr x
    | None => inl (Raised Py.IndexError)
    end
  else inl (Raised Py.IndexError).

(** A row of the [todo] table:
    [(user_id, content, jump_url, created_at)]. *)
Record Todo := mkTodo {
  todo_user_id : Z;
  todo_content : Py.str;
  todo_jump_url : Py.str;
  todo_created_at : Z
}.

(** The statements of the todo commands. *)
Inductive TodoStmt :=
| InsertTodo (row : Todo)
| DeleteTodo (user_id : Z) (content : Py.str)   (* WHERE user_id=$1 AND content=$2 *)
| ClearTodos (user_id : Z).                     (* WHERE user_id=$1 *)

(** The collaborators of a todo command: the clock ([datetime.utcnow]),
    the database, the reaction on the message and the answer to
    [ctx.prompt]. *)
Record TodoEnv := mkTodoEnv {
  utcnow : Z;
  todo_fetch_raises : option Py.exn;
  todo_execute_raises : TodoStmt -> option Py.exn;
  add_reaction_raises : option Py.exn;
  prompt_answer : Py.exn + bool
}.

Definition apply_todo_stmt (q : TodoStmt) (rows : list Todo) : list Todo :=
  match q with
  | InsertTodo row => rows ++ [row]
  | DeleteTodo user_id content =>
      filter (fun row => negb ((todo_user_id row =? user_id)
                               && Py.str_eqb (todo_content row) content)) rows
  | ClearTodos user_id =>
      filter (fun row => negb (todo_user_id row =? user_id)) rows
  end.

Definition todo_execute (env : TodoEnv) (q : TodoStmt) : Cmd (list Todo) unit :=
  fun rows =>
    match todo_execute_raises env q with
    | Some e => (inl (Raised e), rows)
    | None => (inr tt, apply_todo_stmt q rows)
    end.

(** [... FROM todo WHERE user_id=$1 ORDER BY created_at ASC].  The database
    leaves the order of rows of one creation time open; this function keeps
    them in the order of the table, which is one of the orders it may
    answer with.  The statements about the todo commands do not rest on
    that choice: they speak of rows of distinct creation times, or of the
    rows as a set or by their number only. *)
Fixpoint insert_by_created_at (row : Todo) (rows : list Todo) : list Todo :=
  match rows with
  | [] => [row]
  | x :: rows' =>
      if todo_created_at row <=? todo_created_at x then row :: rows
      else x :: insert_by_created_at row rows'
  end.

Definition order_by_created_at (rows : list Todo) : list Todo :=
  fold_right insert_by_created_at [] rows.

Definition todo_fetch (env : TodoEnv) (user_id : Z) : Cmd (list Todo) (list Todo) :=
  fun rows =>
    match todo_fetch_raises env with
    | Some e => (inl (Raised e), rows)
    | None =>
        (inr (order_by_created_at
                (filter (fun row => todo_user_id row =? user_id) rows)), rows)
    end.

(** [await ctx.message.add_reaction(ctx.tick(True))] *)
Definition add_tick (env : TodoEnv) : Cmd (list Todo) unit :=
  fun rows =>
    match add_reaction_raises env with
    | Some e => (inl (Raised e), rows)
    | None => (inr tt, rows)
    end.

(** [await ctx.prompt(...)] *)
Definition prompt (env : TodoEnv) : Cmd (list Todo) bool :=
  fun rows =>
    match prompt_answer env with
    | inl e => (inl (Raised e), rows)
    | inr b => (inr b, rows)
    end.

(** [todo_rw]: the entries of the list, [`count`](jump_url) content with
    the count from 1, or the string [No todos]. *)
Definition todo_entry (count : Z) (row : Todo) : Py.str :=
  Py.lit "[`" ++ Py.str_of_int count ++ Py.lit "`](" ++ todo_jump_url row
  ++ Py.lit ") " ++ todo_content row.

Fixpoint enumerate_from {A} (start : Z) (l : list A) : list (Z * A) :=
  match l with
  | [] => []
  | x :: l' => (start, x) :: enumerate_from (start + 1) l'
  end.

Definition todo_rw (env : TodoEnv) (ctx : Ctx) : Cmd (list Todo) (Py.str + list Py.str) :=
  fetched <~ todo_fetch env (uid (author ctx)) ;;
  let todo_list := map (fun cv => todo_entry (fst cv) (snd cv))
                       (enumerate_from 1 fetched) in
  cret (match todo_list with
        | [] => inl (Py.lit "No todos")
        | _ => inr todo_list
        end).

(** [create_todo] *)
Definition create_todo (env : TodoEnv) (ctx : Ctx) (content : Py.str)
  : Cmd (list Todo) unit :=
  todo_execute env
    (InsertTodo (mkTodo (uid (author ctx)) content (jump_url ctx) (utcnow env))) ;;;
  add_tick env.

(** [remove_todo] *)
Definition remove_todo_message : Py.str :=
  Py.lit "Use the index of a todo (found in your list of todos) to remove it".

Definition remove_todo (env : TodoEnv) (ctx : Ctx) (todo_index : list Z)
  : Cmd (list Todo) unit :=
  match todo_index with
  | [] => craise (CommandError remove_todo_message)
  | _ =>
      rows <~ todo_fetch env (uid (author ctx)) ;;
      let fetched := map todo_content rows in
      cfor_each todo_index (fun num =>
        content <~ (fun s => (py_index fetched (num - 1), s)) ;;
        todo_execute env (DeleteTodo (uid (author ctx)) content)) ;;;
      add_tick env
  end.

(** [clear_todos] *)
Definition clear_todos (env : TodoEnv) (ctx : Ctx) : Cmd (list Todo) unit :=
  conf <~ prompt env ;;
  if conf then todo_execute env (ClearTodos (uid (author ctx))) else cret tt.

(** A todo environment in which every call succeeds and the prompt is
    confirmed, and a table with two todos of Alice and one of Bob. *)
Definition todo_quiet (t : Z) : TodoEnv :=
  mkTodoEnv t None (fun _ => None) None (inr true).

Definition todo_table : list Todo :=
  [mkTodo 42 (Py.lit "milk") (Py.lit "j1") 100;
   mkTodo 7 (Py.lit "milk") (Py.lit "j2") 110;
   mkTodo 42 (Py.lit "rent") (Py.lit "j3") 120;
   mkTodo 42 (Py.lit "milk") (Py.lit "j4") 130].

(** ** Code blocks: [Codeblock] of context.py and [cleanup_code] of dev.py *)

Definition backtick : ascii := "`"%char.

(** [content.replace] of two backticks by backtick, zero-width space,
    backtick: the occurrences of two backticks
    are taken from the left, without overlap, and a zero-width space is
    put between the two.  The zero-width space is a character of its own;
    [zwsp] stands for it. *)
Fixpoint replace_ticks (zwsp : ascii) (s : Py.str) : Py.str :=
  match s with
  | [] => []
  | c :: s' =>
      match s' with
      | c' :: s'' =>
          if Ascii.eqb c backtick && Ascii.eqb c' backtick
          then backtick :: zwsp :: backtick :: replace_ticks zwsp s''
          else c :: replace_ticks zwsp s'
      | [] => [c]
      end
  end.

Record Codeblock := mkCodeblock {
  cb_lang : Py.str;
  cb_safe : bool;
  cb_content : Py.str
}.

(** [Codeblock.__init__]: [lang or ''], and the content made safe when
    [cb_safe] is set. *)
Definition Codeblock__init__ (zwsp : ascii) (content : Py.str)
    (lang : option Py.str) (safe : bool) : Codeblock :=
  mkCodeblock (match lang with Some l => l | None => [] end)
              safe
              (if safe then replace_ticks zwsp content else content).

(** [Codeblock.__str__] *)
Definition Codeblock__str__ (cb : Codeblock) : Py.str :=
  Py.lit "```" ++ cb_lang cb ++ [newline] ++ cb_content cb ++ [newline]
  ++ Py.lit "```".

(** [s.split('\n')], ['\n'.join(l)], [l[1:-1]] and [s.strip(chars)] *)
Fixpoint split_lines (s : Py.str) : list Py.str :=
  match s with
  | [] => [[]]
  | c :: s' =>
      if Ascii.eqb c newline then [] :: split_lines s'
      else match split_lines s' with
           | l :: ls => (c :: l) :: ls
           | [] => [[c]]
           end
  end.

Fixpoint join_lines (l : list Py.str) : Py.str :=
  match l with
  | [] => []
  | [x] => x
  | x :: l' => x ++ newline :: join_lines l'
  end.

Definition slice_1_minus_1 {A} (l : list A) : list A := removelast (tl l).

Fixpoint lstrip (chars : Py.str) (s : Py.str) : Py.str :=
  match s with
  | [] => []
  | c :: s' => if existsb (Ascii.eqb c) chars then lstrip chars s' else s
  end.

Definition strip (chars : Py.str) (s : Py.str) : Py.str :=
  rev (lstrip chars (rev (lstrip chars s))).

(** [cleanup_code] *)
Definition cleanup_code (content : Py.str) : Py.str :=
  if Py.startswith content (Py.lit "```") && Py.endswith content (Py.lit "```")
  then join_lines (slice_1_minus_1 (split_lines content))
  else strip [backtick; " "%char; newline] content.

(** Three backticks in a row somewhere in a string. *)
Definition has_fence (s : Py.str) : Prop :=
  exists pre post, s = pre ++ Py.lit "```" ++ post.

(** The test of "no three backticks in a row" as a function. *)
Fixpoint no_fence (s : Py.str) : bool :=
  match s with
  | a :: s' =>
      match s' with
      | b :: c :: _ =>
          negb (Ascii.eqb a backtick && Ascii.eqb b backtick && Ascii.eqb c backtick)
          && no_fence s'
      | _ => true
      end
  | [] => true
  end.

Definition no_double_start (s : Py.str) : bool :=
  match s with
  | a :: b :: _ => negb (Ascii.eqb a backtick && Ascii.eqb b backtick)
  | _ => true
  end.

(** ** Further commands: the prefixes of a guild *)

Definition str_eq_dec : forall a b : Py.str, {a = b} + {a <> b} :=
  list_eq_dec ascii_dec.

(** [set(l)]: the elements of [l], each once. *)
Definition py_set (l : list Py.str) : list Py.str := nodup str_eq_dec l.

(** [ctx.subcommand_passed]: the command is [add], with the alias
    [remove]. *)
Inductive PrefixMode := PrefixAdd | PrefixRemove.

Record GuildCtx := mkGuildCtx {
  ctx_guild : option Z;       (* ctx.guild, None outside a guild *)
  ctx_mode : PrefixMode
}.

Record GuildState := mkGuildState {
  guild_prefs : list (Z * list Py.str);   (* the table: guild_id, prefixes *)
  guild_cache : list (Z * list Py.str);   (* bot.guild_cache: the prefixes of a guild *)
  command_errors : list cmd_exn           (* what was dispatched to command_error *)
}.

(** The collaborators: Discord's reactions, the database, and the
    refresh of the cache, which gives the new cache for a table. *)
Record GuildEnv := mkGuildEnv {
  g_react_raises : Reaction -> option Py.exn;
  g_update_raises : option Py.exn;
  g_refresh : list (Z * list Py.str) -> Py.exn + list (Z * list Py.str)
}.

Definition cmd_is_http (e : cmd_exn) : bool :=
  match e with
  | Raised e' => Py.is_http e'
  | CommandError _ => false
  end.

(** [with suppress(discord.NotFound): c] *)
Definition csuppress_not_found {S} (c : Cmd S unit) : Cmd S unit :=
  fun s =>
    match c s with
    | (inl (Raised Py.NotFound), s') => (inr tt, s')
    | r => r
    end.

(** [async with ctx.loading(): body] for a command over any state, given
    what a reaction request and a dispatch to [command_error] do. *)
Definition cloading {S} (react : Reaction -> Cmd S unit)
    (dispatch : cmd_exn -> Cmd S unit) (body : Cmd S unit) : Cmd S unit :=
  let finally_gather rs := csuppress_not_found (cfor_each rs react) in
  fun s =>
    match react AddLoading s with
    | (inr _, s1) =>
        match body s1 with
        | (inr _, s2) => finally_gather [RemoveLoading; AddTick] s2
        | (inl e, s2) =>
            if cmd_is_http e then (inl (Raised Py.RuntimeError), s2)
            else (dispatch e ;;; finally_gather [RemoveLoading]) s2
        end
    | (inl e0, s1) =>
        if cmd_is_http e0 then
          match body s1 with
          | (inr _, s2) => finally_gather [RemoveLoading] s2
          | (inl e, s2) =>
              match finally_gather [RemoveLoading] s2 with
              | (inr _, s3) => (inl e, s3)
              | (inl e', s3) => (inl e', s3)
              end
          end
        else
          (dispatch e0 ;;; finally_gather [RemoveLoading] ;;;
           craise (Raised Py.RuntimeError)) s1
    end.

Definition g_react (env : GuildEnv) (a : Reaction) : Cmd GuildState unit :=
  fun s =>
    match g_react_raises env a with
    | Some e => (inl (Raised e), s)
    | None => (inr tt, s)
    end.

Definition g_dispatch (e : cmd_exn) : Cmd GuildState unit :=
  fun s =>
    (inr tt, mkGuildState (guild_prefs s) (guild_cache s) (command_errors s ++ [e])).

Fixpoint lookup_guild (id : Z) (rows : list (Z * list Py.str)) : option (list Py.str) :=
  match rows with
  | [] => None
  | (g, prefixes) :: rows' => if g =? id then Some prefixes else lookup_guild id rows'
  end.

(** [UPDATE guild_prefs SET prefixes=$1 WHERE guild_id=$2] *)
Definition update_prefixes (env : GuildEnv) (prefixes : list Py.str) (id : Z)
  : Cmd GuildState unit :=
  fun s =>
    match g_update_raises env with
    | Some e => (inl (Raised e), s)
    | None =>
        (inr tt,
         mkGuildState
           (map (fun row => if fst row =? id then (id, prefixes) else row)
                (guild_prefs s))
           (guild_cache s) (command_errors s))
    end.

(** [await self.bot.guild_cache.refresh()] *)
Definition refresh_guild_cache (env : GuildEnv) : Cmd GuildState unit :=
  fun s =>
    match g_refresh env (guild_prefs s) with
    | inl e => (inl (Raised e), s)
    | inr cache => (inr tt, mkGuildState (guild_prefs s) cache (command_errors s))
    end.

Definition one_prefix_message : Py.str :=
  Py.lit "A guild must always have at least one prefix".

(** [_modify_guild_prefixes] *)
Definition _modify_guild_prefixes (env : GuildEnv) (ctx : GuildCtx) (prefix : Py.str)
  : Cmd GuildState unit :=
  fun s =>
    match ctx_guild ctx with
    | None => (inl (Raised Py.AttributeError), s)
    | Some id =>
        match lookup_guild id (guild_cache s) with
        | None => (inl (Raised Py.KeyError), s)
        | Some cached =>
            let current_prefixes := py_set cached in
            cloading (g_react env) g_dispatch
              (match ctx_mode ctx with
               | PrefixRemove =>
                   if (List.length current_prefixes =? 1)%nat
                   then craise (CommandError one_prefix_message)
                   else update_prefixes env (set_remove str_eq_dec prefix current_prefixes) id ;;;
                        refresh_guild_cache env
               | PrefixAdd =>
                   update_prefixes env (set_add str_eq_dec prefix current_prefixes) id ;;;
                   refresh_guild_cache env
               end) s
        end
    end.

(** Every guild of the table has a prefix. *)
Definition every_guild_has_a_prefix (s : GuildState) : Prop :=
  forall row, In row (guild_prefs s) -> snd row <> [].

(** Every guild has a prefix, in the table and in the cache. *)
Definition every_guild_keeps_a_prefix (s : GuildState) : Prop :=
  every_guild_has_a_prefix s
  /\ forall id cached, lookup_guild id (guild_cache s) = Some cached -> cached <> [].

(** A refresh that raises, or else loads the cache from the table. *)
Definition refresh_reloads (env : GuildEnv) : Prop :=
  forall table, g_refresh env table = inr table
                \/ exists e, g_refresh env table = inl e.

(** A guild environment in which every call succeeds and the cache is the
    table, and a guild with its one prefix. *)
Definition guild_quiet : GuildEnv :=
  mkGuildEnv (fun _ => None) None (fun table => inr table).

Definition one_prefix_guild : GuildState :=
  mkGuildState [(1, [Py.lit "n/"]); (2, [Py.lit "!"; Py.lit "?"])]
               [(1, [Py.lit "n/"]); (2, [Py.lit "!"; Py.lit "?"])] [].

(** A coroutine of the scheduler as a command over its state. *)
Definition lift_coro {A} (c : Coro A) : Cmd State A :=
  fun s =>
    match c s with
    | (inl e, s') => (inl (Raised e), s')
    | (inr a, s') => (inr a, s')
    end.

(** ** Reddit posts: [filter_posts] of api.py *)

(** A JSON value as Python has it after [resp.json()]. *)
#[warnings="-register-all"] Inductive json :=
| JNone
| JBool (b : bool)
| JNum (n : Z)
| JStr (s : Py.str)
| JList (l : list json)
| JDict (d : list (Py.str * json)).

(** [d.get(key)] on a dict: the value, or [None]. *)
Fixpoint dict_get (key : Py.str) (d : list (Py.str * json)) : json :=
  match d with
  | [] => JNone
  | (k, v) :: d' => if Py.str_eqb k key then v else dict_get key d'
  end.

(** The truth value of a JSON value. *)
Definition truthy (v : json) : bool :=
  match v with
  | JNone => false
  | JBool b => b
  | JNum n => negb (n =? 0)
  | JStr s => negb (Nat.eqb (List.length s) 0)
  | JList l => negb (Nat.eqb (List.length l) 0)
  | JDict d => negb (Nat.eqb (List.length d) 0)
  end.

(** [v is False] *)
Definition is_False (v : json) : bool :=
  match v with
  | JBool false => true
  | _ => false
  end.

(** [v.get(key)]: only a dict has [get]. *)
Definition json_get (v : json) (key : Py.str) : Py.exn + json :=
  match v with
  | JDict d => inr (dict_get key d)
  | _ => inl Py.AttributeError
  end.

(** [filter_posts] *)
Definition filter_posts (obj : json) : Py.exn + bool :=
  match json_get obj (Py.lit "preview") with
  | inl e => inl e
  | inr p =>
      let after_preview (checks : list bool) : Py.exn + bool :=
        match json_get obj (Py.lit "is_video") with
        | inl e => inl e
        | inr v => inr (forallb (fun b => b) (checks ++ [is_False v]))
        end in
      if truthy p then
        match json_get p (Py.lit "reddit_video_preview") with
        | inl e => inl e
        | inr p2 =>
            if truthy p2 then
              match json_get p2 (Py.lit "is_gif") with
              | inl e => inl e
              | inr g => after_preview [is_False g]
              end
            else after_preview []
        end
      else after_preview []
  end.

(** * Properties *)

(** ** The embedding on small inputs *)

Example str_of_int_positive : Py.str_of_int 1700012345 = Py.lit "1700012345".
Proof. reflexivity. Qed.

Example str_of_int_zero : Py.str_of_int 0 = Py.lit "0".
Proof. reflexivity. Qed.

Example str_of_int_negative : Py.str_of_int (- 42) = Py.lit "-42".
Proof. reflexivity. Qed.

Example int_of_str_leading_zeros : Py.int_of_str (Py.lit "000005") = inr 5.
Proof. reflexivity. Qed.

Example int_of_str_empty : Py.int_of_str [] = inl Py.ValueError.
Proof. reflexivity. Qed.

Example reminder_id_of_2023 : reminder_id_of 1700012345 = inr 12345.
Proof. reflexivity. Qed.

Example reminder_id_of_leading_zeros : reminder_id_of 1700000005 = inr 5.
Proof. reflexivity. Qed.

Example reminder_id_of_four_digits : reminder_id_of 1234 = inl Py.ValueError.
Proof. reflexivity. Qed.

Example task_name_15 : reminder_task_name 15 = Py.lit "REMINDER-15".
Proof. reflexivity. Qed.

Example endswith_suffix : Py.endswith (Py.lit "REMINDER-15") (Py.lit "5") = true.
Proof. reflexivity. Qed.

Example endswith_longer : Py.endswith (Py.lit "15") (Py.lit "REMINDER-15") = false.
Proof. reflexivity. Qed.

Example startswith_other_task : Py.startswith (Py.lit "Task-3") (Py.lit "REMINDER") = false.
Proof. reflexivity. Qed.

(** A create, then the timer firing after the deadline: one delivery, and
    the row is gone. *)
Example create_then_fire :
  let s := run [(quiet 1700000015, OpCreate ctx_alice buy_milk);
                (quiet 1700100000, OpResume reminder_15)] (startup []) in
  tasks s = [] /\ reminders s = []
  /\ trace s = [EvInsert (new_row ctx_alice buy_milk 15); EvArm 15;
                EvDeliver (ToChannel 0)
                  (mkMessage alice (jump_url ctx_alice) (tc_string buy_milk));
                EvDelete 15 42].
Proof. repeat split. Qed.

(** Before the deadline the timer stays suspended. *)
Example resume_before_deadline :
  _do_wait (quiet 1700000020) reminder_15 alice_has_15 = (Suspended, alice_has_15).
Proof. reflexivity. Qed.

(** A database error inside [ctx.loading()] goes to the error handler,
    not to the caller. *)
Example cancel_with_db_down :
  _remind_remove (db_down 1700000020) ctx_alice [15] alice_has_15
  = (inr Py.PyNone,
     mkState [] (reminders alice_has_15)
             (trace alice_has_15 ++ [EvCommandError Py.PostgresError])).
Proof. reflexivity. Qed.

(** ** Decimal strings *)

Section Decimal.

Import Py.

Lemma digit_val_digit_char d :
  0 <= d < 10 -> digit_val (digit_char d) = Some d.
Proof.
  intros H.
  assert (d = 0 \/ d = 1 \/ d = 2 \/ d = 3 \/ d = 4 \/ d = 5 \/ d = 6 \/
          d = 7 \/ d = 8 \/ d = 9) as Hd by lia.
  repeat (destruct Hd as [-> | Hd]; [reflexivity |]); subst; reflexivity.
Qed.

Lemma digit_char_not_sign d :
  0 <= d < 10 -> forall s, int_of_str (digit_char d :: s) = parse_unsigned (digit_char d :: s).
Proof.
  intros H s.
  assert (d = 0 \/ d = 1 \/ d = 2 \/ d = 3 \/ d = 4 \/ d = 5 \/ d = 6 \/
          d = 7 \/ d = 8 \/ d = 9) as Hd by lia.
  repeat (destruct Hd as [-> | Hd]; [reflexivity |]); subst; reflexivity.
Qed.

(** More fuel than the binary length changes nothing. *)
Lemma digits_fuel_mono f :
  (1 <= f)%nat ->
  forall n acc f', 0 <= n < 2 ^ Z.of_nat f -> (f <= f')%nat ->
  digits_fuel f' n acc = digits_fuel f n acc.
Proof.
  induction f as [| f IH]; [lia |].
  intros _ n acc f' Hn Hf'.
  destruct f' as [| f']; [lia |].
  simpl. destruct (n <? 10) eqn:E; [reflexivity |].
  apply Z.ltb_ge in E.
  destruct f as [| f].
  - change (2 ^ Z.of_nat 1) with 2 in Hn. lia.
  - apply IH; try lia.
    rewrite Nat2Z.inj_succ, Z.pow_succ_r in Hn by lia.
    split; [apply Z.div_pos; lia |].
    apply Z.div_lt_upper_bound; lia.
Qed.

Lemma digits_fuel_enough n f acc :
  0 <= n -> (S (Z.to_nat (Z.log2 n)) <= f)%nat ->
  digits_fuel f n acc = digits_fuel (S (Z.to_nat (Z.log2 n))) n acc.
Proof.
  intros Hn Hf. apply digits_fuel_mono; try lia.
  split; [lia |].
  rewrite Nat2Z.inj_succ, Z2Nat.id by apply Z.log2_nonneg.
  destruct (Z.eq_dec n 0) as [-> | Hz]; [reflexivity |].
  apply Z.log2_spec. lia.
Qed.

(** A number of exactly [k] digits is printed as its [k] digits. *)
Lemma digits_fuel_fixed k :
  forall n acc f,
  (S k <= f)%nat -> 10 ^ Z.of_nat k <= n < 10 ^ Z.of_nat (S k) ->
  digits_fuel f n acc = fixed_digits (S k) n acc.
Proof.
  induction k as [| k IH]; intros n acc f Hf Hn.
  - destruct f as [| f]; [lia |].
    change (10 ^ Z.of_nat 1) with 10 in Hn. simpl.
    replace (n <? 10) with true by (symmetry; apply Z.ltb_lt; lia).
    rewrite Z.mod_small by lia. reflexivity.
  - destruct f as [| f]; [lia |].
    rewrite !Nat2Z.inj_succ, !Z.pow_succ_r in Hn by lia.
    assert (0 < 10 ^ Z.of_nat k) by (apply Z.pow_pos_nonneg; lia).
    cbn [digits_fuel].
    replace (n <? 10) with false by (symmetry; apply Z.ltb_ge; lia).
    rewrite IH; [reflexivity | lia |].
    rewrite Nat2Z.inj_succ, Z.pow_succ_r by lia.
    split.
    + apply Z.div_le_lower_bound; lia.
    + apply Z.div_lt_upper_bound; lia.
Qed.

Lemma fixed_digits_app k : forall n acc,
  fixed_digits k n acc = fixed_digits k n [] ++ acc.
Proof.
  induction k as [| k IH]; intros n acc; [reflexivity |].
  simpl. rewrite IH, (IH _ [_]), <- app_assoc. reflexivity.
Qed.

Lemma fixed_digits_length k : forall n,
  List.length (fixed_digits k n []) = k.
Proof.
  induction k as [| k IH]; intros n; [reflexivity |].
  simpl. rewrite fixed_digits_app, length_app, IH. simpl. lia.
Qed.

Lemma fixed_digits_split j k : forall n acc,
  fixed_digits (j + k) n acc
  = fixed_digits j (n / 10 ^ Z.of_nat k) (fixed_digits k n acc).
Proof.
  induction k as [| k IH]; intros n acc.
  - rewrite Nat.add_0_r. simpl. rewrite Z.div_1_r. reflexivity.
  - rewrite Nat.add_succ_r. cbn [fixed_digits]. rewrite IH.
    rewrite Nat2Z.inj_succ, Z.pow_succ_r by lia.
    rewrite Z.div_div by (try lia; apply Z.pow_pos_nonneg; lia).
    reflexivity.
Qed.

Lemma parse_fixed_digits k : forall n acc rest,
  parse_digits acc (fixed_digits k n rest)
  = parse_digits (acc * 10 ^ Z.of_nat k + n mod 10 ^ Z.of_nat k) rest.
Proof.
  induction k as [| k IH]; intros n acc rest.
  - simpl. rewrite Z.mod_1_r. f_equal. lia.
  - cbn [fixed_digits]. rewrite IH. cbn [parse_digits].
    rewrite digit_val_digit_char by (apply Z.mod_pos_bound; lia).
    f_equal.
    rewrite Nat2Z.inj_succ, Z.pow_succ_r by lia.
    assert (0 < 10 ^ Z.of_nat k) by (apply Z.pow_pos_nonneg; lia).
    rewrite (Z.rem_mul_r n 10 (10 ^ Z.of_nat k)) by lia.
    lia.
Qed.

Lemma fixed_digits_head k : forall n acc,
  exists d s, 0 <= d < 10 /\ fixed_digits (S k) n acc = digit_char d :: s.
Proof.
  induction k as [| k IH]; intros n acc.
  - exists (n mod 10), acc. split; [apply Z.mod_pos_bound; lia | reflexivity].
  - change (fixed_digits (S (S k)) n acc)
      with (fixed_digits (S k) (n / 10) (digit_char (n mod 10) :: acc)).
    apply IH.
Qed.

Lemma parse_unsigned_cons c s :
  parse_unsigned (c :: s)
  = match parse_digits 0 (c :: s) with
    | Some n => inr n
    | None => inl ValueError
    end.
Proof. reflexivity. Qed.

(** The id of a creation at a ten-digit timestamp is the timestamp
    modulo one million. *)
Lemma reminder_id_of_ten_digits t :
  10 ^ 9 <= t < 10 ^ 10 -> reminder_id_of t = inr (t mod 10 ^ 6).
Proof.
  intros Ht. unfold reminder_id_of, str_of_int, digits.
  replace (t <? 0) with false by (symmetry; apply Z.ltb_ge; lia).
  rewrite (digits_fuel_fixed 9).
  - change 10%nat with (4 + 6)%nat.
    rewrite fixed_digits_split, fixed_digits_app.
    rewrite skipn_app, fixed_digits_length, Nat.sub_diag.
    rewrite skipn_all2 by (rewrite fixed_digits_length; lia).
    cbn [skipn app].
    destruct (fixed_digits_head 5 t []) as (d & s & Hd & E).
    rewrite E, digit_char_not_sign, parse_unsigned_cons, <- E by assumption.
    rewrite parse_fixed_digits. cbn [parse_digits].
    f_equal.
  - assert (29 <= Z.log2 t).
    { change 29 with (Z.log2 (10 ^ 9)). apply Z.log2_le_mono. lia. }
    lia.
  - change (Z.of_nat 9) with 9. change (Z.of_nat 10) with 10. exact Ht.
Qed.

End Decimal.

(** ** Strings and task names *)

Section Names.

Import Py.

Lemma str_eqb_eq a : forall b, str_eqb a b = true <-> a = b.
Proof.
  induction a as [| x a IH]; intros [| y b]; simpl; split; intro H;
    try reflexivity; try discriminate.
  - apply andb_true_iff in H as [Hx Hab].
    apply Ascii.eqb_eq in Hx. apply IH in Hab. congruence.
  - injection H as -> ->. rewrite Ascii.eqb_refl. simpl. now apply IH.
Qed.

Lemma str_eqb_refl a : str_eqb a a = true.
Proof. now apply str_eqb_eq. Qed.

Lemma endswith_app p x : endswith (p ++ x) x = true.
Proof.
  unfold endswith. rewrite length_app.
  apply andb_true_iff. split; [apply Nat.leb_le; lia |].
  replace (List.length p + List.length x - List.length x)%nat
    with (List.length p + 0)%nat by lia.
  rewrite skipn_app, Nat.add_0_r, skipn_all.
  replace (List.length p - List.length p)%nat with 0%nat by lia.
  apply str_eqb_refl.
Qed.

Lemma startswith_reminder i :
  startswith (reminder_task_name i) (lit "REMINDER") = true.
Proof. reflexivity. Qed.

Lemma endswith_own_id i :
  endswith (reminder_task_name i) (str_of_int i) = true.
Proof. apply endswith_app. Qed.

Lemma cancel_match_own_id r : cancel_match (rm_id r) (ReminderTask r) = true.
Proof.
  unfold cancel_match. simpl get_name.
  now rewrite startswith_reminder, endswith_own_id.
Qed.

End Names.

(** ** Equality of tasks *)

Lemma Reminder_eqb_eq a b : Reminder_eqb a b = true <-> a = b.
Proof.
  destruct a as [ua ca da ia ja], b as [ub cb db ib jb].
  unfold Reminder_eqb. simpl. rewrite !andb_true_iff.
  rewrite !str_eqb_eq, !Z.eqb_eq.
  assert (Hu : option_User_eqb ua ub = true <-> ua = ub).
  { destruct ua as [[x] |], ub as [[y] |]; simpl; unfold User_eqb; simpl;
      rewrite ?Z.eqb_eq; split; intro H; try congruence; reflexivity. }
  rewrite Hu. split.
  - intros ((((-> & ->) & ->) & ->) & ->). reflexivity.
  - intros H. injection H as -> -> -> -> ->. repeat split.
Qed.

Lemma Task_eqb_eq a b : Task_eqb a b = true <-> a = b.
Proof.
  destruct a as [x | n], b as [y | m]; simpl.
  - rewrite Reminder_eqb_eq. split; congruence.
  - split; discriminate.
  - split; discriminate.
  - rewrite str_eqb_eq. split; congruence.
Qed.

Lemma Task_eqb_refl a : Task_eqb a a = true.
Proof. now apply Task_eqb_eq. Qed.

(** ** Lists of tasks *)

Lemma filter_twice {A} (f g : A -> bool) l :
  filter f (filter g l) = filter (fun x => g x && f x) l.
Proof.
  induction l as [| x l IH]; [reflexivity |].
  simpl. destruct (g x); simpl; [destruct (f x) |]; now rewrite IH.
Qed.

Lemma filter_all {A} (l : list A) : filter (fun _ => true) l = l.
Proof. induction l as [| x l IH]; simpl; congruence. Qed.

Lemma existsb_Task_eqb t l :
  existsb (fun c => Task_eqb c t) l = true <-> In t l.
Proof.
  rewrite existsb_exists. split.
  - intros (c & Hin & E). apply Task_eqb_eq in E. now subst.
  - intros Hin. exists t. split; [assumption | apply Task_eqb_refl].
Qed.

Lemma existsb_filter_Task_eqb (P : Task -> bool) t l :
  In t l ->
  existsb (fun c => Task_eqb c t) (filter P l) = P t.
Proof.
  intros Hin. destruct (P t) eqn:E.
  - apply existsb_Task_eqb, filter_In. now split.
  - apply not_true_is_false. intros H.
    apply existsb_Task_eqb, filter_In in H. destruct H. congruence.
Qed.

(** ** What the coroutines leave alone *)

Section Frame.

Variable R : State -> State -> Prop.
Hypothesis R_frame : forall s rows tr, R s (mkState (tasks s) rows tr).
Hypothesis R_trans : forall s1 s2 s3, R s1 s2 -> R s2 s3 -> R s1 s3.

Lemma R_refl s : R s s.
Proof. destruct s as [ts rows tr]. apply (R_frame (mkState ts rows tr)). Qed.

Lemma preserves_ret {A} (a : A) : preserves R (ret a).
Proof. intros s. apply R_refl. Qed.

Lemma preserves_raise {A} e : preserves R (@raise A e).
Proof. intros s. apply R_refl. Qed.

Lemma preserves_lift {A} (r : Py.exn + A) : preserves R (lift r).
Proof. destruct r; [apply preserves_raise | apply preserves_ret]. Qed.

Lemma preserves_bind {A B} (c : Coro A) (k : A -> Coro B) :
  preserves R c -> (forall a, preserves R (k a)) -> preserves R (bind c k).
Proof.
  intros Hc Hk s. unfold bind.
  specialize (Hc s). destruct (c s) as [[e | a] s1]; simpl in *.
  - assumption.
  - eapply R_trans; [eassumption | apply Hk].
Qed.

Lemma preserves_for_each {A} (xs : list A) (body : A -> Coro unit) :
  (forall x, preserves R (body x)) -> preserves R (for_each xs body).
Proof.
  intros Hb. induction xs as [| x xs IH]; simpl.
  - apply preserves_ret.
  - apply preserves_bind; auto.
Qed.

Lemma preserves_suppress e0 c : preserves R c -> preserves R (suppress e0 c).
Proof.
  intros Hc s. unfold suppress. specialize (Hc s).
  destruct (c s) as [[e | []] s1]; simpl in *; [destruct (Py.exn_eqb e e0) |];
    assumption.
Qed.

Lemma preserves_log ev : preserves R (log ev).
Proof. intros s. apply R_frame. Qed.

Lemma preserves_execute env q : preserves R (execute env q).
Proof.
  intros s. unfold execute.
  destruct (execute_raises env q); simpl; [apply R_refl | apply R_frame].
Qed.

Lemma preserves_send env target m : preserves R (send env target m).
Proof.
  intros s. unfold send.
  destruct (send_raises env target m); simpl; [apply R_refl | apply R_frame].
Qed.

Lemma preserves_fetch env : preserves R (fetch env).
Proof.
  intros s. unfold fetch. destruct (fetch_raises env); apply R_refl.
Qed.

Lemma preserves_ctx_send env : preserves R (ctx_send env).
Proof.
  intros s. unfold ctx_send. destruct (ctx_send_raises env); apply R_refl.
Qed.

Lemma preserves_react env a : preserves R (react env a).
Proof.
  intros s. unfold react. destruct (react_raises env a); apply R_refl.
Qed.

Lemma preserves_finally_gather env rs : preserves R (finally_gather env rs).
Proof.
  apply preserves_suppress, preserves_for_each. intros a. apply preserves_react.
Qed.

Lemma preserves_loading env body :
  preserves R body -> preserves R (loading env body).
Proof.
  intros Hb s. unfold loading.
  pose proof (preserves_react env AddLoading s) as H1.
  destruct (react env AddLoading s) as [[e0 | []] s1]; simpl in H1.
  - destruct (Py.is_http e0).
    + pose proof (Hb s1) as H2.
      destruct (body s1) as [[e | []] s2]; simpl in H2.
      * pose proof (preserves_finally_gather env [RemoveLoading] s2) as H3.
        destruct (finally_gather env [RemoveLoading] s2) as [[e' | []] s3];
          simpl in *; eauto.
      * eapply R_trans; [eassumption |].
        eapply R_trans; [eassumption |]. apply preserves_finally_gather.
    + eapply R_trans; [eassumption |].
      apply preserves_bind; [apply preserves_log | intros _].
      apply preserves_bind; [apply preserves_finally_gather | intros _].
      apply preserves_raise.
  - pose proof (Hb s1) as H2.
    destruct (body s1) as [[e | []] s2]; simpl in H2.
    + destruct (Py.is_http e); simpl; [eauto |].
      eapply R_trans; [eassumption |].
      eapply R_trans; [eassumption |].
      apply preserves_bind; [apply preserves_log | intros _].
      apply preserves_finally_gather.
    + eapply R_trans; [eassumption |].
      eapply R_trans; [eassumption |]. apply preserves_finally_gather.
Qed.

End Frame.

(** ** Counting Live Timers *)

Lemma timer_ids_ids_of s : timer_ids s = ids_of (tasks s).
Proof. reflexivity. Qed.

Lemma ids_of_app a b : ids_of (a ++ b) = ids_of a ++ ids_of b.
Proof. unfold ids_of. now rewrite flat_map_app, map_app. Qed.

Lemma ids_of_reminder_tasks (rs : list Reminder) :
  ids_of (map ReminderTask rs) = map rm_id rs.
Proof.
  induction rs as [| r rs IH]; [reflexivity |].
  change (ids_of (map ReminderTask (r :: rs)))
    with (rm_id r :: ids_of (map ReminderTask rs)).
  simpl. now rewrite IH.
Qed.

Lemma count_ids_filter f ts i :
  (count_occ Z.eq_dec (ids_of (filter f ts)) i
   <= count_occ Z.eq_dec (ids_of ts) i)%nat.
Proof.
  induction ts as [| t ts IH]; [reflexivity |].
  simpl filter. destruct (f t), t as [r | n]; unfold ids_of in *; simpl in *;
    try destruct (Z.eq_dec (rm_id r) i); lia.
Qed.

Lemma count_ids_remove_first t ts i :
  (count_occ Z.eq_dec (ids_of (remove_first t ts)) i
   <= count_occ Z.eq_dec (ids_of ts) i)%nat.
Proof.
  induction ts as [| t' ts IH]; [reflexivity |].
  simpl remove_first. destruct (Task_eqb t t'), t' as [r | n];
    unfold ids_of in *; simpl in *;
    try destruct (Z.eq_dec (rm_id r) i); lia.
Qed.

Lemma fewer_timers_frame s rows tr :
  fewer_timers s (mkState (tasks s) rows tr).
Proof. intros i. reflexivity. Qed.

Lemma fewer_timers_trans s1 s2 s3 :
  fewer_timers s1 s2 -> fewer_timers s2 s3 -> fewer_timers s1 s3.
Proof. intros H12 H23 i. specialize (H12 i). specialize (H23 i). lia. Qed.

Lemma same_tasks_frame s rows tr : same_tasks s (mkState (tasks s) rows tr).
Proof. reflexivity. Qed.

Lemma same_tasks_trans s1 s2 s3 :
  same_tasks s1 s2 -> same_tasks s2 s3 -> same_tasks s1 s3.
Proof. unfold same_tasks. congruence. Qed.

Lemma fewer_timers_one s s' :
  fewer_timers s s' -> one_timer_per_id s -> one_timer_per_id s'.
Proof. intros H Hs i. specialize (H i). specialize (Hs i). lia. Qed.

Lemma task_cancel_fewer t : preserves fewer_timers (task_cancel t).
Proof.
  intros s i. unfold task_cancel. simpl.
  rewrite !timer_ids_ids_of. apply count_ids_filter.
Qed.

(** The side conditions of the lemmas of [Frame] for the two relations. *)
Ltac frame_side :=
  first [ exact fewer_timers_frame | exact fewer_timers_trans
        | exact same_tasks_frame | exact same_tasks_trans ].

Ltac frame lem := apply lem; try frame_side.

(** ** The fire handler leaves the tasks alone *)

Lemma do_remind_same_tasks env r : preserves same_tasks (_do_remind env r).
Proof.
  unfold _do_remind.
  frame @preserves_bind; [frame @preserves_lift |].
  intros [u target].
  frame @preserves_bind; [frame preserves_send | intros _; frame preserves_execute].
Qed.

Lemma do_wait_fewer env r s : fewer_timers s (snd (_do_wait env r s)).
Proof.
  unfold _do_wait.
  destruct (0 <? sleep_until (now env) (deadline r)).
  - intros i. reflexivity.
  - pose proof (do_remind_same_tasks env r s) as H.
    destruct (_do_remind env r s) as [res s1]. simpl in *.
    intros i. rewrite !timer_ids_ids_of. unfold task_done. simpl.
    rewrite H. apply count_ids_remove_first.
Qed.

(** ** Cancelling shrinks the set of tasks *)

Lemma remind_remove_fewer env ctx items :
  preserves fewer_timers (_remind_remove env ctx items).
Proof.
  intros s. unfold _remind_remove.
  frame @preserves_bind; [| intros _; frame @preserves_ret].
  frame preserves_loading.
  frame @preserves_for_each.
  intros reminder_id.
  frame @preserves_bind; [| intros _; frame preserves_execute].
  frame @preserves_for_each. exact task_cancel_fewer.
Qed.

Lemma cog_unload_fewer : preserves fewer_timers cog_unload.
Proof.
  intros s. unfold cog_unload.
  frame @preserves_for_each. exact task_cancel_fewer.
Qed.

(** ** What the loops do *)

Lemma for_each_task_cancel L : forall s,
  for_each L task_cancel s
  = (inr tt,
     mkState (filter (fun t => negb (existsb (fun c => Task_eqb c t) L)) (tasks s))
             (reminders s) (trace s)).
Proof.
  induction L as [| c L IH]; intros [ts rows tr].
  - simpl. unfold ret. now rewrite filter_all.
  - cbn [for_each]. unfold bind, task_cancel. rewrite IH. simpl.
    rewrite filter_twice. do 2 f_equal.
    apply filter_ext. intros t. now rewrite negb_orb.
Qed.

(** On the tasks of the loop, cancelling the running reminder tasks whose
    name ends with an id is filtering by [cancel_match]. *)
Lemma cancel_by_name reminder_id all s :
  incl (tasks s) all ->
  for_each
    (filter (fun task => Py.endswith (get_name task) (Py.str_of_int reminder_id))
            (filter (fun task => Py.startswith (get_name task) (Py.lit "REMINDER")) all))
    task_cancel s
  = (inr tt,
     mkState (filter (fun t => negb (cancel_match reminder_id t)) (tasks s))
             (reminders s) (trace s)).
Proof.
  intros Hincl. rewrite for_each_task_cancel. do 2 f_equal.
  apply filter_ext_in. intros t Hin. f_equal.
  rewrite filter_twice. apply existsb_filter_Task_eqb. now apply Hincl.
Qed.

Lemma cancel_loop env user_id all items : forall s,
  incl (tasks s) all ->
  (forall i, In i items -> execute_raises env (Delete i user_id) = None) ->
  for_each items (fun reminder_id =>
    for_each
      (filter (fun task => Py.endswith (get_name task) (Py.str_of_int reminder_id))
              (filter (fun task => Py.startswith (get_name task) (Py.lit "REMINDER")) all))
      task_cancel ;;
    execute env (Delete reminder_id user_id)) s
  = (inr tt, cancel_rounds user_id items s).
Proof.
  induction items as [| i items IH]; intros s Hincl Hok.
  - reflexivity.
  - cbn [for_each]. unfold bind at 1. unfold bind at 1.
    rewrite cancel_by_name by assumption.
    unfold execute at 1. rewrite Hok by (left; reflexivity).
    cbn [tasks reminders trace apply_stmt stmt_event].
    change (cancel_rounds user_id (i :: items) s)
      with (cancel_rounds user_id items (cancel_round user_id s i)).
    unfold cancel_round at 1.
    apply IH.
    + cbn [tasks]. intros t Ht. apply filter_In in Ht. apply Hincl, Ht.
    + intros j Hj. apply Hok. now right.
Qed.

(** A request that meets no failure returns [None] after its rounds. *)
Lemma remind_remove_effect env ctx items s :
  reactions_ok env ->
  (forall i, In i items -> execute_raises env (Delete i (uid (author ctx))) = None) ->
  _remind_remove env ctx items s
  = (inr Py.PyNone, cancel_rounds (uid (author ctx)) items s).
Proof.
  intros Hre Hok. unfold _remind_remove, running_reminders.
  unfold bind at 1. unfold loading.
  unfold react at 1. rewrite Hre.
  rewrite cancel_loop; [| apply incl_refl | assumption].
  unfold finally_gather, suppress, gather. cbn [for_each].
  unfold bind, react. rewrite !Hre. reflexivity.
Qed.

Lemma arm_rows env rows : forall s,
  for_each rows (fun record => Reminder__init__ env (reminder_of_row env record)) s
  = (arm_result env rows,
     mkState (tasks s ++ map (task_of_row env) (armed_prefix env rows))
             (reminders s)
             (trace s ++ map (fun row => EvArm (row_id row)) (armed_prefix env rows))).
Proof.
  induction rows as [| row rows IH]; intros [ts rs tr].
  - simpl. unfold ret. now rewrite !app_nil_r.
  - cbn [for_each armed_prefix arm_result].
    unfold bind at 1. unfold Reminder__init__ at 1.
    unfold bind at 1. unfold create_task at 1.
    cbn [get_name reminder_of_row rm_id].
    destruct (create_task_raises env (reminder_task_name (row_id row))) as [e |].
    + simpl. now rewrite !app_nil_r.
    + unfold log. rewrite IH. cbn [tasks reminders trace map].
      now rewrite <- !app_assoc.
Qed.

Lemma armed_prefix_all env rows :
  (forall row, In row rows ->
     create_task_raises env (reminder_task_name (row_id row)) = None) ->
  armed_prefix env rows = rows /\ arm_result env rows = inr tt.
Proof.
  induction rows as [| row rows IH]; intros H; [now split |].
  simpl. rewrite H by now left.
  destruct IH as [-> ->]; [intros; apply H; now right | now split].
Qed.

Lemma armed_prefix_is_prefix env rows :
  exists rest, rows = armed_prefix env rows ++ rest.
Proof.
  induction rows as [| row rows [rest IH]]; [now exists [] |].
  simpl. destruct (create_task_raises env _).
  - now exists (row :: rows).
  - exists rest. simpl. now rewrite <- IH.
Qed.

(** ** Creating a reminder *)

(** The three ways a create with a generated id can go: the insert
    raises and nothing has happened; the row is written and no task is
    created; the row is written and then the task is created. *)
Lemma remind_cases env ctx reminder s i :
  reminder_id_of (now env) = inr i ->
  let row := new_row ctx reminder i in
  let out := _remind env ctx reminder s in
  (exists e, execute_raises env (Insert row) = Some e /\ out = (inl e, s))
  \/ (execute_raises env (Insert row) = None
      /\ reminders (snd out) = reminders s ++ [row]
      /\ ((tasks (snd out) = tasks s
           /\ trace (snd out) = trace s ++ [EvInsert row])
          \/ (tasks (snd out) = tasks s ++ [ReminderTask (new_reminder ctx reminder i)]
              /\ trace (snd out) = trace s ++ [EvInsert row; EvArm i]))).
Proof.
  intros Hid row out. subst out row.
  unfold _remind. rewrite Hid.
  unfold bind, lift, ret, execute, suppress, Reminder__init__, create_task,
    log, ctx_send.
  cbn [get_name new_reminder rm_id].
  destruct (execute_raises env (Insert (new_row ctx reminder i))) as [e |].
  - left. exists e. now split.
  - right. split; [reflexivity |].
    destruct (create_task_raises env (reminder_task_name i)) as [e |].
    + simpl. destruct (Py.exn_eqb e Py.UnboundLocalError);
        [destruct (ctx_send_raises env) |]; simpl; auto.
    + simpl. destruct (ctx_send_raises env); simpl; rewrite <- app_assoc; auto.
Qed.

(** A create whose insert and whose task creation succeed. *)
Lemma remind_armed env ctx reminder s i :
  reminder_id_of (now env) = inr i ->
  execute_raises env (Insert (new_row ctx reminder i)) = None ->
  create_task_raises env (reminder_task_name i) = None ->
  _remind env ctx reminder s
  = (match ctx_send_raises env with
     | Some e => inl e
     | None => inr Py.PyNone
     end,
     mkState (tasks s ++ [ReminderTask (new_reminder ctx reminder i)])
             (reminders s ++ [new_row ctx reminder i])
             (trace s ++ [EvInsert (new_row ctx reminder i); EvArm i])).
Proof.
  intros Hid Hins Harm. unfold _remind. rewrite Hid.
  unfold bind, lift, ret, execute, suppress, Reminder__init__, create_task,
    log, ctx_send.
  cbn [get_name new_reminder rm_id]. rewrite Hins, Harm. simpl.
  rewrite <- app_assoc. destruct (ctx_send_raises env); reflexivity.
Qed.

(** C3: a create writes the Reminder Record and then arms the Live Timer,
    and a failed write arms nothing.  When the insert raises, the exception
    is the outcome of the create and the state is the state before it: no
    task, no row.  When the insert succeeds the row is in the table
    whatever follows, and the constructor, when it does not raise, then
    creates the task: the task is among the tasks of the loop and the
    trace shows the insert first and the arming after it.  So a create
    whose write failed leaves nothing, and a create whose write succeeded
    leaves the row and its timer. *)
Theorem create_persists_then_arms env ctx reminder s i :
  reminder_id_of (now env) = inr i ->
  let row := new_row ctx reminder i in
  let out := _remind env ctx reminder s in
  (forall e, execute_raises env (Insert row) = Some e -> out = (inl e, s))
  /\ (execute_raises env (Insert row) = None ->
      reminders (snd out) = reminders s ++ [row])
  /\ (execute_raises env (Insert row) = None ->
      create_task_raises env (reminder_task_name i) = None ->
      tasks (snd out) = tasks s ++ [ReminderTask (new_reminder ctx reminder i)]
      /\ trace (snd out) = trace s ++ [EvInsert row; EvArm i]
      /\ fst out = match ctx_send_raises env with
                   | Some e => inl e
                   | None => inr Py.PyNone
                   end).
Proof.
  intros Hid row out. split; [| split].
  - intros e He.
    destruct (remind_cases env ctx reminder s i Hid) as [(e' & He' & Hout) | (Hok & _)].
    + fold row in He'. fold out in Hout. congruence.
    + fold row in Hok. congruence.
  - intros Hok.
    destruct (remind_cases env ctx reminder s i Hid) as [(e' & He' & _) | (_ & H & _)].
    + fold row in He'. congruence.
    + exact H.
  - intros Hok Harm. subst out.
    rewrite (remind_armed env ctx reminder s i Hid Hok Harm).
    repeat split.
Qed.

Lemma create_persists_then_arms_witness :
  reminder_id_of (now (quiet 1700012345)) = inr 12345
  /\ _remind (db_down 1700012345) ctx_alice buy_milk (startup [])
     = (inl Py.PostgresError, startup [])
  /\ tasks (snd (_remind (quiet 1700012345) ctx_alice buy_milk (startup [])))
     = [ReminderTask (new_reminder ctx_alice buy_milk 12345)]
  /\ trace (snd (_remind (quiet 1700012345) ctx_alice buy_milk (startup [])))
     = [EvInsert (new_row ctx_alice buy_milk 12345); EvArm 12345].
Proof.
  split; [reflexivity |]. split.
  - apply (proj1 (create_persists_then_arms (db_down 1700012345) ctx_alice
                    buy_milk (startup []) 12345 eq_refl)) with (e := Py.PostgresError).
    reflexivity.
  - destruct (proj2 (proj2 (create_persists_then_arms (quiet 1700012345) ctx_alice
                              buy_milk (startup []) 12345 eq_refl)) eq_refl eq_refl)
      as (Ht & Htr & _).
    split; [exact Ht | exact Htr].
Defined.

(** ** The id of a new reminder *)

(** C10: the id a create generates is [int(str(int(time()))[4:])]: at a
    timestamp of ten decimal digits it is the timestamp without its first
    four digits, that is the timestamp modulo one million, a number from 0
    to 999999, and it is the id of the row the create inserts.  Two
    different creation times can give one id, and a later creation can
    give a smaller id. *)
Theorem create_id_drops_four_digits env ctx reminder s :
  10 ^ 9 <= now env < 10 ^ 10 ->
  let i := now env mod 10 ^ 6 in
  reminder_id_of (now env) = inr i
  /\ 0 <= i < 1000000
  /\ (execute_raises env (Insert (new_row ctx reminder i)) = None ->
      reminders (snd (_remind env ctx reminder s))
      = reminders s ++ [new_row ctx reminder i])
  /\ (exists t1 t2, 10 ^ 9 <= t1 < 10 ^ 10 /\ 10 ^ 9 <= t2 < 10 ^ 10
                    /\ t1 <> t2 /\ reminder_id_of t1 = reminder_id_of t2)
  /\ (exists t1 t2 i1 i2, 10 ^ 9 <= t1 < 10 ^ 10 /\ 10 ^ 9 <= t2 < 10 ^ 10
                          /\ t1 < t2
                          /\ reminder_id_of t1 = inr i1
                          /\ reminder_id_of t2 = inr i2
                          /\ i2 < i1).
Proof.
  intros Ht i.
  pose proof (reminder_id_of_ten_digits (now env) Ht) as Hid. fold i in Hid.
  split; [exact Hid |]. split; [subst i; apply Z.mod_pos_bound; lia |].
  split; [| split].
  - intros Hok.
    destruct (remind_cases env ctx reminder s i Hid) as [(e & He & _) | (_ & H & _)];
      [congruence | exact H].
  - exists 1700012345, 1701012345.
    repeat (split; [lia |]). reflexivity.
  - exists 1700999999, 1701000000, 999999, 0.
    repeat (split; [lia |]).
    split; [reflexivity |]. split; [reflexivity | lia].
Qed.

Lemma create_id_drops_four_digits_witness :
  10 ^ 9 <= now (quiet 1700012345) < 10 ^ 10
  /\ reminder_id_of (now (quiet 1700012345)) = inr 12345
  /\ map row_id (reminders (snd (_remind (quiet 1700012345) ctx_alice buy_milk (startup []))))
     = [12345].
Proof.
  assert (H : 10 ^ 9 <= now (quiet 1700012345) < 10 ^ 10) by (simpl; lia).
  split; [exact H |].
  destruct (create_id_drops_four_digits (quiet 1700012345) ctx_alice buy_milk
              (startup []) H) as (Hid & _ & Hrow & _).
  split; [exact Hid |].
  rewrite (Hrow eq_refl). reflexivity.
Defined.

(** ** Shutdown *)

Lemma filter_keeps_all {A} (f : A -> bool) l :
  (forall x, In x l -> f x = true) -> filter f l = l.
Proof.
  induction l as [| x l IH]; intros H; [reflexivity |].
  simpl. rewrite H by now left. f_equal. apply IH. intros; apply H. now right.
Qed.

Lemma live_timers_without_reminders ts rows tr :
  live_timers
    (mkState (filter (fun t => negb (Py.startswith (get_name t) (Py.lit "REMINDER"))) ts)
             rows tr) = [].
Proof.
  unfold live_timers. cbn [tasks].
  induction ts as [| [r | n] ts IH]; [reflexivity | |].
  - cbn [filter get_name]. rewrite startswith_reminder. exact IH.
  - cbn [filter]. destruct (negb _); [cbn [flat_map app] |]; exact IH.
Qed.

(** C8: [cog_unload] cancels every Live Timer and deletes no Reminder
    Record: it raises nothing, the table after it is the table before it,
    no reminder task is left among the tasks of the loop, and the tasks
    that stay are those whose name does not start with REMINDER. *)
Theorem shutdown_cancels_timers_keeps_records s :
  fst (cog_unload s) = inr tt
  /\ reminders (snd (cog_unload s)) = reminders s
  /\ live_timers (snd (cog_unload s)) = []
  /\ tasks (snd (cog_unload s))
     = filter (fun t => negb (Py.startswith (get_name t) (Py.lit "REMINDER")))
              (tasks s).
Proof.
  unfold cog_unload, running_reminders. rewrite for_each_task_cancel.
  cbn [fst snd tasks reminders].
  assert (E : filter (fun t => negb (existsb (fun c => Task_eqb c t)
                 (filter (fun task => Py.startswith (get_name task) (Py.lit "REMINDER"))
                         (tasks s)))) (tasks s)
              = filter (fun t => negb (Py.startswith (get_name t) (Py.lit "REMINDER")))
                       (tasks s)).
  { apply filter_ext_in. intros t Hin. f_equal.
    now apply existsb_filter_Task_eqb. }
  rewrite E. repeat split.
  apply live_timers_without_reminders.
Qed.

(** ** Cancelling *)

Lemma cancel_rounds_one user_id i s :
  cancel_rounds user_id [i] s = cancel_round user_id s i.
Proof. reflexivity. Qed.

(** C9: the cancellation of timers is not scoped by owner, the deletion of
    records is.  When a user asks to cancel the id [n], with Discord and
    the database answering, the tasks that stay are those the name test
    fails on, so every Live Timer of id [n] is cancelled whoever owns it;
    the rows that stay are those that are not both of id [n] and of that
    user; so a row of id [n] of another user stays in the table, and no
    Live Timer of its id is left. *)
Theorem cancel_timers_unscoped_records_scoped env ctx n s :
  reactions_ok env ->
  execute_raises env (Delete n (uid (author ctx))) = None ->
  let out := _remind_remove env ctx [n] s in
  fst out = inr Py.PyNone
  /\ (forall t, In t (tasks (snd out)) <-> In t (tasks s) /\ cancel_match n t = false)
  /\ (forall r, rm_id r = n -> ~ In (ReminderTask r) (tasks (snd out)))
  /\ (forall row, In row (reminders (snd out))
                  <-> In row (reminders s)
                      /\ ~ (row_id row = n /\ row_user_id row = uid (author ctx)))
  /\ (forall row, In row (reminders s) -> row_id row = n ->
                  row_user_id row <> uid (author ctx) ->
                  In row (reminders (snd out))
                  /\ ~ In (row_id row) (timer_ids (snd out))).
Proof.
  intros Hre Hok out. subst out.
  rewrite remind_remove_effect;
    [| assumption | intros i [<- | []]; assumption].
  rewrite cancel_rounds_one. unfold cancel_round. cbn [fst snd tasks reminders].
  assert (Htasks : forall t,
    In t (filter (fun t => negb (cancel_match n t)) (tasks s))
    <-> In t (tasks s) /\ cancel_match n t = false).
  { intros t. rewrite filter_In, negb_true_iff. reflexivity. }
  assert (Hgone : forall r, rm_id r = n ->
    ~ In (ReminderTask r) (filter (fun t => negb (cancel_match n t)) (tasks s))).
  { intros r <- Hin. apply Htasks in Hin as [_ Hin].
    rewrite cancel_match_own_id in Hin. discriminate. }
  assert (Hrows : forall row,
    In row (filter (fun row => negb (delete_matches n (uid (author ctx)) row)) (reminders s))
    <-> In row (reminders s)
        /\ ~ (row_id row = n /\ row_user_id row = uid (author ctx))).
  { intros row. rewrite filter_In, negb_true_iff. unfold delete_matches.
    rewrite andb_false_iff, !Z.eqb_neq. intuition lia. }
  split; [reflexivity |]. split; [exact Htasks |]. split; [exact Hgone |].
  split; [exact Hrows |].
  intros row Hin Hid Hother. split.
  - apply Hrows. split; [assumption | intros [_ H]; contradiction].
  - unfold timer_ids, live_timers. cbn [tasks]. intros Hids.
    apply in_map_iff in Hids as (r & Hr & Hin').
    apply in_flat_map in Hin' as (t & Ht & Hrt).
    destruct t as [r' | name]; [| contradiction].
    destruct Hrt as [-> | []].
    apply (Hgone r); [congruence | assumption].
Qed.

Lemma quiet_reactions_ok t : reactions_ok (quiet t).
Proof. intros a. reflexivity. Qed.

Lemma cancel_timers_unscoped_records_scoped_witness :
  let out := _remind_remove (quiet 1700012400) ctx_alice [12345] two_owners_one_id in
  timer_ids two_owners_one_id = [12345; 12345]
  /\ In (new_row ctx_bob buy_milk 12345) (reminders (snd out))
  /\ ~ In 12345 (timer_ids (snd out)).
Proof.
  intros out. split; [reflexivity |].
  destruct (cancel_timers_unscoped_records_scoped (quiet 1700012400) ctx_alice
              12345 two_owners_one_id (quiet_reactions_ok _) eq_refl)
    as (_ & _ & _ & _ & H).
  apply (H (new_row ctx_bob buy_milk 12345)).
  - right. left. reflexivity.
  - reflexivity.
  - simpl. lia.
Defined.

(** C2, on a failing input: Alice has one Live Timer, of id 15, and asks
    to cancel the id 5.  The name REMINDER-15 ends with 5, so the timer of
    id 15 is cancelled although 15 was not requested, and its row stays in
    the table. *)
Theorem cancel_5_cancels_timer_15 :
  let out := _remind_remove (quiet 1700000020) ctx_alice [5] alice_has_15 in
  timer_ids alice_has_15 = [15]
  /\ map row_id (reminders alice_has_15) = [15]
  /\ ~ In 15 [5]
  /\ fst out = inr Py.PyNone
  /\ timer_ids (snd out) = []
  /\ reminders (snd out) = reminders alice_has_15.
Proof.
  cbv zeta. repeat split; try reflexivity.
  intros [H | []]. discriminate H.
Qed.

(** C7, as stated, fails: a request to cancel an id that was never created
    returns [None], not a count of 0. *)
Lemma cancel_unknown_reports_no_count :
  fst (_remind_remove (quiet 1700000020) ctx_alice [999] (startup []))
  = inr Py.PyNone
  /\ fst (_remind_remove (quiet 1700000020) ctx_alice [999] (startup []))
     <> inr (Py.PyInt 0).
Proof. split; [reflexivity | discriminate]. Qed.

(** C7, amended: cancelling an id that no row carries and that the name
    test finds on no task, with Discord and the database answering, raises
    nothing, returns [None] and leaves the tasks and the table as they
    were; the one effect is the delete statement it has sent. *)
Theorem cancel_unknown_id_changes_nothing env ctx i s :
  reactions_ok env ->
  execute_raises env (Delete i (uid (author ctx))) = None ->
  (forall t, In t (tasks s) -> cancel_match i t = false) ->
  (forall row, In row (reminders s) -> row_id row <> i) ->
  _remind_remove env ctx [i] s
  = (inr Py.PyNone,
     mkState (tasks s) (reminders s) (trace s ++ [EvDelete i (uid (author ctx))])).
Proof.
  intros Hre Hok Hts Hrows.
  rewrite remind_remove_effect;
    [| assumption | intros j [<- | []]; assumption].
  rewrite cancel_rounds_one. unfold cancel_round.
  rewrite !filter_keeps_all; [reflexivity | |].
  - intros row Hin. apply negb_true_iff. unfold delete_matches.
    apply andb_false_iff. left. apply Z.eqb_neq. now apply Hrows.
  - intros t Hin. apply negb_true_iff. now apply Hts.
Qed.

Lemma cancel_unknown_id_changes_nothing_witness :
  _remind_remove (quiet 1700012400) ctx_alice [999] two_owners_one_id
  = (inr Py.PyNone,
     mkState (tasks two_owners_one_id) (reminders two_owners_one_id)
             (trace two_owners_one_id ++ [EvDelete 999 42])).
Proof.
  apply (cancel_unknown_id_changes_nothing (quiet 1700012400) ctx_alice 999
           two_owners_one_id (quiet_reactions_ok _) eq_refl).
  - intros t [<- | [<- | []]]; reflexivity.
  - intros row [<- | [<- | []]]; simpl; lia.
Defined.

(** ** The fire handler *)

(** C1, as stated, fails: the timer of Alice's reminder completes, the
    Notifier cannot deliver, the fire attempt finishes with the exception
    of the delivery, and the row of the reminder is still in the table. *)
Lemma failed_delivery_keeps_record :
  let out := _do_wait (notifier_down 1700100000) reminder_15 alice_has_15 in
  In (ReminderTask reminder_15) (tasks alice_has_15)
  /\ fst out = Finished (inl Py.Forbidden)
  /\ In (new_row ctx_alice buy_milk 15) (reminders (snd out))
  /\ ~ In (ReminderTask reminder_15) (tasks (snd out)).
Proof.
  cbv zeta. split; [left; reflexivity |]. split; [reflexivity |].
  split; [left; reflexivity |]. intros [].
Qed.

(** C1, amended: the fire handler deletes the Reminder Record only after a
    delivery that succeeded.  With the owner and the destination resolved:
    when the delivery raises, the handler ends with that exception and the
    state, the table with it, is as it was; when the delivery and the
    delete statement succeed, the notification is in the trace and no row
    of that id and owner is left in the table. *)
Theorem fire_deletes_after_delivery env r s u target :
  destination env r = inr (u, target) ->
  let m := mkMessage u (jump_origin r) (content r) in
  (forall e, send_raises env target m = Some e ->
             _do_remind env r s = (inl e, s))
  /\ (send_raises env target m = None ->
      execute_raises env (Delete (rm_id r) (uid u)) = None ->
      fst (_do_remind env r s) = inr tt
      /\ trace (snd (_do_remind env r s))
         = trace s ++ [EvDeliver target m; EvDelete (rm_id r) (uid u)]
      /\ reminders (snd (_do_remind env r s))
         = filter (fun row => negb (delete_matches (rm_id r) (uid u) row))
                  (reminders s)
      /\ forall row, In row (reminders (snd (_do_remind env r s))) ->
                     ~ (row_id row = rm_id r /\ row_user_id row = uid u)).
Proof.
  intros Hdest m. unfold _do_remind. rewrite Hdest.
  unfold lift, ret, bind, send, execute. fold m. split.
  - intros e ->. reflexivity.
  - intros -> ->. cbn [fst snd tasks reminders trace apply_stmt stmt_event].
    rewrite <- app_assoc. repeat split.
    intros row Hin [Hid Hu]. apply filter_In in Hin as [_ Hin].
    unfold delete_matches in Hin. rewrite Hid, Hu, !Z.eqb_refl in Hin.
    discriminate.
Qed.

Lemma fire_deletes_after_delivery_witness :
  destination (quiet 1700100000) reminder_15 = inr (alice, ToChannel 0)
  /\ _do_remind (notifier_down 1700100000) reminder_15 alice_has_15
     = (inl Py.Forbidden, alice_has_15)
  /\ reminders (snd (_do_remind (quiet 1700100000) reminder_15 alice_has_15)) = [].
Proof.
  split; [reflexivity |]. split.
  - apply (proj1 (fire_deletes_after_delivery (notifier_down 1700100000)
                    reminder_15 alice_has_15 alice (ToChannel 0) eq_refl)).
    reflexivity.
  - destruct (proj2 (fire_deletes_after_delivery (quiet 1700100000)
                       reminder_15 alice_has_15 alice (ToChannel 0) eq_refl)
                eq_refl eq_refl) as (_ & _ & H & _).
    rewrite H. reflexivity.
Defined.

(** ** Recovery *)

Lemma live_timers_app ts ts' rows tr :
  live_timers (mkState (ts ++ ts') rows tr)
  = live_timers (mkState ts rows tr) ++ live_timers (mkState ts' rows tr).
Proof. unfold live_timers. cbn [tasks]. apply flat_map_app. Qed.

Lemma live_timers_of_rows env rows rs tr :
  live_timers (mkState (map (task_of_row env) rows) rs tr)
  = map (reminder_of_row env) rows.
Proof.
  unfold live_timers. cbn [tasks].
  induction rows as [| row rows IH]; [reflexivity |].
  cbn [map flat_map task_of_row app]. now rewrite IH.
Qed.

Lemma create_first_reminders_effect env s :
  fetch_raises env = None ->
  _create_first_reminders env s
  = (arm_result env (reminders s),
     mkState (tasks s ++ map (task_of_row env) (armed_prefix env (reminders s)))
             (reminders s)
             (trace s ++ map (fun row => EvArm (row_id row))
                             (armed_prefix env (reminders s)))).
Proof.
  intros Hf. unfold _create_first_reminders, bind, fetch. rewrite Hf.
  apply arm_rows.
Qed.

(** C4: a recover that starts with no Live Timer, fetches the rows and
    creates the task of each leaves exactly one Live Timer per row, as
    many as there are rows, those of rows whose deadline has passed
    included; for such a row the delay of the timer is zero and the loop,
    resuming it at that time, runs the fire handler. *)
Theorem recover_arms_every_record env s :
  live_timers s = [] ->
  fetch_raises env = None ->
  (forall row, In row (reminders s) ->
     create_task_raises env (reminder_task_name (row_id row)) = None) ->
  let out := _create_first_reminders env s in
  fst out = inr tt
  /\ reminders (snd out) = reminders s
  /\ live_timers (snd out) = map (reminder_of_row env) (reminders s)
  /\ List.length (live_timers (snd out)) = List.length (reminders s)
  /\ forall row, In row (reminders s) -> row_deadline row <= now env ->
       In (task_of_row env row) (tasks (snd out))
       /\ sleep_until (now env) (row_deadline row) = 0
       /\ forall s', _do_wait env (reminder_of_row env row) s'
                     = (Finished (fst (_do_remind env (reminder_of_row env row) s')),
                        task_done (task_of_row env row)
                                  (snd (_do_remind env (reminder_of_row env row) s'))).
Proof.
  intros Hnone Hf Harm out. subst out.
  rewrite create_first_reminders_effect by assumption.
  destruct (armed_prefix_all env (reminders s) Harm) as [-> ->].
  cbn [fst snd reminders tasks].
  assert (Hlive : live_timers
            (mkState (tasks s ++ map (task_of_row env) (reminders s)) (reminders s)
               (trace s ++ map (fun row => EvArm (row_id row)) (reminders s)))
          = map (reminder_of_row env) (reminders s)).
  { rewrite live_timers_app, live_timers_of_rows.
    change (live_timers (mkState (tasks s) (reminders s)
              (trace s ++ map (fun row => EvArm (row_id row)) (reminders s))))
      with (live_timers s).
    now rewrite Hnone. }
  split; [reflexivity |]. split; [reflexivity |]. split; [exact Hlive |].
  split; [rewrite Hlive; apply length_map |].
  intros row Hin Hpast.
  assert (Hz : sleep_until (now env) (row_deadline row) = 0)
    by (unfold sleep_until; lia).
  split; [apply in_or_app; right; now apply in_map |].
  split; [exact Hz |].
  intros s'. unfold _do_wait. cbn [reminder_of_row deadline].
  rewrite Hz. cbn [Z.ltb Z.compare].
  destruct (_do_remind env _ s') as [res s'']. reflexivity.
Qed.

Lemma recover_arms_every_record_witness :
  let env := quiet 1700000500 in
  let out := _create_first_reminders env (startup [row_1; row_2; row_3]) in
  List.length (live_timers (snd out)) = 3%nat
  /\ In (task_of_row env row_1) (tasks (snd out))
  /\ fst (_do_wait env (reminder_of_row env row_1) (snd out)) = Finished (inr tt).
Proof.
  intros env out.
  destruct (recover_arms_every_record env (startup [row_1; row_2; row_3])
              eq_refl eq_refl (fun row _ => eq_refl))
    as (_ & _ & _ & Hlen & Hpast).
  split; [exact Hlen |].
  destruct (Hpast row_1 (or_introl eq_refl)) as (Hin & _ & Hfire).
  - simpl. lia.
  - split; [exact Hin |]. fold out in Hfire |- *. rewrite Hfire. reflexivity.
Defined.




(** ** One Live Timer per id *)

(** C6, as stated, fails: two creates within one second arm two Live
    Timers of one id, and so does a recover that follows a create. *)
Lemma two_timers_for_one_id :
  timer_ids two_owners_one_id = [12345; 12345]
  /\ ~ one_timer_per_id two_owners_one_id
  /\ ~ one_timer_per_id
         (run [(quiet 1700012345, OpCreate ctx_alice buy_milk);
               (quiet 1700012400, OpRecover)] (startup [])).
Proof.
  split; [reflexivity |]. split; intros H; specialize (H 12345);
    vm_compute in H; lia.
Qed.

Lemma one_timer_same_ids s s' :
  timer_ids s' = timer_ids s -> one_timer_per_id s -> one_timer_per_id s'.
Proof. intros E H i. rewrite E. apply H. Qed.

Lemma one_timer_add s s' i :
  timer_ids s' = timer_ids s ++ [i] -> ~ In i (timer_ids s) ->
  one_timer_per_id s -> one_timer_per_id s'.
Proof.
  intros E Hfresh H j. rewrite E, count_occ_app. simpl.
  destruct (Z.eq_dec i j) as [<- | Hne].
  - rewrite (proj1 (count_occ_not_In Z.eq_dec _ _) Hfresh). lia.
  - specialize (H j). lia.
Qed.

Lemma create_keeps_one env ctx reminder s :
  fresh_step env (OpCreate ctx reminder) s ->
  one_timer_per_id s -> one_timer_per_id (snd (_remind env ctx reminder s)).
Proof.
  intros Hfresh H. simpl in Hfresh.
  destruct (reminder_id_of (now env)) as [e | i] eqn:Hid.
  - unfold _remind. rewrite Hid. exact H.
  - destruct (remind_cases env ctx reminder s i Hid)
      as [(e & _ & ->) | (_ & _ & [[Ht _] | [Ht _]])].
    + exact H.
    + apply (one_timer_same_ids s); [| exact H].
      now rewrite !timer_ids_ids_of, Ht.
    + apply (one_timer_add s _ i); [| now apply Hfresh | exact H].
      now rewrite !timer_ids_ids_of, Ht, ids_of_app.
Qed.

Lemma recover_keeps_one env s :
  fresh_step env OpRecover s ->
  one_timer_per_id s -> one_timer_per_id (snd (_create_first_reminders env s)).
Proof.
  intros Hfresh H. simpl in Hfresh.
  destruct (fetch_raises env) as [e |] eqn:Hf.
  - unfold _create_first_reminders, bind, fetch. rewrite Hf. exact H.
  - rewrite create_first_reminders_effect by assumption. cbn [snd].
    destruct (armed_prefix_is_prefix env (reminders s)) as [rest Hrest].
    rewrite Hrest, map_app, app_assoc in Hfresh.
    apply NoDup_app_remove_r in Hfresh.
    unfold one_timer_per_id. apply (NoDup_count_occ Z.eq_dec).
    rewrite timer_ids_ids_of. cbn [tasks]. rewrite ids_of_app.
    unfold task_of_row. rewrite <- map_map, ids_of_reminder_tasks, map_map.
    exact Hfresh.
Qed.

Lemma step_keeps_one env op s :
  fresh_step env op s -> one_timer_per_id s -> one_timer_per_id (step env op s).
Proof.
  destruct op as [ctx reminder | ctx items | | | r]; intros Hfresh H.
  - now apply create_keeps_one.
  - apply (fewer_timers_one s); [apply remind_remove_fewer | exact H].
  - now apply recover_keeps_one.
  - apply (fewer_timers_one s); [apply cog_unload_fewer | exact H].
  - simpl. destruct (existsb _ _); [| exact H].
    apply (fewer_timers_one s); [apply do_wait_fewer | exact H].
Qed.

(** C6, amended: at most one Live Timer exists per id at every instant of
    a run of creates, cancels, recovers, shutdowns and timer resumptions
    that starts with at most one per id, provided that no create generates
    the id of a Live Timer and that every recover meets pairwise distinct
    ids, those of the Live Timers and of the rows taken together. *)
Theorem one_timer_per_id_in_fresh_runs ops :
  forall s, one_timer_per_id s -> fresh_run ops s ->
  forall n, one_timer_per_id (run (firstn n ops) s).
Proof.
  induction ops as [| [env op] ops IH]; intros s H Hfresh n.
  - destruct n; exact H.
  - destruct n as [| n]; [exact H |].
    destruct Hfresh as [Hstep Hrest].
    cbn [firstn run]. apply IH; [| exact Hrest].
    now apply step_keeps_one.
Qed.

Lemma one_timer_per_id_in_fresh_runs_witness :
  timer_ids (run one_day (startup [row_1; row_2; row_3])) = [3; 12345; 12370]
  /\ forall n, one_timer_per_id (run (firstn n one_day) (startup [row_1; row_2; row_3])).
Proof.
  split; [reflexivity |].
  apply (one_timer_per_id_in_fresh_runs one_day (startup [row_1; row_2; row_3])).
  - intros i. simpl. lia.
  - vm_compute.
    repeat match goal with
           | |- _ /\ _ => split
           | |- True => exact I
           | |- forall i, _ -> _ -> False =>
               let E := fresh in let H := fresh in
               intros ? E H; injection E as <-; simpl in H; intuition discriminate
           | |- NoDup _ =>
               repeat (constructor; [simpl; intuition discriminate |]); constructor
           end.
Defined.

(** * Further properties *)

(** ** remind list *)

Lemma insert_by_id_perm row rows :
  Permutation (insert_by_id row rows) (row :: rows).
Proof.
  induction rows as [| x rows IH]; simpl; [reflexivity |].
  destruct (row_id row <=? row_id x); [reflexivity |].
  rewrite IH. apply perm_swap.
Qed.

Lemma order_by_id_perm rows : Permutation (order_by_id rows) rows.
Proof.
  induction rows as [| row rows IH]; simpl; [reflexivity |].
  rewrite insert_by_id_perm. now constructor.
Qed.

Lemma insert_by_id_sorted row rows :
  Sorted (fun a b => row_id a <= row_id b) rows ->
  Sorted (fun a b => row_id a <= row_id b) (insert_by_id row rows).
Proof.
  induction rows as [| x rows IH]; intros Hs; simpl.
  - repeat constructor.
  - destruct (row_id row <=? row_id x) eqn:E.
    + constructor; [assumption |]. constructor. now apply Z.leb_le.
    + apply Z.leb_gt in E. apply Sorted_inv in Hs as [Hs Hhd].
      constructor; [now apply IH |].
      destruct rows as [| y rows]; simpl.
      * constructor. lia.
      * destruct (row_id row <=? row_id y); constructor; [lia |].
        now inversion Hhd.
Qed.

Lemma order_by_id_sorted rows :
  Sorted (fun a b => row_id a <= row_id b) (order_by_id rows).
Proof.
  induction rows as [| row rows IH]; simpl; [constructor |].
  now apply insert_by_id_sorted.
Qed.

(** X1: [remind list] shows the reminders of the caller and no others, by
    ascending id, and says so when there are none; it changes nothing. *)
Theorem remind_list_own_rows_by_id env strftime ctx s :
  fetch_raises env = None ->
  exists rows,
    Permutation rows (filter (fun row => row_user_id row =? uid (author ctx))
                             (reminders s))
    /\ Sorted (fun a b => row_id a <= row_id b) rows
    /\ (forall row, In row rows <->
                    In row (reminders s) /\ row_user_id row = uid (author ctx))
    /\ _remind_list env strftime ctx s
       = (inr (match rows with
               | [] => [Py.lit "No reminders"]
               | _ => map (format_reminder strftime) rows
               end), s).
Proof.
  intros Hf.
  exists (order_by_id (filter (fun row => row_user_id row =? uid (author ctx))
                              (reminders s))).
  split; [apply order_by_id_perm |]. split; [apply order_by_id_sorted |]. split.
  - intros row. split.
    + intros Hin. apply (Permutation_in _ (order_by_id_perm _)) in Hin.
      apply filter_In in Hin as [Hin Hu]. apply Z.eqb_eq in Hu. now split.
    + intros [Hin Hu].
      apply (Permutation_in _ (Permutation_sym (order_by_id_perm _))).
      apply filter_In. split; [assumption | now apply Z.eqb_eq].
  - unfold _remind_list, bind, fetch_of_user, ret. rewrite Hf.
    destruct (order_by_id _); reflexivity.
Qed.

Lemma remind_list_own_rows_by_id_witness :
  exists rows,
    Permutation rows (filter (fun row => row_user_id row =? uid (author ctx_alice))
                             (reminders two_owners_one_id))
    /\ Sorted (fun a b => row_id a <= row_id b) rows
    /\ (forall row, In row rows <->
                    In row (reminders two_owners_one_id)
                    /\ row_user_id row = uid (author ctx_alice))
    /\ _remind_list (quiet 1700012400) (fun _ => []) ctx_alice two_owners_one_id
       = (inr (match rows with
               | [] => [Py.lit "No reminders"]
               | _ => map (format_reminder (fun _ => [])) rows
               end), two_owners_one_id).
Proof.
  apply (remind_list_own_rows_by_id (quiet 1700012400) (fun _ => []) ctx_alice
           two_owners_one_id).
  reflexivity.
Defined.
(** ** Creating, listing, cancelling *)

Lemma in_order_by_id row rows : In row (order_by_id rows) <-> In row rows.
Proof.
  split; intros H.
  - now apply (Permutation_in _ (order_by_id_perm rows)).
  - now apply (Permutation_in _ (Permutation_sym (order_by_id_perm rows))).
Qed.

(** X2: a reminder that was just created is in the list of its author. *)
Theorem created_reminder_is_listed env env' strftime ctx reminder s i :
  reminder_id_of (now env) = inr i ->
  execute_raises env (Insert (new_row ctx reminder i)) = None ->
  fetch_raises env' = None ->
  exists entries,
    fst (_remind_list env' strftime ctx (snd (_remind env ctx reminder s)))
    = inr entries
    /\ In (format_reminder strftime (new_row ctx reminder i)) entries.
Proof.
  intros Hid Hins Hf.
  destruct (remind_cases env ctx reminder s i Hid) as [(e & He & _) | (_ & Hrows & _)];
    [congruence |].
  unfold _remind_list, bind, fetch_of_user, ret. rewrite Hf, Hrows.
  set (rows := order_by_id _).
  assert (Hin : In (new_row ctx reminder i) rows).
  { apply in_order_by_id, filter_In. split.
    - apply in_or_app. right. now left.
    - apply Z.eqb_refl. }
  exists (map (format_reminder strftime) rows). split.
  - cbn [fst]. destruct rows; [contradiction | reflexivity].
  - now apply in_map.
Qed.

Lemma created_reminder_is_listed_witness :
  exists entries,
    fst (_remind_list (quiet 1700012400) (fun _ => []) ctx_alice
           (snd (_remind (quiet 1700012345) ctx_alice buy_milk (startup []))))
    = inr entries
    /\ In (format_reminder (fun _ => []) (new_row ctx_alice buy_milk 12345)) entries.
Proof.
  apply (created_reminder_is_listed (quiet 1700012345) (quiet 1700012400)
           (fun _ => []) ctx_alice buy_milk (startup []) 12345);
    reflexivity.
Defined.

(** X3: create, then cancel by the author, is a round trip: when the new
    id is the id of no row of the author and the name test of the cancel
    finds it on no task that was there, the tasks and the table are what
    they were before the create. *)
Theorem create_then_cancel_restores env env' ctx reminder s i :
  reminder_id_of (now env) = inr i ->
  execute_raises env (Insert (new_row ctx reminder i)) = None ->
  create_task_raises env (reminder_task_name i) = None ->
  reactions_ok env' ->
  execute_raises env' (Delete i (uid (author ctx))) = None ->
  (forall t, In t (tasks s) -> cancel_match i t = false) ->
  (forall row, In row (reminders s) ->
               ~ (row_id row = i /\ row_user_id row = uid (author ctx))) ->
  let s1 := snd (_remind env ctx reminder s) in
  let out := _remind_remove env' ctx [i] s1 in
  In (ReminderTask (new_reminder ctx reminder i)) (tasks s1)
  /\ In (new_row ctx reminder i) (reminders s1)
  /\ fst out = inr Py.PyNone
  /\ tasks (snd out) = tasks s
  /\ reminders (snd out) = reminders s.
Proof.
  intros Hid Hins Harm Hre Hdel Hts Hrows s1 out. subst out s1.
  rewrite (remind_armed env ctx reminder s i) by assumption.
  cbn [snd tasks reminders].
  rewrite remind_remove_effect;
    [| assumption | intros j [<- | []]; assumption].
  rewrite cancel_rounds_one. unfold cancel_round. cbn [fst snd tasks reminders].
  split; [apply in_or_app; right; now left |].
  split; [apply in_or_app; right; now left |].
  split; [reflexivity |].
  rewrite !filter_app. split.
  - rewrite filter_keeps_all
      by (intros t Ht; apply negb_true_iff; now apply Hts).
    cbn [filter].
    change i with (rm_id (new_reminder ctx reminder i)) at 1.
    rewrite cancel_match_own_id. apply app_nil_r.
  - rewrite filter_keeps_all.
    + cbn [filter]. unfold delete_matches. cbn [new_row row_id row_user_id].
      rewrite !Z.eqb_refl. apply app_nil_r.
    + intros row Hin. apply negb_true_iff. unfold delete_matches.
      apply andb_false_iff. rewrite !Z.eqb_neq.
      specialize (Hrows row Hin). lia.
Qed.

Lemma create_then_cancel_restores_witness :
  let s1 := snd (_remind (quiet 1700012399) ctx_bob buy_milk two_owners_one_id) in
  let out := _remind_remove (quiet 1700012400) ctx_bob [12399] s1 in
  In (ReminderTask (new_reminder ctx_bob buy_milk 12399)) (tasks s1)
  /\ In (new_row ctx_bob buy_milk 12399) (reminders s1)
  /\ fst out = inr Py.PyNone
  /\ tasks (snd out) = tasks two_owners_one_id
  /\ reminders (snd out) = reminders two_owners_one_id.
Proof.
  apply (create_then_cancel_restores (quiet 1700012399) (quiet 1700012400)
           ctx_bob buy_milk two_owners_one_id 12399);
    try reflexivity.
  - intros a. reflexivity.
  - intros t [<- | [<- | []]]; reflexivity.
  - intros row [<- | [<- | []]]; simpl; lia.
Defined.

Lemma cancel_rounds_tasks user_id items : forall s,
  tasks (cancel_rounds user_id items s)
  = filter (fun t => forallb (fun i => negb (cancel_match i t)) items) (tasks s).
Proof.
  induction items as [| i items IH]; intros s.
  - unfold cancel_rounds. cbn [fold_left forallb]. symmetry. apply filter_all.
  - change (cancel_rounds user_id (i :: items) s)
      with (cancel_rounds user_id items (cancel_round user_id s i)).
    rewrite IH. unfold cancel_round. cbn [tasks forallb].
    apply filter_twice.
Qed.

Lemma cancel_rounds_reminders user_id items : forall s,
  reminders (cancel_rounds user_id items s)
  = filter (fun row => forallb (fun i => negb (delete_matches i user_id row)) items)
           (reminders s).
Proof.
  induction items as [| i items IH]; intros s.
  - unfold cancel_rounds. cbn [fold_left forallb]. symmetry. apply filter_all.
  - change (cancel_rounds user_id (i :: items) s)
      with (cancel_rounds user_id items (cancel_round user_id s i)).
    rewrite IH. unfold cancel_round. cbn [reminders forallb].
    apply filter_twice.
Qed.

Lemma filter_idempotent {A} (f : A -> bool) l : filter f (filter f l) = filter f l.
Proof.
  rewrite filter_twice. apply filter_ext. intros x. apply andb_diag.
Qed.

(** X4: cancelling is idempotent: repeating a request that met no failure
    cancels and deletes nothing more, and raises nothing. *)
Theorem cancel_twice_is_cancel_once env env' ctx items s :
  reactions_ok env -> reactions_ok env' ->
  (forall i, In i items -> execute_raises env (Delete i (uid (author ctx))) = None) ->
  (forall i, In i items -> execute_raises env' (Delete i (uid (author ctx))) = None) ->
  let s1 := snd (_remind_remove env ctx items s) in
  let out := _remind_remove env' ctx items s1 in
  fst out = inr Py.PyNone
  /\ tasks (snd out) = tasks s1
  /\ reminders (snd out) = reminders s1.
Proof.
  intros Hre Hre' Hok Hok' s1 out. subst out s1.
  rewrite !remind_remove_effect by assumption. cbn [fst snd].
  split; [reflexivity |].
  rewrite !cancel_rounds_tasks, !cancel_rounds_reminders.
  split; apply filter_idempotent.
Qed.

Lemma cancel_twice_is_cancel_once_witness :
  let s1 := snd (_remind_remove (quiet 1700012400) ctx_alice [12345; 7] two_owners_one_id) in
  let out := _remind_remove (quiet 1700012401) ctx_alice [12345; 7] s1 in
  fst out = inr Py.PyNone
  /\ tasks (snd out) = tasks s1
  /\ reminders (snd out) = reminders s1.
Proof.
  apply (cancel_twice_is_cancel_once (quiet 1700012400) (quiet 1700012401)
           ctx_alice [12345; 7] two_owners_one_id
           (quiet_reactions_ok _) (quiet_reactions_ok _));
    intros; reflexivity.
Defined.
(** ** Firing, restarting *)

(** X5: a reminder whose delivery failed is kept, so that the next start
    arms it again: after a fire attempt that ended at the delivery, a
    recover over the table arms a timer for every row that was there
    before the attempt, the row of the failed reminder included. *)
Theorem failed_delivery_is_rearmed env env' r s u target e :
  destination env r = inr (u, target) ->
  send_raises env target (mkMessage u (jump_origin r) (content r)) = Some e ->
  deadline r <= now env ->
  fetch_raises env' = None ->
  (forall row, In row (reminders s) ->
     create_task_raises env' (reminder_task_name (row_id row)) = None) ->
  let s1 := snd (_do_wait env r s) in
  let s2 := snd (_create_first_reminders env' (startup (reminders s1))) in
  fst (_do_wait env r s) = Finished (inl e)
  /\ reminders s1 = reminders s
  /\ trace s1 = trace s
  /\ live_timers s2 = map (reminder_of_row env') (reminders s).
Proof.
  intros Hdest Hsend Hdue Hf Harm s1 s2. subst s2 s1.
  assert (Hfire : _do_remind env r s = (inl e, s)).
  { unfold _do_remind. rewrite Hdest. unfold lift, ret, bind, send.
    now rewrite Hsend. }
  unfold _do_wait.
  replace (0 <? sleep_until (now env) (deadline r)) with false
    by (symmetry; apply Z.ltb_ge; unfold sleep_until; lia).
  rewrite Hfire. cbn [fst snd task_done reminders trace].
  repeat split.
  rewrite create_first_reminders_effect by assumption.
  cbn [snd startup reminders tasks].
  destruct (armed_prefix_all env' (reminders s) Harm) as [-> _].
  cbn [app]. apply live_timers_of_rows.
Qed.

Lemma failed_delivery_is_rearmed_witness :
  let s1 := snd (_do_wait (notifier_down 1700100000) reminder_15 alice_has_15) in
  let s2 := snd (_create_first_reminders (quiet 1700100100) (startup (reminders s1))) in
  fst (_do_wait (notifier_down 1700100000) reminder_15 alice_has_15)
  = Finished (inl Py.Forbidden)
  /\ reminders s1 = reminders alice_has_15
  /\ trace s1 = trace alice_has_15
  /\ live_timers s2 = map (reminder_of_row (quiet 1700100100)) (reminders alice_has_15).
Proof.
  apply (failed_delivery_is_rearmed (notifier_down 1700100000) (quiet 1700100100)
           reminder_15 alice_has_15 alice (ToChannel 0) Py.Forbidden);
    try reflexivity.
  - simpl. lia.
Defined.

(** X6: the reminder of an owner that [get_user] did not find is never
    delivered and never deleted: its fire attempt raises before the
    delivery ([AttributeError], or the error of reading the jump link),
    and leaves the table and the trace as they were. *)
Theorem unknown_owner_never_delivered env r s :
  user r = None ->
  _do_remind env r s
  = (inl (match url_channel env (jump_origin r) with
          | inl e => e
          | inr _ => Py.AttributeError
          end), s)
  /\ reminders (snd (_do_wait env r s)) = reminders s
  /\ trace (snd (_do_wait env r s)) = trace s.
Proof.
  intros Hu.
  assert (H : _do_remind env r s
              = (inl (match url_channel env (jump_origin r) with
                      | inl e => e
                      | inr _ => Py.AttributeError
                      end), s)).
  { unfold _do_remind, destination. rewrite Hu.
    destruct (url_channel env (jump_origin r)); reflexivity. }
  split; [exact H |].
  unfold _do_wait. destruct (0 <? sleep_until (now env) (deadline r));
    [now split |].
  rewrite H. now split.
Qed.

Lemma unknown_owner_never_delivered_witness :
  let r := mkReminder None (Py.lit "buy milk") 1700000100 1 (jump_url ctx_alice) in
  _do_remind (quiet 1700000500) r (startup [row_1])
  = (inl Py.AttributeError, startup [row_1])
  /\ reminders (snd (_do_wait (quiet 1700000500) r (startup [row_1]))) = [row_1]
  /\ trace (snd (_do_wait (quiet 1700000500) r (startup [row_1]))) = [].
Proof.
  intros r.
  exact (unknown_owner_never_delivered (quiet 1700000500) r (startup [row_1]) eq_refl).
Defined.

Lemma cog_unload_effect s :
  cog_unload s
  = (inr tt,
     mkState (filter (fun t => negb (Py.startswith (get_name t) (Py.lit "REMINDER")))
                     (tasks s))
             (reminders s) (trace s)).
Proof.
  unfold cog_unload, running_reminders. rewrite for_each_task_cancel.
  do 2 f_equal. apply filter_ext_in. intros t Hin. f_equal.
  now apply existsb_filter_Task_eqb.
Qed.

(** X7: shutdown followed by recover brings the Live Timers back from the
    table: whatever timers there were before, afterwards there is exactly
    one per row. *)
Theorem shutdown_then_recover env s :
  fetch_raises env = None ->
  (forall row, In row (reminders s) ->
     create_task_raises env (reminder_task_name (row_id row)) = None) ->
  let s1 := snd (cog_unload s) in
  let out := _create_first_reminders env s1 in
  fst out = inr tt
  /\ live_timers (snd out) = map (reminder_of_row env) (reminders s)
  /\ reminders (snd out) = reminders s.
Proof.
  intros Hf Harm s1 out. subst out s1.
  rewrite cog_unload_effect. cbn [snd].
  rewrite create_first_reminders_effect by assumption.
  cbn [fst snd tasks reminders].
  destruct (armed_prefix_all env (reminders s) Harm) as [-> ->].
  split; [reflexivity |]. split; [| reflexivity].
  rewrite live_timers_app, live_timers_without_reminders, live_timers_of_rows.
  reflexivity.
Qed.

Lemma shutdown_then_recover_witness :
  let s1 := snd (cog_unload two_owners_one_id) in
  let out := _create_first_reminders (quiet 1700012400) s1 in
  fst out = inr tt
  /\ live_timers (snd out)
     = map (reminder_of_row (quiet 1700012400)) (reminders two_owners_one_id)
  /\ reminders (snd out) = reminders two_owners_one_id.
Proof.
  apply (shutdown_then_recover (quiet 1700012400) two_owners_one_id);
    intros; reflexivity.
Defined.
(** ** Failures inside the commands *)

(** X8: under [ctx.loading()] an exception that is not a Discord HTTP
    error never reaches the caller: with the reactions working, whatever
    the body is, the statement ends normally; a body that raised has its
    exception dispatched to the error handler, once, after the effects the
    body had up to there. *)
Theorem loading_swallows_exceptions env body s :
  reactions_ok env ->
  (forall e, fst (body s) = inl e -> Py.is_http e = false) ->
  fst (loading env body s) = inr tt
  /\ tasks (snd (loading env body s)) = tasks (snd (body s))
  /\ reminders (snd (loading env body s)) = reminders (snd (body s))
  /\ trace (snd (loading env body s))
     = trace (snd (body s))
       ++ match fst (body s) with
          | inl e => [EvCommandError e]
          | inr _ => []
          end.
Proof.
  intros Hre Hbody. unfold loading, react. rewrite Hre.
  destruct (body s) as [[e | []] s1]; cbn [fst snd] in *.
  - rewrite (Hbody e eq_refl).
    unfold bind, dispatch_command_error, log, finally_gather, suppress, gather.
    cbn [for_each]. unfold bind, react. rewrite Hre. simpl. repeat split.
  - unfold finally_gather, suppress, gather. cbn [for_each].
    unfold bind, react. rewrite !Hre. simpl. rewrite app_nil_r. repeat split.
Qed.

Lemma loading_swallows_exceptions_witness :
  let body := execute (db_down 1700012400) (Delete 12345 42) in
  fst (loading (db_down 1700012400) body two_owners_one_id) = inr tt
  /\ tasks (snd (loading (db_down 1700012400) body two_owners_one_id))
     = tasks (snd (body two_owners_one_id))
  /\ reminders (snd (loading (db_down 1700012400) body two_owners_one_id))
     = reminders (snd (body two_owners_one_id))
  /\ trace (snd (loading (db_down 1700012400) body two_owners_one_id))
     = trace (snd (body two_owners_one_id))
       ++ match fst (body two_owners_one_id) with
          | inl e => [EvCommandError e]
          | inr _ => []
          end.
Proof.
  intros body.
  apply (loading_swallows_exceptions (db_down 1700012400) body two_owners_one_id).
  - intros a. reflexivity.
  - intros e H. injection H as <-. reflexivity.
Defined.

(** X9: a Discord HTTP error raised by the body of [ctx.loading()] comes
    out as [RuntimeError]: the generator yields a second time, which the
    context manager refuses; nothing is dispatched to the error handler. *)
Theorem loading_http_error_becomes_runtime_error env body s e :
  react_raises env AddLoading = None ->
  fst (body s) = inl e ->
  Py.is_http e = true ->
  loading env body s = (inl Py.RuntimeError, snd (body s)).
Proof.
  intros Hre Hbody Hhttp. unfold loading, react. rewrite Hre.
  destruct (body s) as [[e' | []] s1]; cbn [fst snd] in *; [| discriminate].
  injection Hbody as ->. now rewrite Hhttp.
Qed.

Lemma loading_http_error_becomes_runtime_error_witness :
  loading (quiet 1700012400) (raise Py.Forbidden) two_owners_one_id
  = (inl Py.RuntimeError, two_owners_one_id).
Proof.
  apply (loading_http_error_becomes_runtime_error (quiet 1700012400)
           (raise Py.Forbidden) two_owners_one_id Py.Forbidden);
    reflexivity.
Defined.

Lemma for_each_app {A} (xs ys : list A) (body : A -> Coro unit) s :
  for_each (xs ++ ys) body s
  = match for_each xs body s with
    | (inr _, s') => for_each ys body s'
    | (inl e, s') => (inl e, s')
    end.
Proof.
  revert s. induction xs as [| x xs IH]; intros s; [reflexivity |].
  cbn [app for_each]. unfold bind. destruct (body x s) as [[e | []] s1];
    [reflexivity | apply IH].
Qed.

Lemma cancel_rounds_incl user_id items : forall s,
  incl (tasks (cancel_rounds user_id items s)) (tasks s).
Proof.
  intros s. rewrite cancel_rounds_tasks. apply incl_filter.
Qed.

(** X10: a database error in the middle of a cancel request leaves it half
    done and unreported to the caller.  The ids before the failing one are
    cancelled and deleted; for the failing id the timers are already
    cancelled and the row is still in the table; the ids after it are not
    looked at; the error goes to the error handler and the command returns
    normally. *)
Theorem cancel_interrupted_by_db_error env ctx done i rest s e :
  reactions_ok env ->
  (forall j, In j done -> execute_raises env (Delete j (uid (author ctx))) = None) ->
  execute_raises env (Delete i (uid (author ctx))) = Some e ->
  Py.is_http e = false ->
  let s1 := cancel_rounds (uid (author ctx)) done s in
  _remind_remove env ctx (done ++ i :: rest) s
  = (inr Py.PyNone,
     mkState (filter (fun t => negb (cancel_match i t)) (tasks s1))
             (reminders s1)
             (trace s1 ++ [EvCommandError e])).
Proof.
  intros Hre Hdone Hfail Hhttp s1.
  assert (Hbody :
    for_each (done ++ i :: rest) (fun reminder_id =>
      for_each
        (filter (fun task => Py.endswith (get_name task) (Py.str_of_int reminder_id))
                (filter (fun task => Py.startswith (get_name task) (Py.lit "REMINDER"))
                        (tasks s)))
        task_cancel ;;
      execute env (Delete reminder_id (uid (author ctx)))) s
    = (inl e, mkState (filter (fun t => negb (cancel_match i t)) (tasks s1))
                      (reminders s1) (trace s1))).
  { rewrite for_each_app, cancel_loop; [| apply incl_refl | assumption].
    fold s1. cbn [for_each]. unfold bind at 1. unfold bind at 1.
    rewrite cancel_by_name by apply cancel_rounds_incl.
    unfold execute. now rewrite Hfail. }
  unfold _remind_remove, running_reminders.
  unfold bind at 1. unfold loading, react. rewrite Hre, Hbody, Hhttp.
  unfold bind, dispatch_command_error, log, finally_gather, suppress, gather.
  cbn [for_each]. unfold bind, react. rewrite Hre. reflexivity.
Qed.

Lemma cancel_interrupted_by_db_error_witness :
  _remind_remove (db_down 1700012400) ctx_alice ([] ++ 12345 :: [7]) two_owners_one_id
  = (inr Py.PyNone,
     mkState [] (reminders two_owners_one_id)
             (trace two_owners_one_id ++ [EvCommandError Py.PostgresError])).
Proof.
  apply (cancel_interrupted_by_db_error (db_down 1700012400) ctx_alice []
           12345 [7] two_owners_one_id Py.PostgresError);
    try reflexivity.
  - intros a. reflexivity.
  - intros j [].
Defined.

(** X11: a create whose row is written keeps the row whatever happens
    next.  When the constructor raises [UnboundLocalError] the exception
    is suppressed: the create goes on to its reply and reports success,
    with the row in the table and no timer for it.  When the constructor
    raises anything else, the create ends with that exception, again with
    the row and without a timer. *)
Theorem create_keeps_row_without_timer env ctx reminder s i e :
  reminder_id_of (now env) = inr i ->
  execute_raises env (Insert (new_row ctx reminder i)) = None ->
  create_task_raises env (reminder_task_name i) = Some e ->
  let s1 := mkState (tasks s) (reminders s ++ [new_row ctx reminder i])
                    (trace s ++ [EvInsert (new_row ctx reminder i)]) in
  _remind env ctx reminder s
  = (if Py.exn_eqb e Py.UnboundLocalError
     then match ctx_send_raises env with
          | Some e' => inl e'
          | None => inr Py.PyNone
          end
     else inl e, s1).
Proof.
  intros Hid Hins Harm s1. subst s1. unfold _remind. rewrite Hid.
  unfold bind, lift, ret, execute, suppress, Reminder__init__, create_task,
    log, ctx_send.
  cbn [get_name new_reminder rm_id]. rewrite Hins, Harm. simpl.
  destruct (Py.exn_eqb e Py.UnboundLocalError);
    [destruct (ctx_send_raises env) |]; reflexivity.
Qed.

Lemma create_keeps_row_without_timer_witness :
  _remind (loop_closed 1700012345) ctx_alice buy_milk
          (startup [])
  = (inl Py.RuntimeError,
     mkState [] [new_row ctx_alice buy_milk 12345]
             [EvInsert (new_row ctx_alice buy_milk 12345)]).
Proof.
  apply (create_keeps_row_without_timer
           (loop_closed 1700012345) ctx_alice buy_milk
           (startup []) 12345 Py.RuntimeError);
    reflexivity.
Defined.
(** ** Decimal strings, again *)

Section MoreDecimal.

Import Py.

(** The decimal rendering of a natural number has as many digits as its
    size asks for. *)
Lemma digits_exact n :
  0 <= n ->
  exists k, digits n = fixed_digits (S k) n []
            /\ n < 10 ^ Z.of_nat (S k)
            /\ (k = 0%nat \/ 10 ^ Z.of_nat k <= n).
Proof.
  intros Hn.
  assert (Hk : forall k, n < 10 ^ Z.of_nat (S k) ->
            exists j, digits n = fixed_digits (S j) n []
                      /\ n < 10 ^ Z.of_nat (S j)
                      /\ (j = 0%nat \/ 10 ^ Z.of_nat j <= n)).
  { induction k as [| k IH]; intros Hlt.
    - exists 0%nat. split; [| split; [assumption | now left]].
      change (10 ^ Z.of_nat 1) with 10 in Hlt.
      unfold digits. cbn [digits_fuel fixed_digits].
      replace (n <? 10) with true by (symmetry; apply Z.ltb_lt; lia).
      now rewrite Z.mod_small by lia.
    - destruct (Z_lt_le_dec n (10 ^ Z.of_nat (S k))) as [Hsmall | Hbig];
        [now apply IH |].
      exists (S k). split; [| split; [assumption | now right]].
      unfold digits. apply digits_fuel_fixed; [| split; assumption].
      assert (Z.of_nat (S k) <= Z.log2 n).
      { apply Z.log2_le_pow2; [lia |].
        etransitivity; [| exact Hbig].
        apply Z.pow_le_mono_l. lia. }
      lia. }
  apply (Hk (Z.to_nat n)).
  rewrite Nat2Z.inj_succ, Z2Nat.id by assumption.
  assert (Z.succ n < 2 ^ Z.succ n) by (apply Z.pow_gt_lin_r; lia).
  assert (2 ^ Z.succ n <= 10 ^ Z.succ n) by (apply Z.pow_le_mono_l; lia).
  lia.
Qed.

Lemma digits_fixed_of_size k n :
  10 ^ Z.of_nat k <= n < 10 ^ Z.of_nat (S k) ->
  digits n = fixed_digits (S k) n [].
Proof.
  intros [Hlo Hhi].
  assert (0 < 10 ^ Z.of_nat k) by (apply Z.pow_pos_nonneg; lia).
  unfold digits. apply digits_fuel_fixed; [| now split].
  assert (Z.of_nat k <= Z.log2 n).
  { apply Z.log2_le_pow2; [lia |].
    etransitivity; [| exact Hlo]. apply Z.pow_le_mono_l. lia. }
  lia.
Qed.

(** The id of a creation at a timestamp of [m + 4] digits is the
    timestamp modulo [10 ^ m]. *)
Lemma reminder_id_of_size m t :
  (1 <= m)%nat ->
  10 ^ Z.of_nat (m + 3) <= t < 10 ^ Z.of_nat (m + 4) ->
  reminder_id_of t = inr (t mod 10 ^ Z.of_nat m).
Proof.
  intros Hm Ht.
  assert (0 < 10 ^ Z.of_nat (m + 3)) by (apply Z.pow_pos_nonneg; lia).
  unfold reminder_id_of, str_of_int.
  replace (t <? 0) with false by (symmetry; apply Z.ltb_ge; lia).
  rewrite (digits_fixed_of_size (m + 3)).
  - replace (S (m + 3)) with (4 + m)%nat by lia.
    rewrite fixed_digits_split, fixed_digits_app.
    rewrite skipn_app, fixed_digits_length, Nat.sub_diag.
    rewrite skipn_all2 by (rewrite fixed_digits_length; lia).
    cbn [skipn app].
    destruct m as [| m]; [lia |].
    destruct (fixed_digits_head m t []) as (d & s & Hd & E).
    rewrite E, digit_char_not_sign, parse_unsigned_cons, <- E by assumption.
    rewrite parse_fixed_digits. cbn [parse_digits]. reflexivity.
  - replace (S (m + 3)) with (m + 4)%nat by lia. exact Ht.
Qed.

Lemma reminder_id_of_short t :
  0 <= t < 10 ^ 4 -> reminder_id_of t = inl ValueError.
Proof.
  intros Ht. unfold reminder_id_of, str_of_int.
  replace (t <? 0) with false by (symmetry; apply Z.ltb_ge; lia).
  destruct (digits_exact t) as (k & -> & Hlt & Hk); [lia |].
  assert (k < 4)%nat.
  { destruct Hk as [-> | Hk]; [lia |].
    destruct (le_lt_dec 4 k) as [Hge | Hlt4]; [| assumption].
    assert (10 ^ 4 <= 10 ^ Z.of_nat k) by (apply Z.pow_le_mono_r; lia).
    lia. }
  rewrite skipn_all2 by (rewrite fixed_digits_length; lia).
  reflexivity.
Qed.

End MoreDecimal.

(** X12: the id of a create is the timestamp without its four leading
    digits, whatever the number of digits: for a timestamp of [m + 4]
    digits, [m] at least 1, it is the timestamp modulo [10 ^ m], below
    [10 ^ m], and it is the id of the inserted row and of the timer. *)
Theorem create_id_any_size env ctx reminder s m :
  (1 <= m)%nat ->
  10 ^ Z.of_nat (m + 3) <= now env < 10 ^ Z.of_nat (m + 4) ->
  execute_raises env (Insert (new_row ctx reminder (now env mod 10 ^ Z.of_nat m))) = None ->
  create_task_raises env (reminder_task_name (now env mod 10 ^ Z.of_nat m)) = None ->
  let i := now env mod 10 ^ Z.of_nat m in
  0 <= i < 10 ^ Z.of_nat m
  /\ reminders (snd (_remind env ctx reminder s)) = reminders s ++ [new_row ctx reminder i]
  /\ timer_ids (snd (_remind env ctx reminder s)) = timer_ids s ++ [i].
Proof.
  intros Hm Ht Hins Harm i.
  assert (0 < 10 ^ Z.of_nat m) by (apply Z.pow_pos_nonneg; lia).
  split; [apply Z.mod_pos_bound; assumption |].
  rewrite (remind_armed env ctx reminder s i)
    by (try assumption; now apply reminder_id_of_size).
  cbn [snd reminders]. split; [reflexivity |].
  rewrite !timer_ids_ids_of. cbn [tasks]. now rewrite ids_of_app.
Qed.

Lemma create_id_any_size_witness :
  let env := quiet 17000123456 in
  let i := now env mod 10 ^ Z.of_nat 7 in
  0 <= i < 10 ^ Z.of_nat 7
  /\ reminders (snd (_remind env ctx_alice buy_milk (startup [])))
     = reminders (startup []) ++ [new_row ctx_alice buy_milk i]
  /\ timer_ids (snd (_remind env ctx_alice buy_milk (startup [])))
     = timer_ids (startup []) ++ [i].
Proof.
  apply (create_id_any_size (quiet 17000123456) ctx_alice buy_milk (startup []) 7);
    try reflexivity.
  - lia.
  - simpl. lia.
Defined.

(** X13: at a timestamp of at most four digits there is nothing left
    after the four leading characters: the create raises [ValueError]
    before it has done anything. *)
Theorem create_at_short_timestamp env ctx reminder s :
  0 <= now env < 10 ^ 4 ->
  _remind env ctx reminder s = (inl Py.ValueError, s).
Proof.
  intros Ht. unfold _remind. now rewrite reminder_id_of_short.
Qed.

Lemma create_at_short_timestamp_witness :
  _remind (quiet 9999) ctx_alice buy_milk (startup [])
  = (inl Py.ValueError, startup []).
Proof.
  apply (create_at_short_timestamp (quiet 9999) ctx_alice buy_milk (startup [])).
  simpl. lia.
Defined.
(** ** Which timers a cancel selects *)

Section Suffix.

Import Py.

Lemma endswith_iff s p : endswith s p = true <-> exists pre, s = pre ++ p.
Proof.
  split.
  - unfold endswith. intros H. apply andb_true_iff in H as [_ H].
    apply str_eqb_eq in H.
    remember (List.length s - List.length p)%nat as k.
    exists (firstn k s). rewrite <- H. symmetry. apply firstn_skipn.
  - intros [pre ->]. apply endswith_app.
Qed.

Lemma parse_digits_nondigit c l :
  In c l -> digit_val c = None -> forall acc, parse_digits acc l = None.
Proof.
  induction l as [| x l IH]; intros Hin Hc acc; [contradiction |].
  simpl. destruct Hin as [-> | Hin].
  - now rewrite Hc.
  - destruct (digit_val x); [now apply IH | reflexivity].
Qed.

Lemma fixed_digits_mod b : forall n acc,
  fixed_digits b n acc = fixed_digits b (n mod 10 ^ Z.of_nat b) acc.
Proof.
  induction b as [| b IH]; intros n acc; [reflexivity |].
  cbn [fixed_digits].
  assert (Hq : 0 < 10 ^ Z.of_nat b) by (apply Z.pow_pos_nonneg; lia).
  rewrite Nat2Z.inj_succ, Z.pow_succ_r by lia.
  rewrite (Z.rem_mul_r n 10 (10 ^ Z.of_nat b)) by lia.
  pose proof (Z.mod_pos_bound n 10 ltac:(lia)) as Hr.
  set (r := n mod 10) in *. set (x := (n / 10) mod 10 ^ Z.of_nat b).
  replace ((r + 10 * x) / 10) with x
    by (apply (Z.div_unique _ 10 x r); lia).
  replace ((r + 10 * x) mod 10) with r
    by (apply (Z.mod_unique _ 10 x r); lia).
  rewrite (IH (n / 10)). reflexivity.
Qed.

Lemma fixed_digits_value b n i :
  0 <= i < 10 ^ Z.of_nat b ->
  (fixed_digits b n [] = fixed_digits b i [] <-> n mod 10 ^ Z.of_nat b = i).
Proof.
  intros Hi. split.
  - intros E. apply (f_equal (parse_digits 0)) in E.
    rewrite !parse_fixed_digits in E. cbn [parse_digits] in E.
    injection E as E. rewrite (Z.mod_small i) in E by assumption. lia.
  - intros <-. apply fixed_digits_mod.
Qed.

Lemma dash_in_suffix pre l :
  lit "REMINDER-" = pre ++ l -> l <> [] -> In "-"%char l.
Proof.
  intros E Hl. apply (f_equal (@rev ascii)) in E. rewrite rev_app_distr in E.
  apply in_rev. destruct (rev l) as [| c l'] eqn:Er.
  - exfalso. apply Hl. apply (f_equal (@rev ascii)) in Er.
    now rewrite rev_involutive in Er.
  - injection E as <- _. now left.
Qed.

(** The name of the task of id [n] ends with the rendering of [i] exactly
    when the last digits of [n], as many as [i] has, are those of [i]. *)
Lemma name_ends_with_id n i :
  0 <= n -> 0 <= i ->
  (endswith (reminder_task_name n) (str_of_int i) = true
   <-> n mod 10 ^ Z.of_nat (List.length (str_of_int i)) = i).
Proof.
  intros Hn Hi. unfold reminder_task_name, str_of_int.
  replace (n <? 0) with false by (symmetry; apply Z.ltb_ge; lia).
  replace (i <? 0) with false by (symmetry; apply Z.ltb_ge; lia).
  destruct (digits_exact n Hn) as (ka & -> & Hna & Hka).
  destruct (digits_exact i Hi) as (kb & -> & Hib & Hkb).
  rewrite fixed_digits_length.
  assert (Hi' : 0 <= i < 10 ^ Z.of_nat (S kb)) by lia.
  rewrite endswith_iff. split.
  - intros [pre E]. apply app_eq_app in E as [l [[Hp Hd] | [Hp Hd]]].
    + destruct l as [| c l].
      * cbn [app] in Hd.
        assert (kb = ka).
        { apply (f_equal (@List.length ascii)) in Hd.
          rewrite !fixed_digits_length in Hd. lia. }
        subst kb. symmetry in Hd. now apply fixed_digits_value in Hd.
      * exfalso.
        assert (Hdash : In "-"%char (c :: l))
          by (apply (dash_in_suffix pre); [assumption | discriminate]).
        apply (f_equal (parse_digits 0)) in Hd.
        rewrite parse_fixed_digits in Hd. cbn [parse_digits] in Hd.
        rewrite (parse_digits_nondigit "-"%char) in Hd;
          [discriminate | apply in_or_app; now left | reflexivity].
    + assert (Hlen : S ka = (List.length l + S kb)%nat).
      { apply (f_equal (@List.length ascii)) in Hd.
        rewrite length_app, !fixed_digits_length in Hd. lia. }
      rewrite Hlen, fixed_digits_split, fixed_digits_app in Hd.
      apply (f_equal (skipn (List.length l))) in Hd.
      rewrite !skipn_app, fixed_digits_length, Nat.sub_diag in Hd.
      rewrite skipn_all2 in Hd by (rewrite fixed_digits_length; lia).
      rewrite skipn_all in Hd. cbn [skipn app] in Hd.
      now apply fixed_digits_value in Hd.
  - intros Hmod.
    assert (Hle : (kb <= ka)%nat).
    { destruct (le_lt_dec kb ka) as [Hle | Hlt]; [assumption | exfalso].
      destruct Hkb as [-> | Hkb]; [lia |].
      assert (10 ^ Z.of_nat (S ka) <= 10 ^ Z.of_nat kb)
        by (apply Z.pow_le_mono_r; lia).
      assert (10 ^ Z.of_nat kb <= 10 ^ Z.of_nat (S kb))
        by (apply Z.pow_le_mono_r; lia).
      rewrite Z.mod_small in Hmod by lia. lia. }
    replace (S ka) with ((ka - kb) + S kb)%nat by lia.
    rewrite fixed_digits_split, fixed_digits_app.
    apply (fixed_digits_value (S kb) n i Hi') in Hmod. rewrite Hmod.
    eexists. apply app_assoc.
Qed.

End Suffix.

(** X14: which timers a cancel takes.  For non-negative ids, asking to
    cancel [i] cancels the timer of id [n] exactly when the last decimal
    digits of [n], as many as [i] has, are those of [i]; every other
    reminder task stays. *)
Theorem cancel_takes_ids_ending_in env ctx i s r :
  reactions_ok env ->
  execute_raises env (Delete i (uid (author ctx))) = None ->
  0 <= i -> 0 <= rm_id r ->
  (In (ReminderTask r) (tasks (snd (_remind_remove env ctx [i] s)))
   <-> In (ReminderTask r) (tasks s)
       /\ rm_id r mod 10 ^ Z.of_nat (List.length (Py.str_of_int i)) <> i).
Proof.
  intros Hre Hok Hi Hn.
  rewrite remind_remove_effect;
    [| assumption | intros j [<- | []]; assumption].
  rewrite cancel_rounds_one. unfold cancel_round. cbn [snd tasks].
  rewrite filter_In, negb_true_iff.
  unfold cancel_match. cbn [get_name]. rewrite startswith_reminder.
  cbn [andb].
  rewrite <- (name_ends_with_id (rm_id r) i Hn Hi).
  rewrite not_true_iff_false. reflexivity.
Qed.

Lemma cancel_takes_ids_ending_in_witness :
  (In (ReminderTask reminder_15)
      (tasks (snd (_remind_remove (quiet 1700000020) ctx_alice [5] alice_has_15)))
   <-> In (ReminderTask reminder_15) (tasks alice_has_15)
       /\ rm_id reminder_15 mod 10 ^ Z.of_nat (List.length (Py.str_of_int 5)) <> 5).
Proof.
  apply (cancel_takes_ids_ending_in (quiet 1700000020) ctx_alice 5 alice_has_15
           reminder_15 (quiet_reactions_ok _) eq_refl); simpl; lia.
Defined.
(** ** The todo list *)

Lemma todo_fetch_ok env user_id rows :
  todo_fetch_raises env = None ->
  todo_fetch env user_id rows
  = (inr (order_by_created_at
            (filter (fun row => todo_user_id row =? user_id) rows)), rows).
Proof. intros H. unfold todo_fetch. now rewrite H. Qed.

(** The contents a list of indices selects in the fetched contents. *)
Lemma remove_loop env user_id fetched indices : forall rows,
  (forall c, todo_execute_raises env (DeleteTodo user_id c) = None) ->
  (forall num, In num indices -> exists c, py_index fetched (num - 1) = inr c) ->
  cfor_each indices (fun num =>
    content <~ (fun s => (py_index fetched (num - 1), s)) ;;
    todo_execute env (DeleteTodo user_id content)) rows
  = (inr tt,
     filter (fun row =>
               negb ((todo_user_id row =? user_id)
                     && existsb (fun num =>
                                   match py_index fetched (num - 1) with
                                   | inr c => Py.str_eqb (todo_content row) c
                                   | inl _ => false
                                   end) indices)) rows).
Proof.
  induction indices as [| num indices IH]; intros rows Hok Hvalid.
  - cbn [cfor_each existsb]. unfold cret. f_equal. symmetry.
    apply filter_keeps_all. intros row _. now rewrite andb_false_r.
  - cbn [cfor_each]. unfold cbind at 1. unfold cbind at 1.
    destruct (Hvalid num (or_introl eq_refl)) as [c Hc]. rewrite Hc.
    unfold todo_execute at 1. rewrite Hok. cbn [apply_todo_stmt].
    rewrite IH; [| assumption | intros; apply Hvalid; now right].
    f_equal. rewrite filter_twice. apply filter_ext. intros row.
    cbn [existsb]. rewrite Hc.
    destruct (todo_user_id row =? user_id); cbn [andb negb]; [| reflexivity].
    now rewrite negb_orb.
Qed.

(** X15: [todo remove] resolves every index against the list as it was
    fetched before the first deletion, and deletes by content: with the
    database and the indices in order, the rows that stay are those of
    other users and those of the caller whose content no index selects;
    a todo that repeats a selected content goes with it. *)
Theorem remove_todo_deletes_selected_contents env ctx indices rows :
  indices <> [] ->
  todo_fetch_raises env = None ->
  (forall c, todo_execute_raises env (DeleteTodo (uid (author ctx)) c) = None) ->
  add_reaction_raises env = None ->
  let fetched :=
    map todo_content
        (order_by_created_at
           (filter (fun row => todo_user_id row =? uid (author ctx)) rows)) in
  (forall num, In num indices -> exists c, py_index fetched (num - 1) = inr c) ->
  fst (remove_todo env ctx indices rows) = inr tt
  /\ forall row,
       In row (snd (remove_todo env ctx indices rows))
       <-> In row rows
           /\ (todo_user_id row <> uid (author ctx)
               \/ forall num, In num indices ->
                    py_index fetched (num - 1) <> inr (todo_content row)).
Proof.
  intros Hne Hf Hok Hre fetched Hvalid.
  destruct indices as [| n0 indices]; [congruence |].
  assert (E : remove_todo env ctx (n0 :: indices) rows
              = (inr tt,
                 filter (fun row =>
                   negb ((todo_user_id row =? uid (author ctx))
                         && existsb (fun num =>
                              match py_index fetched (num - 1) with
                              | inr c => Py.str_eqb (todo_content row) c
                              | inl _ => false
                              end) (n0 :: indices))) rows)).
  { unfold remove_todo.
    unfold cbind at 1. rewrite todo_fetch_ok by assumption. fold fetched.
    unfold cbind at 1. rewrite remove_loop by assumption.
    unfold add_tick. now rewrite Hre. }
  rewrite E. cbn [fst snd]. split; [reflexivity |].
  intros row. rewrite filter_In, negb_true_iff, andb_false_iff, Z.eqb_neq.
  split; intros [Hin H]; (split; [assumption |]).
  - destruct H as [H | H]; [now left | right].
    intros num Hnum Eq.
    assert (existsb (fun num =>
              match py_index fetched (num - 1) with
              | inr c => Py.str_eqb (todo_content row) c
              | inl _ => false
              end) (n0 :: indices) = true); [| congruence].
    apply existsb_exists. exists num. split; [assumption |].
    rewrite Eq. apply str_eqb_refl.
  - destruct H as [H | H]; [now left | right].
    apply not_true_is_false. intros Hex.
    apply existsb_exists in Hex as (num & Hnum & Hm).
    destruct (py_index fetched (num - 1)) as [e | c] eqn:Eq; [discriminate |].
    apply str_eqb_eq in Hm. apply (H num Hnum). congruence.
Qed.

Lemma remove_todo_deletes_selected_contents_witness :
  remove_todo (todo_quiet 200) ctx_alice [1] todo_table
  = (inr tt, [mkTodo 7 (Py.lit "milk") (Py.lit "j2") 110;
              mkTodo 42 (Py.lit "rent") (Py.lit "j3") 120])
  /\ fst (remove_todo (todo_quiet 200) ctx_alice [1; 2] todo_table) = inr tt.
Proof.
  split; [reflexivity |].
  apply (remove_todo_deletes_selected_contents (todo_quiet 200) ctx_alice [1; 2]
           todo_table); try reflexivity.
  - discriminate.
  - intros num [<- | [<- | []]]; eexists; reflexivity.
Defined.

Lemma py_index_wraps {A} (l : list A) (k : Z) :
  - Z.of_nat (List.length l) <= k < 0 ->
  py_index l k = py_index l (k + Z.of_nat (List.length l)).
Proof.
  intros Hk. unfold py_index.
  replace (k <? 0) with true by (symmetry; apply Z.ltb_lt; lia).
  replace (k + Z.of_nat (List.length l) <? 0) with false
    by (symmetry; apply Z.ltb_ge; lia).
  reflexivity.
Qed.

Lemma insert_by_created_at_perm row rows :
  Permutation (insert_by_created_at row rows) (row :: rows).
Proof.
  induction rows as [| x rows IH]; simpl; [reflexivity |].
  destruct (todo_created_at row <=? todo_created_at x); [reflexivity |].
  rewrite IH. apply perm_swap.
Qed.

Lemma order_by_created_at_perm rows :
  Permutation (order_by_created_at rows) rows.
Proof.
  induction rows as [| row rows IH]; simpl; [reflexivity |].
  rewrite insert_by_created_at_perm. now constructor.
Qed.

(** X16: the indices of [todo remove] are Python indices moved by one, so
    an index that is zero or negative counts from the end of the list:
    with [n] todos, the index [num] between [1 - n] and [0] does what the
    index [num + n] does; 0 removes the last todo. *)
Theorem remove_todo_index_wraps env ctx num rows :
  let n := Z.of_nat (List.length
             (filter (fun row => todo_user_id row =? uid (author ctx)) rows)) in
  1 - n <= num <= 0 ->
  remove_todo env ctx [num] rows = remove_todo env ctx [num + n] rows.
Proof.
  intros n Hnum. unfold remove_todo, cbind, todo_fetch.
  destruct (todo_fetch_raises env); [reflexivity |].
  cbn [cfor_each]. unfold cbind.
  assert (Hlen : Z.of_nat (List.length
            (map todo_content
               (order_by_created_at
                  (filter (fun row => todo_user_id row =? uid (author ctx)) rows))))
          = n).
  { rewrite length_map. unfold n. f_equal.
    apply Permutation_length, order_by_created_at_perm. }
  rewrite (py_index_wraps _ (num - 1)) by lia.
  rewrite Hlen. replace (num - 1 + n) with (num + n - 1) by lia.
  reflexivity.
Qed.

Lemma remove_todo_index_wraps_witness :
  remove_todo (todo_quiet 200) ctx_alice [0] todo_table
  = remove_todo (todo_quiet 200) ctx_alice [0 + 3] todo_table.
Proof.
  apply (remove_todo_index_wraps (todo_quiet 200) ctx_alice 0 todo_table).
  simpl. lia.
Defined.
Lemma cfor_each_app {S A} (xs ys : list A) (body : A -> Cmd S unit) s :
  cfor_each (xs ++ ys) body s
  = match cfor_each xs body s with
    | (inr _, s') => cfor_each ys body s'
    | (inl e, s') => (inl e, s')
    end.
Proof.
  revert s. induction xs as [| x xs IH]; intros s; [reflexivity |].
  cbn [app cfor_each]. unfold cbind. destruct (body x s) as [[e | []] s1];
    [reflexivity | apply IH].
Qed.

(** X17: an index outside the list makes [todo remove] raise [IndexError]
    in the middle of its work: the todos selected by the indices before it
    are already deleted and stay deleted, the indices after it are not
    looked at. *)
Theorem remove_todo_index_out_of_range env ctx done num rest rows :
  todo_fetch_raises env = None ->
  (forall c, todo_execute_raises env (DeleteTodo (uid (author ctx)) c) = None) ->
  let fetched :=
    map todo_content
        (order_by_created_at
           (filter (fun row => todo_user_id row =? uid (author ctx)) rows)) in
  let n := Z.of_nat (List.length fetched) in
  (forall j, In j done -> exists c, py_index fetched (j - 1) = inr c) ->
  num > n \/ num <= - n ->
  remove_todo env ctx (done ++ num :: rest) rows
  = (inl (Raised Py.IndexError),
     filter (fun row =>
               negb ((todo_user_id row =? uid (author ctx))
                     && existsb (fun j =>
                                   match py_index fetched (j - 1) with
                                   | inr c => Py.str_eqb (todo_content row) c
                                   | inl _ => false
                                   end) done)) rows).
Proof.
  intros Hf Hok fetched n Hdone Hout.
  assert (Hidx : py_index fetched (num - 1) = inl (Raised Py.IndexError)).
  { unfold py_index. fold n.
    destruct (num - 1 <? 0) eqn:Hneg.
    - apply Z.ltb_lt in Hneg.
      replace (0 <=? num - 1 + n) with false
        by (symmetry; apply Z.leb_gt; lia).
      reflexivity.
    - apply Z.ltb_ge in Hneg.
      replace (num - 1 <? n) with false by (symmetry; apply Z.ltb_ge; lia).
      now rewrite andb_false_r. }
  unfold remove_todo.
  destruct (done ++ num :: rest) as [| x l] eqn:E;
    [now destruct done |]. rewrite <- E. clear E x l.
  unfold cbind at 1. rewrite todo_fetch_ok by assumption. fold fetched.
  unfold cbind at 1.
  rewrite cfor_each_app, remove_loop by assumption.
  cbn [cfor_each]. unfold cbind at 1. unfold cbind at 1.
  now rewrite Hidx.
Qed.

Lemma remove_todo_index_out_of_range_witness :
  remove_todo (todo_quiet 200) ctx_alice ([2] ++ 4 :: [1]) todo_table
  = (inl (Raised Py.IndexError),
     [mkTodo 42 (Py.lit "milk") (Py.lit "j1") 100;
      mkTodo 7 (Py.lit "milk") (Py.lit "j2") 110;
      mkTodo 42 (Py.lit "milk") (Py.lit "j4") 130]).
Proof.
  apply (remove_todo_index_out_of_range (todo_quiet 200) ctx_alice [2] 4 [1]
           todo_table); try reflexivity.
  - intros j [<- | []]. eexists. reflexivity.
  - left. simpl. lia.
Defined.

(** X18: [todo clear] deletes only after a confirmed prompt, and then all
    the todos of the caller and nothing else: the rows of the other users
    stay, in their order; a declined prompt leaves the table as it was. *)
Theorem clear_todos_after_confirmation env ctx rows conf :
  prompt_answer env = inr conf ->
  todo_execute_raises env (ClearTodos (uid (author ctx))) = None ->
  clear_todos env ctx rows
  = (inr tt,
     if conf
     then filter (fun row => negb (todo_user_id row =? uid (author ctx))) rows
     else rows)
  /\ (conf = true ->
      forall row, In row (snd (clear_todos env ctx rows))
                  <-> In row rows /\ todo_user_id row <> uid (author ctx)).
Proof.
  intros Hp Hok.
  assert (E : clear_todos env ctx rows
              = (inr tt,
                 if conf
                 then filter (fun row => negb (todo_user_id row =? uid (author ctx))) rows
                 else rows)).
  { unfold clear_todos, cbind, prompt. rewrite Hp.
    destruct conf; [| reflexivity].
    unfold todo_execute. now rewrite Hok. }
  split; [exact E |].
  intros -> row. rewrite E. cbn [snd].
  rewrite filter_In, negb_true_iff, Z.eqb_neq. reflexivity.
Qed.

Lemma clear_todos_after_confirmation_witness :
  clear_todos (todo_quiet 200) ctx_alice todo_table
  = (inr tt, [mkTodo 7 (Py.lit "milk") (Py.lit "j2") 110]).
Proof.
  exact (proj1 (clear_todos_after_confirmation (todo_quiet 200) ctx_alice
                  todo_table true eq_refl eq_refl)).
Defined.

Lemma insert_by_created_at_last row rows x :
  todo_created_at row <= todo_created_at x ->
  insert_by_created_at row (rows ++ [x]) = insert_by_created_at row rows ++ [x].
Proof.
  intros Hle. induction rows as [| y rows IH]; simpl.
  - now replace (todo_created_at row <=? todo_created_at x) with true
      by (symmetry; apply Z.leb_le; lia).
  - destruct (todo_created_at row <=? todo_created_at y); [reflexivity |].
    now rewrite IH.
Qed.

Lemma order_by_created_at_last rows x :
  (forall row, In row rows -> todo_created_at row <= todo_created_at x) ->
  order_by_created_at (rows ++ [x]) = order_by_created_at rows ++ [x].
Proof.
  induction rows as [| y rows IH]; intros H; [reflexivity |].
  cbn [app order_by_created_at fold_right].
  fold (order_by_created_at (rows ++ [x])). fold (order_by_created_at rows).
  rewrite IH by (intros; apply H; now right).
  apply insert_by_created_at_last, H. now left.
Qed.

Lemma enumerate_from_app {A} (l l' : list A) : forall start,
  enumerate_from start (l ++ l')
  = enumerate_from start l
    ++ enumerate_from (start + Z.of_nat (List.length l)) l'.
Proof.
  induction l as [| x l IH]; intros start.
  - simpl. now rewrite Z.add_0_r.
  - cbn [app enumerate_from List.length]. rewrite IH. do 3 f_equal. lia.
Qed.

(** X19: a todo that was just added is the last entry of the list of its
    author, under the number that follows the number of todos the author
    had; this when every todo of the author was created strictly before
    it, so that the order asked of the database leaves no choice for its
    place. *)
Theorem created_todo_is_listed_last env env' ctx content rows :
  todo_execute_raises env
    (InsertTodo (mkTodo (uid (author ctx)) content (jump_url ctx) (utcnow env))) = None ->
  todo_fetch_raises env' = None ->
  (forall row, In row rows -> todo_user_id row = uid (author ctx) ->
               todo_created_at row < utcnow env) ->
  let new := mkTodo (uid (author ctx)) content (jump_url ctx) (utcnow env) in
  let n := List.length (filter (fun row => todo_user_id row =? uid (author ctx)) rows) in
  exists earlier,
    List.length earlier = n
    /\ fst (todo_rw env' ctx (snd (create_todo env ctx content rows)))
       = inr (inr (earlier ++ [todo_entry (1 + Z.of_nat n) new])).
Proof.
  intros Hins Hf Hclock new n.
  set (fetched := order_by_created_at
                    (filter (fun row => todo_user_id row =? uid (author ctx)) rows)).
  assert (Hlen : List.length fetched = n)
    by (apply Permutation_length, order_by_created_at_perm).
  assert (Henum : forall (l : list Todo) k,
            List.length (map (fun cv => todo_entry (fst cv) (snd cv))
                             (enumerate_from k l)) = List.length l).
  { induction l as [| y l IH]; intros k; simpl; [reflexivity | now rewrite IH]. }
  exists (map (fun cv => todo_entry (fst cv) (snd cv)) (enumerate_from 1 fetched)).
  split; [now rewrite Henum |].
  assert (E : snd (create_todo env ctx content rows) = rows ++ [new]).
  { unfold create_todo, cbind, todo_execute, add_tick. rewrite Hins.
    cbn [apply_todo_stmt]. destruct (add_reaction_raises env); reflexivity. }
  rewrite E. unfold todo_rw, cbind. rewrite todo_fetch_ok by assumption.
  rewrite filter_app. cbn [filter new todo_user_id]. rewrite Z.eqb_refl.
  fold new.
  rewrite order_by_created_at_last.
  - fold fetched. rewrite enumerate_from_app, map_app.
    cbn [enumerate_from map fst snd]. rewrite Hlen.
    unfold cret. cbn [fst].
    destruct (map _ (enumerate_from 1 fetched) ++ _) eqn:Eb; [| reflexivity].
    now destruct (map (fun cv => todo_entry (fst cv) (snd cv)) (enumerate_from 1 fetched)).
  - intros row Hin. apply filter_In in Hin as [Hin Hu].
    apply Z.eqb_eq in Hu. cbn [new todo_created_at].
    apply Z.lt_le_incl. now apply Hclock.
Qed.

Lemma created_todo_is_listed_last_witness :
  exists earlier,
    List.length earlier = 1%nat
    /\ fst (todo_rw (todo_quiet 210) ctx_bob
              (snd (create_todo (todo_quiet 200) ctx_bob (Py.lit "eggs") todo_table)))
       = inr (inr (earlier
                   ++ [todo_entry 2 (mkTodo 7 (Py.lit "eggs") (jump_url ctx_bob) 200)])).
Proof.
  refine (created_todo_is_listed_last (todo_quiet 200) (todo_quiet 210)
            ctx_bob (Py.lit "eggs") todo_table eq_refl eq_refl _).
  intros row [<- | [<- | [<- | [<- | []]]]]; simpl; lia.
Defined.

(** ** Code blocks *)

Example replace_ticks_three :
  replace_ticks "z"%char (Py.lit "a```b") = Py.lit "a`z``b".
Proof. reflexivity. Qed.

Example split_lines_trailing :
  split_lines (Py.lit "ab" ++ [newline]) = [Py.lit "ab"; []].
Proof. reflexivity. Qed.

Example cleanup_code_block :
  cleanup_code (Py.lit "```py" ++ newline :: Py.lit "print(1)" ++ newline :: Py.lit "```")
  = Py.lit "print(1)".
Proof. reflexivity. Qed.

Example cleanup_code_inline : cleanup_code (Py.lit "`x + 1`") = Py.lit "x + 1".
Proof. reflexivity. Qed.

Lemma no_fence_cons a l :
  no_double_start l = true -> no_fence l = true -> no_fence (a :: l) = true.
Proof.
  intros Hd Hf. destruct l as [| b [| c l]]; try reflexivity.
  change (no_fence (a :: b :: c :: l))
    with (negb (Ascii.eqb a backtick && Ascii.eqb b backtick && Ascii.eqb c backtick)
          && no_fence (b :: c :: l)).
  cbn [no_double_start] in Hd. apply negb_true_iff in Hd.
  now rewrite Hf, <- andb_assoc, Hd, andb_false_r.
Qed.

Lemma no_fence_other a l :
  Ascii.eqb a backtick = false -> no_fence l = true -> no_fence (a :: l) = true.
Proof.
  intros Ha Hf. destruct l as [| b [| c l]]; try reflexivity.
  change (no_fence (a :: b :: c :: l))
    with (negb (Ascii.eqb a backtick && Ascii.eqb b backtick && Ascii.eqb c backtick)
          && no_fence (b :: c :: l)).
  now rewrite Hf, Ha.
Qed.

Lemma replace_ticks_two zwsp c c' s :
  replace_ticks zwsp (c :: c' :: s)
  = if Ascii.eqb c backtick && Ascii.eqb c' backtick
    then backtick :: zwsp :: backtick :: replace_ticks zwsp s
    else c :: replace_ticks zwsp (c' :: s).
Proof. reflexivity. Qed.

Lemma replace_ticks_head zwsp c s :
  exists t, replace_ticks zwsp (c :: s) = c :: t.
Proof.
  destruct s as [| c' s]; [now exists [] |].
  cbn [replace_ticks].
  destruct (Ascii.eqb c backtick) eqn:E; cbn [andb];
    [destruct (Ascii.eqb c' backtick) |]; eexists; try reflexivity.
  apply Ascii.eqb_eq in E. subst c. reflexivity.
Qed.

Lemma replace_ticks_safe zwsp :
  zwsp <> backtick ->
  forall s,
    (no_fence (replace_ticks zwsp s) = true
     /\ no_double_start (replace_ticks zwsp s) = true)
    /\ forall c, no_fence (replace_ticks zwsp (c :: s)) = true
                 /\ no_double_start (replace_ticks zwsp (c :: s)) = true.
Proof.
  intros Hz.
  assert (Hzb : Ascii.eqb zwsp backtick = false) by now apply Ascii.eqb_neq.
  induction s as [| c' s [IHs IHc]].
  - split; [now split |]. intros c. now split.
  - split; [apply IHc |]. intros c.
    rewrite replace_ticks_two.
    destruct (Ascii.eqb c backtick && Ascii.eqb c' backtick) eqn:E.
    + destruct IHs as [Hf Hd]. split.
      * apply no_fence_cons; [cbn [no_double_start]; now rewrite Hzb |].
        apply no_fence_other; [exact Hzb |].
        now apply no_fence_cons.
      * cbn [no_double_start]. now rewrite Hzb, andb_false_r.
    + destruct (IHc c') as [Hf Hd]. split.
      * now apply no_fence_cons.
      * destruct (replace_ticks_head zwsp c' s) as [t ->].
        cbn [no_double_start]. now rewrite E.
Qed.

Lemma has_fence_no_fence s : has_fence s -> no_fence s = false.
Proof.
  intros (pre & post & ->). induction pre as [| a pre IH].
  - reflexivity.
  - cbn [app] in *. cbn [no_fence].
    destruct pre as [| b [| c pre]]; cbn [app] in *;
      rewrite IH; apply andb_false_r.
Qed.

(** X20: a code block made with [cb_safe] never holds three backticks in a
    row, so nothing in its content can close the fence it is put in. *)
Theorem safe_codeblock_has_no_fence zwsp content lang :
  zwsp <> backtick ->
  ~ has_fence (cb_content (Codeblock__init__ zwsp content lang true)).
Proof.
  intros Hz Hfence. apply has_fence_no_fence in Hfence.
  cbn [Codeblock__init__ cb_content] in Hfence.
  destruct (replace_ticks_safe zwsp Hz content) as [[Hf _] _]. congruence.
Qed.

Lemma safe_codeblock_has_no_fence_witness :
  ~ has_fence (cb_content (Codeblock__init__ "z"%char (Py.lit "a```b````") None true)).
Proof.
  apply (safe_codeblock_has_no_fence "z"%char (Py.lit "a```b````") None).
  discriminate.
Defined.

Lemma split_lines_nonempty s : split_lines s <> [].
Proof.
  destruct s as [| c s]; [discriminate |]. simpl.
  destruct (Ascii.eqb c newline); [discriminate |].
  destruct (split_lines s); discriminate.
Qed.

Lemma split_lines_one s : ~ In newline s -> split_lines s = [s].
Proof.
  induction s as [| c s IH]; intros H; [reflexivity |].
  simpl. destruct (Ascii.eqb c newline) eqn:E.
  - apply Ascii.eqb_eq in E. exfalso. apply H. now left.
  - rewrite IH; [reflexivity |]. intros Hin. apply H. now right.
Qed.

Lemma split_lines_app x y :
  ~ In newline y -> split_lines (x ++ newline :: y) = split_lines x ++ [y].
Proof.
  intros Hy. induction x as [| c x IH].
  - cbn [app split_lines]. rewrite Ascii.eqb_refl.
    now rewrite split_lines_one.
  - cbn [app split_lines]. rewrite IH.
    destruct (Ascii.eqb c newline); [reflexivity |].
    pose proof (split_lines_nonempty x).
    destruct (split_lines x); [contradiction | reflexivity].
Qed.

Lemma split_lines_first x rest :
  ~ In newline x -> split_lines (x ++ newline :: rest) = x :: split_lines rest.
Proof.
  induction x as [| c x IH]; intros Hx.
  - cbn [app split_lines]. now rewrite Ascii.eqb_refl.
  - cbn [app split_lines].
    destruct (Ascii.eqb c newline) eqn:E.
    + apply Ascii.eqb_eq in E. exfalso. apply Hx. now left.
    + rewrite IH; [reflexivity |]. intros H. apply Hx. now right.
Qed.

Lemma join_split s : join_lines (split_lines s) = s.
Proof.
  induction s as [| c s IH]; [reflexivity |].
  pose proof (split_lines_nonempty s) as Hne.
  cbn [split_lines]. destruct (Ascii.eqb c newline) eqn:E.
  - apply Ascii.eqb_eq in E. subst c.
    destruct (split_lines s) as [| l ls]; [contradiction |].
    cbn [join_lines app] in *. now rewrite IH.
  - destruct (split_lines s) as [| l ls]; [contradiction |].
    destruct ls as [| l' ls]; cbn [join_lines app] in *; now rewrite <- IH.
Qed.

(** X21: [cleanup_code] undoes [Codeblock.__str__]: for a language tag
    without a newline, the code taken out of the printed block is the
    content of the block, whatever the content. *)
Theorem cleanup_code_of_codeblock zwsp content lang safe :
  (forall l, lang = Some l -> ~ In newline l) ->
  cleanup_code (Codeblock__str__ (Codeblock__init__ zwsp content lang safe))
  = cb_content (Codeblock__init__ zwsp content lang safe).
Proof.
  intros Hlang.
  set (cb := Codeblock__init__ zwsp content lang safe).
  assert (Hl : ~ In newline (cb_lang cb)).
  { unfold cb. cbn [Codeblock__init__ cb_lang].
    destruct lang as [l |]; [now apply Hlang | intros []]. }
  unfold cleanup_code, Codeblock__str__.
  assert (Hs : Py.startswith
            (Py.lit "```" ++ cb_lang cb ++ [newline] ++ cb_content cb ++ [newline]
             ++ Py.lit "```") (Py.lit "```") = true) by reflexivity.
  assert (He : Py.endswith
            (Py.lit "```" ++ cb_lang cb ++ [newline] ++ cb_content cb ++ [newline]
             ++ Py.lit "```") (Py.lit "```") = true).
  { rewrite !app_assoc. apply endswith_app. }
  rewrite Hs, He. cbn [andb].
  replace (Py.lit "```" ++ cb_lang cb ++ [newline] ++ cb_content cb ++ [newline]
           ++ Py.lit "```")
    with ((Py.lit "```" ++ cb_lang cb) ++ newline :: (cb_content cb ++ newline :: Py.lit "```"))
    by (now rewrite <- !app_assoc).
  assert (Hfirst : split_lines ((Py.lit "```" ++ cb_lang cb)
                     ++ newline :: (cb_content cb ++ newline :: Py.lit "```"))
                   = (Py.lit "```" ++ cb_lang cb)
                       :: split_lines (cb_content cb) ++ [Py.lit "```"]).
  { rewrite split_lines_first.
    - rewrite split_lines_app; [reflexivity |].
      intros [H | [H | [H | []]]]; discriminate H.
    - intros H. apply in_app_or in H as [[H | [H | [H | []]]] | H];
        try discriminate H. now apply Hl. }
  rewrite Hfirst. unfold slice_1_minus_1. cbn [tl].
  rewrite removelast_last. apply join_split.
Qed.

(** X22: a fenced block on one line gives the empty string: when the
    content starts and ends with three backticks and has no newline,
    [cleanup_code] returns nothing of it. *)
Theorem cleanup_code_one_line_fence content :
  Py.startswith content (Py.lit "```") = true ->
  Py.endswith content (Py.lit "```") = true ->
  ~ In newline content ->
  cleanup_code content = [].
Proof.
  intros Hs He Hn. unfold cleanup_code. rewrite Hs, He. cbn [andb].
  now rewrite split_lines_one.
Qed.

Lemma cleanup_code_one_line_fence_witness :
  cleanup_code (Py.lit "```print(1)```") = [].
Proof.
  apply (cleanup_code_one_line_fence (Py.lit "```print(1)```"));
    [reflexivity | reflexivity |].
  vm_compute. intuition discriminate.
Defined.
Lemma cleanup_code_of_codeblock_witness :
  cleanup_code (Codeblock__str__
                  (Codeblock__init__ "z"%char (Py.lit "a``b") (Some (Py.lit "py")) true))
  = Py.lit "a`z`b".
Proof.
  rewrite (cleanup_code_of_codeblock "z"%char (Py.lit "a``b") (Some (Py.lit "py")) true).
  - reflexivity.
  - intros l H. injection H as <-. vm_compute. intuition discriminate.
Defined.

Lemma lstrip_length chars s : (List.length (lstrip chars s) <= List.length s)%nat.
Proof.
  induction s as [| c s IH]; [reflexivity |].
  simpl. destruct (existsb (Ascii.eqb c) chars); simpl; lia.
Qed.

Lemma lstrip_fixed_head chars a t :
  lstrip chars (a :: t) = a :: t -> existsb (Ascii.eqb a) chars = false.
Proof.
  intros H. simpl in H. destruct (existsb (Ascii.eqb a) chars); [| reflexivity].
  exfalso. pose proof (lstrip_length chars t) as Hl.
  rewrite H in Hl. simpl in Hl. lia.
Qed.

(** X23: [cleanup_code] undoes inline code marks: for a text that neither
    starts nor ends with a backtick, a space or a newline, the code taken
    out of the text between single backticks is the text. *)
Theorem cleanup_code_of_inline_code c :
  lstrip [backtick; " "%char; newline] c = c ->
  lstrip [backtick; " "%char; newline] (rev c) = rev c ->
  cleanup_code (backtick :: c ++ [backtick]) = c.
Proof.
  intros Hl Hr. destruct c as [| a t]; [reflexivity |].
  pose proof (lstrip_fixed_head _ a t Hl) as Ha.
  assert (Hab : Ascii.eqb a backtick = false).
  { cbn [existsb] in Ha. now apply orb_false_iff in Ha as [Ha _]. }
  unfold cleanup_code.
  assert (Hs : Py.startswith (backtick :: (a :: t) ++ [backtick]) (Py.lit "```") = false).
  { unfold Py.startswith. cbn [List.length Py.lit list_ascii_of_string firstn app].
    destruct t as [| b t]; cbn [app firstn Py.str_eqb];
      fold backtick; rewrite Hab; now rewrite ?andb_false_r. }
  rewrite Hs. cbn [andb]. unfold strip.
  assert (H1 : lstrip [backtick; " "%char; newline] (backtick :: (a :: t) ++ [backtick])
               = (a :: t) ++ [backtick]).
  { cbn [lstrip existsb app]. rewrite Ascii.eqb_refl. cbn [orb].
    cbn [existsb] in Ha. now rewrite Ha. }
  rewrite H1, rev_app_distr. cbn [rev app].
  change (lstrip [backtick; " "%char; newline] (backtick :: rev t ++ [a]))
    with (lstrip [backtick; " "%char; newline] (rev t ++ [a])).
  change (rev t ++ [a]) with (rev (a :: t)).
  rewrite Hr. apply rev_involutive.
Qed.

Lemma cleanup_code_of_inline_code_witness :
  cleanup_code (backtick :: Py.lit "x + 1" ++ [backtick]) = Py.lit "x + 1".
Proof.
  apply (cleanup_code_of_inline_code (Py.lit "x + 1")); reflexivity.
Defined.
(** ** The prefixes of a guild *)

Example remove_last_prefix_refused :
  _modify_guild_prefixes guild_quiet (mkGuildCtx (Some 1) PrefixRemove) (Py.lit "n/")
                         one_prefix_guild
  = (inr tt,
     mkGuildState (guild_prefs one_prefix_guild) (guild_cache one_prefix_guild)
                  [CommandError one_prefix_message]).
Proof. reflexivity. Qed.

Example remove_one_of_two_prefixes :
  guild_prefs (snd (_modify_guild_prefixes guild_quiet (mkGuildCtx (Some 2) PrefixRemove)
                      (Py.lit "!") one_prefix_guild))
  = [(1, [Py.lit "n/"]); (2, [Py.lit "?"])].
Proof. reflexivity. Qed.

(** What [ctx.loading()] keeps: an invariant of the state that the
    reactions, the dispatch and the body keep. *)
Lemma cloading_invariant {S} (P : S -> Prop) react dispatch (body : Cmd S unit) :
  (forall a s, P s -> P (snd (react a s))) ->
  (forall e s, P s -> P (snd (dispatch e s))) ->
  (forall s, P s -> P (snd (body s))) ->
  forall s, P s -> P (snd (cloading react dispatch body s)).
Proof.
  intros Hreact Hdisp Hbody.
  assert (Hfin : forall rs s, P s ->
            P (snd (csuppress_not_found (cfor_each rs react) s))).
  { intros rs s Hs.
    assert (Hfor : P (snd (cfor_each rs react s))).
    { revert s Hs. induction rs as [| a rs IH]; intros s Hs; [exact Hs |].
      cbn [cfor_each]. unfold cbind. specialize (Hreact a s Hs).
      destruct (react a s) as [[e | []] s1]; cbn [snd] in *; auto. }
    unfold csuppress_not_found.
    destruct (cfor_each rs react s) as [[[msg | []] | []] s1]; exact Hfor. }
  intros s Hs. unfold cloading.
  pose proof (Hreact AddLoading s Hs) as H1.
  destruct (react AddLoading s) as [[e0 | []] s1]; cbn [snd] in H1.
  - destruct (cmd_is_http e0).
    + pose proof (Hbody s1 H1) as H2.
      destruct (body s1) as [[e | []] s2]; cbn [snd] in H2.
      * pose proof (Hfin [RemoveLoading] s2 H2) as H3.
        destruct (csuppress_not_found _ s2) as [[e' | []] s3]; exact H3.
      * now apply Hfin.
    + unfold cbind. pose proof (Hdisp e0 s1 H1) as H2.
      destruct (dispatch e0 s1) as [[e | []] s2]; cbn [snd] in H2; [exact H2 |].
      pose proof (Hfin [RemoveLoading] s2 H2) as H3.
      destruct (csuppress_not_found _ s2) as [[e' | []] s3]; exact H3.
  - pose proof (Hbody s1 H1) as H2.
    destruct (body s1) as [[e | []] s2]; cbn [snd] in H2.
    + destruct (cmd_is_http e); [exact H2 |].
      unfold cbind. pose proof (Hdisp e s2 H2) as H3.
      destruct (dispatch e s2) as [[e' | []] s3]; cbn [snd] in H3; [exact H3 |].
      now apply Hfin.
    + now apply Hfin.
Qed.

Lemma set_remove_length (x : Py.str) l :
  (List.length l <= S (List.length (set_remove str_eq_dec x l)))%nat.
Proof.
  induction l as [| y l IH]; simpl; [lia |].
  destruct (str_eq_dec x y); simpl; lia.
Qed.

Lemma py_set_nonempty l : l <> [] -> py_set l <> [].
Proof.
  intros Hl Hs. destruct l as [| x l]; [congruence |].
  assert (Hin : In x (py_set (x :: l))) by (apply nodup_In; now left).
  rewrite Hs in Hin. contradiction.
Qed.

Lemma update_keeps_prefixes env new id s :
  new <> [] -> every_guild_has_a_prefix s ->
  every_guild_has_a_prefix (snd (update_prefixes env new id s)).
Proof.
  intros Hnew Hs. unfold update_prefixes.
  destruct (g_update_raises env); [exact Hs |].
  intros row Hin. cbn [snd guild_prefs] in Hin.
  apply in_map_iff in Hin as (row' & <- & Hin).
  destruct (fst row' =? id); [exact Hnew | now apply Hs].
Qed.

Lemma lookup_guild_in id l table :
  lookup_guild id table = Some l -> In (id, l) table.
Proof.
  induction table as [| [g l'] table IH]; [discriminate |].
  cbn [lookup_guild]. destruct (g =? id) eqn:E.
  - apply Z.eqb_eq in E. intros H. injection H as ->. subst g. now left.
  - intros H. right. now apply IH.
Qed.

Lemma update_keeps_every_prefix env new id s :
  new <> [] -> every_guild_keeps_a_prefix s ->
  every_guild_keeps_a_prefix (snd (update_prefixes env new id s)).
Proof.
  intros Hnew [Ht Hc]. split; [now apply update_keeps_prefixes |].
  unfold update_prefixes. destruct (g_update_raises env); exact Hc.
Qed.

Lemma refresh_keeps_every_prefix env s :
  refresh_reloads env -> every_guild_keeps_a_prefix s ->
  every_guild_keeps_a_prefix (snd (refresh_guild_cache env s)).
Proof.
  intros Hr [Ht Hc]. unfold refresh_guild_cache.
  destruct (Hr (guild_prefs s)) as [-> | [e ->]]; [| now split].
  split; [exact Ht |]. cbn [snd guild_cache].
  intros id cached Hl. apply lookup_guild_in in Hl. exact (Ht _ Hl).
Qed.

(** X24: no guild is left without a prefix.  With a refresh that loads the
    cache from the table, if every guild has at least one prefix in the
    table and in the cache, so it is, in the table and in the cache, after
    [prefix add] or [prefix remove], whatever is removed and whatever
    fails on the way; the condition is an invariant of any sequence of
    these commands. *)
Theorem guild_keeps_a_prefix env ctx prefix s :
  refresh_reloads env ->
  every_guild_keeps_a_prefix s ->
  every_guild_keeps_a_prefix (snd (_modify_guild_prefixes env ctx prefix s)).
Proof.
  intros Hr Hs. unfold _modify_guild_prefixes.
  destruct (ctx_guild ctx) as [id |]; [| exact Hs].
  destruct (lookup_guild id (guild_cache s)) as [cached |] eqn:Hl; [| exact Hs].
  pose proof (py_set_nonempty cached (proj2 Hs id cached Hl)) as Hne.
  apply cloading_invariant; try assumption.
  - intros a s0 H0. unfold g_react. now destruct (g_react_raises env a).
  - intros e s0 H0. exact H0.
  - intros s0 H0. destruct (ctx_mode ctx).
    + unfold cbind.
      pose proof (update_keeps_every_prefix env
                    (set_add str_eq_dec prefix (py_set cached)) id s0
                    (set_add_not_empty _ _ _) H0) as H1.
      destruct (update_prefixes env _ id s0) as [[e | []] s1]; cbn [snd] in H1;
        [exact H1 | now apply refresh_keeps_every_prefix].
    + destruct (List.length (py_set cached) =? 1)%nat eqn:E; [exact H0 |].
      apply Nat.eqb_neq in E.
      assert (Hnew : set_remove str_eq_dec prefix (py_set cached) <> []).
      { intros Hempty. pose proof (set_remove_length prefix (py_set cached)) as Hlen.
        rewrite Hempty in Hlen. cbn [List.length] in Hlen.
        destruct (py_set cached) as [| x [| y l]]; cbn [List.length] in *;
          [congruence | lia | lia]. }
      unfold cbind.
      pose proof (update_keeps_every_prefix env _ id s0 Hnew H0) as H1.
      destruct (update_prefixes env _ id s0) as [[e | []] s1]; cbn [snd] in H1;
        [exact H1 | now apply refresh_keeps_every_prefix].
Qed.

Lemma guild_keeps_a_prefix_witness :
  every_guild_keeps_a_prefix
    (snd (_modify_guild_prefixes guild_quiet (mkGuildCtx (Some 2) PrefixRemove)
            (Py.lit "?")
            (snd (_modify_guild_prefixes guild_quiet (mkGuildCtx (Some 2) PrefixRemove)
                    (Py.lit "!") one_prefix_guild)))).
Proof.
  assert (Hr : refresh_reloads guild_quiet) by (intros table; now left).
  apply (guild_keeps_a_prefix guild_quiet (mkGuildCtx (Some 2) PrefixRemove)
           (Py.lit "?") _ Hr).
  apply (guild_keeps_a_prefix guild_quiet (mkGuildCtx (Some 2) PrefixRemove)
           (Py.lit "!") one_prefix_guild Hr).
  split.
  - intros row [<- | [<- | []]]; discriminate.
  - intros id cached H. unfold one_prefix_guild in H.
    cbn [guild_cache lookup_guild] in H.
    destruct (1 =? id); [injection H as <-; discriminate |].
    destruct (2 =? id); [injection H as <-; discriminate | discriminate].
Defined.

(** X25: taking away the only prefix of a guild is refused without an
    exception for the caller: the table and the cache stay as they are,
    the refusal goes to the error handler, and the command returns
    normally; this also when the prefix to remove is not the one the
    guild has. *)
Theorem remove_only_prefix_is_refused env id prefix cached s :
  g_react_raises env AddLoading = None ->
  g_react_raises env RemoveLoading = None ->
  lookup_guild id (guild_cache s) = Some cached ->
  List.length (py_set cached) = 1%nat ->
  _modify_guild_prefixes env (mkGuildCtx (Some id) PrefixRemove) prefix s
  = (inr tt,
     mkGuildState (guild_prefs s) (guild_cache s)
                  (command_errors s ++ [CommandError one_prefix_message])).
Proof.
  intros Hadd Hrem Hl Hone. unfold _modify_guild_prefixes.
  cbn [ctx_guild ctx_mode]. rewrite Hl, Hone. cbn [Nat.eqb].
  unfold cloading, g_react at 1. rewrite Hadd.
  unfold craise. cbn [cmd_is_http]. unfold cbind, g_dispatch,
    csuppress_not_found. cbn [cfor_each]. unfold cbind, g_react.
  rewrite Hrem. reflexivity.
Qed.

Lemma remove_only_prefix_is_refused_witness :
  _modify_guild_prefixes guild_quiet (mkGuildCtx (Some 1) PrefixRemove) (Py.lit "zzz")
                         one_prefix_guild
  = (inr tt,
     mkGuildState (guild_prefs one_prefix_guild) (guild_cache one_prefix_guild)
                  (command_errors one_prefix_guild ++ [CommandError one_prefix_message])).
Proof.
  apply (remove_only_prefix_is_refused guild_quiet 1 (Py.lit "zzz") [Py.lit "n/"]
           one_prefix_guild); reflexivity.
Defined.

Lemma lookup_guild_update_same id new table :
  lookup_guild id (map (fun row => if fst row =? id then (id, new) else row) table)
  = match lookup_guild id table with Some _ => Some new | None => None end.
Proof.
  induction table as [| [g l] table IH]; [reflexivity |].
  cbn [map fst lookup_guild]. destruct (g =? id) eqn:Eg.
  - cbn [lookup_guild]. now rewrite Z.eqb_refl.
  - cbn [lookup_guild]. now rewrite Eg.
Qed.

Lemma lookup_guild_update_other id new id' table :
  id' <> id ->
  lookup_guild id' (map (fun row => if fst row =? id then (id, new) else row) table)
  = lookup_guild id' table.
Proof.
  intros Hne. induction table as [| [g l] table IH]; [reflexivity |].
  cbn [map fst lookup_guild]. destruct (g =? id) eqn:Eg.
  - apply Z.eqb_eq in Eg. subst g. cbn [lookup_guild].
    replace (id =? id') with false by (symmetry; apply Z.eqb_neq; congruence).
    exact IH.
  - cbn [lookup_guild]. now rewrite IH.
Qed.

(** X26: what [prefix add] and [prefix remove] write.  With the loading
    reaction placed and the update accepted, the row of the guild holds
    afterwards, each once, the cached prefixes with the new one (add), or
    the cached prefixes without the removed one (remove, for a guild with
    more than one); the rows of the other guilds are as before. *)
Theorem prefix_update_effect env id mode prefix cached old s :
  (forall a, g_react_raises env a = None) ->
  g_update_raises env = None ->
  lookup_guild id (guild_cache s) = Some cached ->
  lookup_guild id (guild_prefs s) = Some old ->
  (mode = PrefixRemove -> List.length (py_set cached) <> 1%nat) ->
  let s' := snd (_modify_guild_prefixes env (mkGuildCtx (Some id) mode) prefix s) in
  exists new,
    lookup_guild id (guild_prefs s') = Some new
    /\ NoDup new
    /\ (forall x, In x new <->
                  match mode with
                  | PrefixAdd => x = prefix \/ In x cached
                  | PrefixRemove => In x cached /\ x <> prefix
                  end)
    /\ forall id', id' <> id ->
         lookup_guild id' (guild_prefs s') = lookup_guild id' (guild_prefs s).
Proof.
  intros Hre Hup Hcache Hrow Hmode s'.
  set (new := match mode with
              | PrefixAdd => set_add str_eq_dec prefix (py_set cached)
              | PrefixRemove => set_remove str_eq_dec prefix (py_set cached)
              end).
  assert (Htable : guild_prefs s'
                   = map (fun row => if fst row =? id then (id, new) else row)
                         (guild_prefs s)).
  { subst s'. unfold _modify_guild_prefixes. cbn [ctx_guild ctx_mode].
    rewrite Hcache. unfold cloading, g_react at 1. rewrite Hre.
    assert (Hbody : forall b : Cmd GuildState unit,
              b = (update_prefixes env new id ;;; refresh_guild_cache env) ->
              guild_prefs (snd
                match b s with
                | (inl e, s2) =>
                    if cmd_is_http e then (inl (Raised Py.RuntimeError), s2)
                    else (g_dispatch e ;;;
                          csuppress_not_found (cfor_each [RemoveLoading] (g_react env))) s2
                | (inr _, s2) =>
                    csuppress_not_found
                      (cfor_each [RemoveLoading; AddTick] (g_react env)) s2
                end)
              = map (fun row => if fst row =? id then (id, new) else row)
                    (guild_prefs s)).
    { intros b ->. unfold cbind at 1, update_prefixes. rewrite Hup.
      unfold refresh_guild_cache. cbn [guild_prefs].
      destruct (g_refresh env _) as [e | cache].
      - cbn [cmd_is_http]. destruct (Py.is_http e); [reflexivity |].
        unfold cbind, g_dispatch, csuppress_not_found. cbn [cfor_each].
        unfold cbind, g_react. rewrite Hre. reflexivity.
      - unfold csuppress_not_found. cbn [cfor_each].
        unfold cbind, g_react. rewrite !Hre. reflexivity. }
    destruct mode.
    - now apply Hbody.
    - destruct (List.length (py_set cached) =? 1)%nat eqn:E.
      + apply Nat.eqb_eq in E. now destruct (Hmode eq_refl).
      + now apply Hbody. }
  exists new. rewrite Htable. split; [| split; [| split]].
  - rewrite lookup_guild_update_same, Hrow. reflexivity.
  - unfold new. destruct mode;
      [apply set_add_nodup | apply set_remove_nodup]; apply NoDup_nodup.
  - intros x. unfold new. destruct mode.
    + rewrite set_add_iff. unfold py_set. now rewrite nodup_In.
    + rewrite set_remove_iff by apply NoDup_nodup.
      unfold py_set. now rewrite nodup_In.
  - intros id' Hne. now apply lookup_guild_update_other.
Qed.

Lemma prefix_update_effect_witness :
  let s' := snd (_modify_guild_prefixes guild_quiet (mkGuildCtx (Some 2) PrefixRemove)
                   (Py.lit "!") one_prefix_guild) in
  exists new,
    lookup_guild 2 (guild_prefs s') = Some new
    /\ NoDup new
    /\ (forall x, In x new <-> In x [Py.lit "!"; Py.lit "?"] /\ x <> Py.lit "!")
    /\ forall id', id' <> 2 ->
         lookup_guild id' (guild_prefs s') = lookup_guild id' (guild_prefs one_prefix_guild).
Proof.
  apply (prefix_update_effect guild_quiet 2 PrefixRemove (Py.lit "!")
           [Py.lit "!"; Py.lit "?"] [Py.lit "!"; Py.lit "?"] one_prefix_guild);
    try reflexivity.
  intros _. vm_compute. discriminate.
Defined.

(** The two models of [ctx.loading()] agree on the coroutines of the
    scheduler. *)
Lemma cloading_agrees env body s :
  cloading (fun a => lift_coro (react env a))
           (fun e => match e with
                     | Raised e' => lift_coro (dispatch_command_error e')
                     | CommandError _ => cret tt
                     end)
           (lift_coro body) s
  = lift_coro (loading env body) s.
Proof.
  unfold cloading, loading, lift_coro, react, finally_gather, suppress, gather,
    csuppress_not_found, dispatch_command_error, log.
  cbn [cfor_each for_each]. unfold cbind, bind, cret, ret, craise, raise, react.
  destruct (react_raises env AddLoading) as [e0 |].
  - cbn [cmd_is_http]. destruct (Py.is_http e0).
    + destruct (body s) as [[e | []] s1];
        destruct (react_raises env RemoveLoading) as [[] |]; reflexivity.
    + destruct (react_raises env RemoveLoading) as [[] |]; reflexivity.
  - destruct (body s) as [[e | []] s1].
    + cbn [cmd_is_http]. destruct (Py.is_http e); [reflexivity |].
      destruct (react_raises env RemoveLoading) as [[] |]; reflexivity.
    + destruct (react_raises env RemoveLoading) as [[] |];
        try reflexivity;
        destruct (react_raises env AddTick) as [[] |]; reflexivity.
Qed.

(** ** Reddit posts *)

Example filter_posts_image :
  filter_posts (JDict [(Py.lit "is_video", JBool false)]) = inr true.
Proof. reflexivity. Qed.

Example filter_posts_gif :
  filter_posts
    (JDict [(Py.lit "preview",
             JDict [(Py.lit "reddit_video_preview",
                     JDict [(Py.lit "is_gif", JBool true)])]);
            (Py.lit "is_video", JBool false)]) = inr false.
Proof. reflexivity. Qed.

(** X27: [filter_posts] accepts a post only if its [is_video] is the
    value [False] itself: a post that is a video, and a post without the
    field, are rejected; and a post with a video preview is accepted only
    if the [is_gif] of the preview is [False]. *)
Theorem filter_posts_accepts_only_stills d :
  filter_posts (JDict d) = inr true ->
  dict_get (Py.lit "is_video") d = JBool false
  /\ forall p p2,
       dict_get (Py.lit "preview") d = JDict p -> p <> [] ->
       dict_get (Py.lit "reddit_video_preview") p = JDict p2 -> p2 <> [] ->
       dict_get (Py.lit "is_gif") p2 = JBool false.
Proof.
  unfold filter_posts. cbn [json_get].
  assert (HF : forall v, is_False v = true -> v = JBool false).
  { intros [| [|] | | | |] H; try discriminate H. reflexivity. }
  intros H. split.
  - destruct (truthy (dict_get (Py.lit "preview") d)).
    + destruct (json_get (dict_get (Py.lit "preview") d) _) as [e | p2];
        [discriminate |].
      destruct (truthy p2).
      * destruct (json_get p2 _) as [e | g]; [discriminate |].
        injection H as H. cbn [app forallb] in H.
        apply andb_true_iff in H as [_ H]. apply andb_true_iff in H as [H _].
        now apply HF.
      * injection H as H. cbn [app forallb] in H.
        apply andb_true_iff in H as [H _]. now apply HF.
    + injection H as H. cbn [app forallb] in H.
      apply andb_true_iff in H as [H _]. now apply HF.
  - intros p p2 Hp Hpne Hp2 Hp2ne. rewrite Hp in H.
    assert (Htp : truthy (JDict p) = true) by (destruct p; [congruence | reflexivity]).
    rewrite Htp in H. cbn [json_get] in H. rewrite Hp2 in H.
    assert (Htp2 : truthy (JDict p2) = true) by (destruct p2; [congruence | reflexivity]).
    rewrite Htp2 in H. cbn [json_get app forallb] in H.
    injection H as H. apply andb_true_iff in H as [H _]. now apply HF.
Qed.

Lemma filter_posts_accepts_only_stills_witness :
  dict_get (Py.lit "is_video") [(Py.lit "is_video", JBool false)] = JBool false.
Proof.
  exact (proj1 (filter_posts_accepts_only_stills
                  [(Py.lit "is_video", JBool false)] eq_refl)).
Defined.
